(** * csvbase: schema inference and cell conversion

    A shallow embedding of [csvbase/conv.py], [csvbase/streams.py],
    [csvbase/exc.py] and the value objects of [csvbase/value_objs.py] they
    use, followed by the properties of the specification stated over it.

    Conventions of the embedding:
    - a Python [str] is a [string]; each [ascii] stands for the code point
      of the same number, so the strings covered are those over code points
      0..255.  On that range [\d] is [0-9] and the white space of
      [str.strip], [str.isspace] and [int] is the twelve characters of
      [is_space];
    - a [bytes] value is a [string] as well, one [ascii] per byte;
    - a raised exception is the [Err] of [result]; code that works on a
      stream runs in the state-and-error monad [M] over [world];
    - calls of [logger] have no effect on results or streams and are left
      out. *)

From Stdlib Require Import String Ascii List ZArith Lia Bool Arith.
From Stdlib Require Import Permutation DecimalString SpecFloat.
From Stdlib Require DecimalPos.
Import ListNotations.

Set Implicit Arguments.
Set Warnings "-abstract-large-number".

Local Open Scope string_scope.
Local Open Scope list_scope.
Local Open Scope nat_scope.

(** ** Exceptions and results *)

(** [csvbase.value_objs.ColumnType]. *)
Inductive ColumnType : Type := TEXT | INTEGER | FLOAT | BOOLEAN | DATE.

(** The exceptions that the embedded code can raise: three of [csvbase.exc],
    and those of the interpreter and of the [csv] and [codecs] modules. *)
Inductive exn : Type :=
| UnconvertableValueException (expected_type : ColumnType) (string_ : string)
| BlankCSVException (message : string)
| TableDefinitionMismatchException
| ValueError
| TypeError
| StopIteration
| LookupError
| csv_Error.

Inductive result (A : Type) : Type :=
| Ok (a : A)
| Err (e : exn).

Arguments Ok {A} a.
Arguments Err {A} e.

Definition is_ok {A} (r : result A) : bool :=
  match r with Ok _ => true | Err _ => false end.

(** [exc.UnconvertableValueException.__init__(self, expected_type, string)]
    declares two required parameters; [None] stands for an argument the call
    site leaves out, and such a call raises [TypeError] instead of building
    the exception. *)
Definition UnconvertableValueException_new
    (expected_type : option ColumnType) (string_ : option string) : exn :=
  match expected_type, string_ with
  | Some t, Some s => UnconvertableValueException t s
  | _, _ => TypeError
  end.

(** ** Python strings *)

Module Py.

Definition ord (c : ascii) : nat := nat_of_ascii c.

Definition is_digit (c : ascii) : bool := (48 <=? ord c) && (ord c <=? 57).

(** White space of [str.isspace] and [str.strip]: TAB, LF, VT, FF, CR,
    FS, GS, RS, US, SPACE, NEL and NBSP. *)
Definition is_space (c : ascii) : bool :=
  let n := ord c in
  ((9 <=? n) && (n <=? 13)) || ((28 <=? n) && (n <=? 32))
  || (n =? 133) || (n =? 160).

Definition LF : ascii := ascii_of_nat 10.
Definition SPACE : ascii := ascii_of_nat 32.

Fixpoint lstrip (s : string) : string :=
  match s with
  | String c s' => if is_space c then lstrip s' else s
  | EmptyString => s
  end.

Fixpoint rstrip (s : string) : string :=
  match s with
  | String c s' =>
      match rstrip s' with
      | EmptyString => if is_space c then EmptyString else String c EmptyString
      | t => String c t
      end
  | EmptyString => EmptyString
  end.

(** [s.strip()] *)
Definition strip (s : string) : string := rstrip (lstrip s).

Fixpoint all_chars (p : ascii -> bool) (s : string) : bool :=
  match s with
  | String c s' => p c && all_chars p s'
  | EmptyString => true
  end.

(** [s.isspace()]: every character is white space and there is one. *)
Definition isspace (s : string) : bool :=
  match s with
  | EmptyString => false
  | _ => all_chars is_space s
  end.

(** [s.replace(c, "")] for a one-character [c]. *)
Fixpoint remove_char (c : ascii) (s : string) : string :=
  match s with
  | String a s' =>
      if Ascii.eqb a c then remove_char c s' else String a (remove_char c s')
  | EmptyString => EmptyString
  end.

Definition digit_val (c : ascii) : Z := Z.of_nat (ord c - 48).

(** Value of a run of digits in which single underscores may separate two
    digits; [None] on any other character, on an empty run, and on an
    underscore that is not between two digits. *)
Fixpoint digits_acc (acc : Z) (prev_digit : bool) (s : string) : option Z :=
  match s with
  | EmptyString => if prev_digit then Some acc else None
  | String c s' =>
      if is_digit c then digits_acc (10 * acc + digit_val c) true s'
      else if Ascii.eqb c "_" then
        match s' with
        | String d _ =>
            if prev_digit && is_digit d then digits_acc acc false s' else None
        | EmptyString => None
        end
      else None
  end.

Definition split_sign (s : string) : bool * string :=
  match s with
  | String "-" s' => (true, s')
  | String "+" s' => (false, s')
  | _ => (false, s)
  end.

(** [int(s)] for a [str]: white space around, an optional sign, decimal
    digits.  The interpreter's optional cap on the number of digits is not
    part of the model. *)
Definition int (s : string) : result Z :=
  let (neg, body) := split_sign (strip s) in
  match digits_acc 0 false body with
  | Some n => Ok (if neg then (- n)%Z else n)
  | None => Err ValueError
  end.

(** [str(n)] for an [int]. *)
Definition str_int (n : Z) : string := NilZero.string_of_int (Z.to_int n).

Definition str_nat (n : nat) : string := NilZero.string_of_uint (Nat.to_uint n).

End Py.

(** ** Regular expressions: the fragment of [re] that [conv.py] uses *)

Module Re.

Inductive regex : Type :=
| Eps
| Bol                       (* ^ *)
| Eol                       (* $ *)
| Chr (c : ascii)
| Digit                     (* \d *)
| Seq (r1 r2 : regex)
| Alt (r1 r2 : regex)       (* r1|r2, the left one first *)
| Star (r : regex).         (* r*, greedy *)

Definition Opt (r : regex) : regex := Alt r Eps.        (* r? *)
Definition Plus (r : regex) : regex := Seq r (Star r).  (* r+ *)

Fixpoint Rep (n : nat) (r : regex) : regex :=            (* r{n} *)
  match n with
  | 0 => Eps
  | S n' => Seq r (Rep n' r)
  end.

(** A literal word, character by character. *)
Fixpoint Lit (s : string) : regex :=
  match s with
  | EmptyString => Eps
  | String c s' => Seq (Chr c) (Lit s')
  end.

(** A compiled pattern: the expression and the [re.I] flag. *)
Record Pattern : Type := compile { expr : regex; ignorecase : bool }.

(** Lower case on code points 0..255: [A-Z] and the letters 192..222
    other than 215. *)
Definition lower (c : ascii) : ascii :=
  let n := Py.ord c in
  if ((65 <=? n) && (n <=? 90))
     || ((192 <=? n) && (n <=? 222) && negb (n =? 215))
  then ascii_of_nat (n + 32) else c.

Definition chr_eq (ic : bool) (c a : ascii) : bool :=
  if ic then Ascii.eqb (lower c) (lower a) else Ascii.eqb c a.

(** [$] without [re.M]: at the end, or before a line feed that ends the
    string. *)
Definition at_eol (s : string) : bool :=
  match s with
  | EmptyString => true
  | String c EmptyString => Ascii.eqb c Py.LF
  | _ => false
  end.

(** The loop of a star.  [step] matches the starred expression once;
    [fuel] bounds the number of rounds by the length of the text, which
    each round has to shorten. *)
Fixpoint star_loop
    (step : nat -> string -> (nat -> string -> option nat) -> option nat)
    (k : nat -> string -> option nat)
    (fuel pos : nat) (s : string) {struct fuel} : option nat :=
  match fuel with
  | 0 => k pos s
  | S fuel' =>
      match step pos s
              (fun p t =>
                 if String.length t <? String.length s
                 then star_loop step k fuel' p t else None) with
      | Some e => Some e
      | None => k pos s
      end
  end.

(** Backtracking matcher.  [pos] is the number of characters consumed so
    far, [s] what is left, [k] what to do after [r] has matched; the answer
    is the end position of the first match in the engine's order
    (alternatives left to right, repetitions longest first).  An iteration
    of a star that consumes nothing is not repeated. *)
Fixpoint run (ic : bool) (r : regex) (pos : nat) (s : string)
    (k : nat -> string -> option nat) {struct r} : option nat :=
  match r with
  | Eps => k pos s
  | Bol => if pos =? 0 then k pos s else None
  | Eol => if at_eol s then k pos s else None
  | Chr c =>
      match s with
      | String a s' => if chr_eq ic c a then k (S pos) s' else None
      | EmptyString => None
      end
  | Digit =>
      match s with
      | String a s' => if Py.is_digit a then k (S pos) s' else None
      | EmptyString => None
      end
  | Seq r1 r2 => run ic r1 pos s (fun p t => run ic r2 p t k)
  | Alt r1 r2 =>
      match run ic r1 pos s k with
      | Some e => Some e
      | None => run ic r2 pos s k
      end
  | Star r' => star_loop (run ic r') k (String.length s) pos s
  end.

(** [pattern.match(s)]: [Some] of the matched text ([m.group()]) when the
    pattern matches at the start of [s], [None] otherwise. *)
Definition match_ (p : Pattern) (s : string) : option string :=
  match run (ignorecase p) (expr p) 0 s (fun e _ => Some e) with
  | Some e => Some (substring 0 e s)
  | None => None
  end.

Definition matches (p : Pattern) (s : string) : bool :=
  match match_ p s with Some _ => true | None => false end.

(** What an expression matches, apart from the order of the search:
    [lang ic r pos s pos' t] says that [r] matches the text between [s]
    and its suffix [t], from position [pos] to position [pos'].  A round
    of a star consumes at least one character. *)
Inductive lang (ic : bool)
  : regex -> nat -> string -> nat -> string -> Prop :=
| lang_Eps pos s : lang ic Eps pos s pos s
| lang_Bol s : lang ic Bol 0 s 0 s
| lang_Eol pos s : at_eol s = true -> lang ic Eol pos s pos s
| lang_Chr c a pos s :
    chr_eq ic c a = true -> lang ic (Chr c) pos (String a s) (S pos) s
| lang_Digit a pos s :
    Py.is_digit a = true -> lang ic Digit pos (String a s) (S pos) s
| lang_Seq r1 r2 pos s p1 t p2 u :
    lang ic r1 pos s p1 t -> lang ic r2 p1 t p2 u ->
    lang ic (Seq r1 r2) pos s p2 u
| lang_Alt_l r1 r2 pos s p t :
    lang ic r1 pos s p t -> lang ic (Alt r1 r2) pos s p t
| lang_Alt_r r1 r2 pos s p t :
    lang ic r2 pos s p t -> lang ic (Alt r1 r2) pos s p t
| lang_Star_stop r pos s : lang ic (Star r) pos s pos s
| lang_Star_step r pos s p1 t p2 u :
    lang ic r pos s p1 t -> String.length t < String.length s ->
    lang ic (Star r) p1 t p2 u ->
    lang ic (Star r) pos s p2 u.

(** The characters that an expression can consume. *)
Fixpoint eats (ic : bool) (r : regex) (a : ascii) : bool :=
  match r with
  | Chr c => chr_eq ic c a
  | Digit => Py.is_digit a
  | Seq r1 r2 | Alt r1 r2 => eats ic r1 a || eats ic r2 a
  | Star r' => eats ic r' a
  | Eps | Bol | Eol => false
  end.

End Re.

(** ** Python values: dates, floats and the cell values of a row *)

(** [datetime.date]: the proleptic Gregorian calendar, years 1..9999. *)
Module PyDate.

Record date : Type := mk_date { year : Z; month : Z; day : Z }.

Definition is_leap (y : Z) : bool :=
  ((y mod 4 =? 0) && negb (y mod 100 =? 0) || (y mod 400 =? 0))%Z.

Definition days_in_month (y m : Z) : Z :=
  (if m =? 2 then (if is_leap y then 29 else 28)
   else if (m =? 4) || (m =? 6) || (m =? 9) || (m =? 11) then 30
   else 31)%Z.

(** [date(y, m, d)]: [ValueError] outside the calendar. *)
Definition new (y m d : Z) : result date :=
  (if (1 <=? y) && (y <=? 9999) && (1 <=? m) && (m <=? 12)
      && (1 <=? d) && (d <=? days_in_month y m)
   then Ok (mk_date y m d) else Err ValueError)%Z.

Definition digits_of (s : string) : option Z :=
  if Py.all_chars Py.is_digit s then Py.digits_acc 0 false s else None.

(** [date.fromisoformat(s)] as in the interpreters up to 3.10: exactly ten
    characters, [YYYY-MM-DD]. *)
Definition fromisoformat (s : string) : result date :=
  if negb (String.length s =? 10) then Err ValueError
  else
    match digits_of (substring 0 4 s), substring 4 1 s,
          digits_of (substring 5 2 s), substring 7 1 s,
          digits_of (substring 8 2 s) with
    | Some y, "-", Some m, "-", Some d => new y m d
    | _, _, _, _, _ => Err ValueError
    end.

(** Decimal digits of a non-negative number, padded with zeros on the left
    to [width] characters. *)
Definition pad (width : nat) (n : Z) : string :=
  let s := Py.str_int n in
  (fix zeros (k : nat) : string :=
     match k with 0 => s | S k' => String "0" (zeros k') end)
    (width - String.length s).

(** [str(d)], which is [d.isoformat()]. *)
Definition isoformat (d : date) : string :=
  pad 4 (year d) ++ "-" ++ pad 2 (month d) ++ "-" ++ pad 2 (day d).

End PyDate.

(** [float]: IEEE 754 binary64 with round to nearest, ties to even, on the
    specification floats of the Standard Library. *)
Module PyFloat.

Definition prec : Z := 53.
Definition emax : Z := 1024.

Definition same (x y : spec_float) : bool :=
  match x, y with
  | S754_zero a, S754_zero b => Bool.eqb a b
  | S754_infinity a, S754_infinity b => Bool.eqb a b
  | S754_nan, S754_nan => true
  | S754_finite a m e, S754_finite b n f =>
      Bool.eqb a b && Pos.eqb m n && Z.eqb e f
  | _, _ => false
  end.

(** The float nearest to [(-1)^neg * m * 10^e], for [0 <= m]. *)
Definition of_decimal (neg : bool) (m e : Z) : spec_float :=
  match m with
  | Zpos p =>
      match e with
      | Zneg k =>
          SFdiv prec emax (S754_finite neg p 0)
                (S754_finite false (10 ^ k)%positive 0)
      | _ => binary_round prec emax neg (p * Z.to_pos (10 ^ e))%positive 0
      end
  | _ => S754_zero neg
  end.

Fixpoint span_digits (acc : Z) (n : nat) (s : string) : Z * nat * string :=
  match s with
  | String c s' =>
      if Py.is_digit c
      then span_digits (10 * acc + Py.digit_val c)%Z (S n) s'
      else (acc, n, s)
  | EmptyString => (acc, n, s)
  end.

(** Underscores are dropped when each stands between two digits. *)
Fixpoint drop_underscores (prev : ascii) (s : string) : option string :=
  match s with
  | EmptyString => if Ascii.eqb prev "_" then None else Some EmptyString
  | String c s' =>
      if Ascii.eqb c "_" then
        if Py.is_digit prev then drop_underscores c s' else None
      else if Ascii.eqb prev "_" && negb (Py.is_digit c) then None
      else option_map (String c) (drop_underscores c s')
  end.

Fixpoint lower_str (s : string) : string :=
  match s with
  | String c s' => String (Re.lower c) (lower_str s')
  | EmptyString => EmptyString
  end.

(** The exponent part: nothing, or [e] or [E], an optional sign and at
    least one digit, up to the end of the text. *)
Definition exponent (s : string) : option Z :=
  match s with
  | EmptyString => Some 0%Z
  | String c s' =>
      if Ascii.eqb (Re.lower c) "e" then
        let (neg, ds) := Py.split_sign s' in
        match span_digits 0 0 ds with
        | (x, S _, EmptyString) => Some (if neg then (- x)%Z else x)
        | _ => None
        end
      else None
  end.

(** The number after the sign: digits with an optional point, one digit at
    least, and an optional exponent. *)
Definition number (neg : bool) (s : string) : result spec_float :=
  let '(i, ni, r1) := span_digits 0 0 s in
  let '(m, nf, r2) :=
    match r1 with
    | String "." r => span_digits i 0 r
    | _ => (i, 0, r1)
    end in
  match ni + nf, exponent r2 with
  | S _, Some x => Ok (of_decimal neg m (x - Z.of_nat nf))
  | _, _ => Err ValueError
  end.

(** [float(s)] for a [str]. *)
Definition float (s : string) : result spec_float :=
  let (neg, body) := Py.split_sign (Py.strip s) in
  let word := lower_str body in
  if String.eqb word "inf" || String.eqb word "infinity"
  then Ok (S754_infinity neg)
  else if String.eqb word "nan" then Ok S754_nan
  else
    match drop_underscores "." body with
    | Some t => number neg t
    | None => Err ValueError
    end.

(** *** [repr]: the shortest digits that read back as the same float *)

Definition ndigits (n : Z) : Z := Z.of_nat (String.length (Py.str_int n)).

(** [num/den * 10^s], as a fraction. *)
Definition scale (num den s : Z) : Z * Z :=
  match s with
  | Zneg k => (num, den * 10 ^ Zpos k)%Z
  | _ => (num * 10 ^ s, den)%Z
  end.

(** The [k] with [10^(k-1) <= num/den < 10^k]. *)
Definition decimal_point (num den : Z) : Z :=
  let k0 := (ndigits num - ndigits den)%Z in
  let (n, d) := scale num den (- k0) in
  if (d <=? n)%Z then (k0 + 1)%Z else k0.

(** The [n]-digit decimals next to [num/den] (below and above) that read
    back as [x]; of two, the nearer, and the even one when they are equally
    near.  The answer is the digits as a number and their power of ten. *)
Definition candidate (x : spec_float) (num den k : Z) (n : nat)
  : option (Z * Z) :=
  let e := (k - Z.of_nat n)%Z in
  let (sn, sd) := scale num den (- e) in
  let lo := (sn / sd)%Z in
  let r := (sn mod sd)%Z in
  let hi := (lo + 1)%Z in
  let ok_lo := same (of_decimal false lo e) x && (0 <? lo)%Z in
  let ok_hi := same (of_decimal false hi e) x in
  if (r =? 0)%Z then Some (lo, e)
  else if ok_lo && ok_hi then
    match (2 * r ?= sd)%Z with
    | Lt => Some (lo, e)
    | Gt => Some (hi, e)
    | Eq => if Z.even lo then Some (lo, e) else Some (hi, e)
    end
  else if ok_lo then Some (lo, e)
  else if ok_hi then Some (hi, e)
  else None.

Fixpoint shortest (x : spec_float) (num den k : Z) (n fuel : nat)
  : Z * Z :=
  match fuel with
  | 0 => (0, 0)%Z
  | S fuel' =>
      match candidate x num den k n with
      | Some c => c
      | None => shortest x num den k (S n) fuel'
      end
  end.

Fixpoint strip_zeros (s : string) : string :=
  match s with
  | String c s' =>
      match strip_zeros s' with
      | EmptyString =>
          if Ascii.eqb c "0" then EmptyString else String c EmptyString
      | t => String c t
      end
  | EmptyString => EmptyString
  end.

Fixpoint zeros (n : nat) : string :=
  match n with 0 => EmptyString | S n' => String "0" (zeros n') end.

(** Layout of [repr]: digits [ds] with the point after [decpt] of them;
    exponent form when [decpt <= -4] or [16 < decpt]. *)
Definition layout (ds : string) (decpt : Z) : string :=
  let len := Z.of_nat (String.length ds) in
  if ((decpt <=? -4) || (16 <? decpt))%Z then
    let x := (decpt - 1)%Z in
    let mant :=
      match ds with
      | String c EmptyString => String c EmptyString
      | String c rest => String c ("." ++ rest)
      | EmptyString => EmptyString
      end in
    mant ++ "e" ++ (if (x <? 0)%Z then "-" else "+")
         ++ PyDate.pad 2 (Z.abs x)
  else if (decpt <=? 0)%Z then "0." ++ zeros (Z.to_nat (- decpt)) ++ ds
  else if (decpt <? len)%Z then
    substring 0 (Z.to_nat decpt) ds ++ "."
    ++ substring (Z.to_nat decpt) (String.length ds) ds
  else ds ++ zeros (Z.to_nat (decpt - len)) ++ ".0".

(** [repr(x)], which is also [str(x)]. *)
Definition repr (x : spec_float) : string :=
  match x with
  | S754_nan => "nan"
  | S754_infinity s => if s then "-inf" else "inf"
  | S754_zero s => if s then "-0.0" else "0.0"
  | S754_finite s m e =>
      let (num, den) :=
        match e with
        | Zneg k => (Zpos m, 2 ^ Zpos k)%Z
        | _ => (Zpos m * 2 ^ e, 1)%Z
        end in
      let k := decimal_point num den in
      let (d, e10) := shortest (S754_finite false m e) num den k 1 17 in
      let ds := Py.str_int d in
      let decpt := (Z.of_nat (String.length ds) + e10)%Z in
      (if s then "-" else "") ++ layout (strip_zeros ds) decpt
  end.

End PyFloat.


(** [value_objs.PythonType]: what a cell of a row holds. *)
Inductive PythonType : Type :=
| PInt (n : Z)
| PBool (b : bool)
| PFloat (x : spec_float)
| PDate (d : PyDate.date)
| PStr (s : string)
| PNone.

(** [str(v)] *)
Definition py_str (v : PythonType) : string :=
  match v with
  | PInt n => Py.str_int n
  | PBool b => if b then "True" else "False"
  | PFloat x => PyFloat.repr x
  | PDate d => PyDate.isoformat d
  | PStr s => s
  | PNone => "None"
  end.

(** ** [csvbase/value_objs.py] *)

Module ValueObjs.

(** [ColumnType.example]; the literal [3.14] is the float nearest to
    314/100. *)
Definition example (self : ColumnType) : PythonType :=
  match self with
  | TEXT => PStr "foo"
  | INTEGER => PInt 1
  | FLOAT => PFloat (PyFloat.of_decimal false 314 (-2))
  | BOOLEAN => PBool false
  | DATE => PDate (PyDate.mk_date 2018 1 3)
  end.

Record Column : Type := mk_Column { name : string; type_ : ColumnType }.

Definition ROW_ID_COLUMN : Column := mk_Column "csvbase_row_id" INTEGER.

Inductive KeySetOp : Type := greater_than | less_than.

(** [KeySet] is a plain [@dataclass]: four fields, no [__post_init__]. *)
Record KeySet : Type := mk_KeySet {
  columns : list Column;
  values : list PythonType;
  op : KeySetOp;
  size : Z
}.

(** The [__init__] that [@dataclass] generates for [KeySet]: it stores its
    arguments; [size] is optional and defaults to 10. *)
Definition KeySet_init (columns : list Column) (values : list PythonType)
    (op : KeySetOp) (size : option Z) : result KeySet :=
  Ok (mk_KeySet columns values op
        (match size with Some n => n | None => 10%Z end)).

Record RowCount : Type := mk_RowCount { exact : option Z; approx : Z }.

(** [RowCount.best]: [self.exact or self.approx].  The left operand is the
    answer when it is true; [None] and [0] are false. *)
Definition best (self : RowCount) : Z :=
  match exact self with
  | Some n => if (n =? 0)%Z then approx self else n
  | None => approx self
  end.

End ValueObjs.

(** *** The other value objects of [value_objs.py] *)

(** Subscripting a dict or a list: the value found, or the exception. *)
Inductive subscript (A : Type) : Type :=
| Got (a : A)
| KeyError
| IndexError.

Arguments Got {A} a.
Arguments KeyError {A}.
Arguments IndexError {A}.

(** A dict literal whose keys are compared by [eqb]; [table[key]]. *)
Fixpoint table_get {K V} (eqb : K -> K -> bool) (key : K)
    (table : list (K * V)) : subscript V :=
  match table with
  | [] => KeyError
  | (k, v) :: rest => if eqb k key then Got v else table_get eqb key rest
  end.

(** [table[key] = v], a key that is present keeping its place. *)
Fixpoint table_set {K V} (eqb : K -> K -> bool) (key : K) (v : V)
    (table : list (K * V)) : list (K * V) :=
  match table with
  | [] => [(key, v)]
  | (k, v') :: rest =>
      if eqb k key then (k, v) :: rest
      else (k, v') :: table_set eqb key v rest
  end.

(** [s.startswith(p)] *)
Fixpoint startswith (p s : string) : bool :=
  match p, s with
  | EmptyString, _ => true
  | String a p', String b s' => Ascii.eqb a b && startswith p' s'
  | String _ _, EmptyString => false
  end.

Module DataLicence.

Inductive t : Type :=
| UNKNOWN | ALL_RIGHTS_RESERVED | PDDL | ODC_BY | ODBL | OGL.

Definition value (self : t) : Z :=
  match self with
  | UNKNOWN => 0
  | ALL_RIGHTS_RESERVED => 1
  | PDDL => 2
  | ODC_BY => 3
  | ODBL => 4
  | OGL => 5
  end.

(** Members of a unique enumeration are equal when their values are. *)
Definition eqb (a b : t) : bool := (value a =? value b)%Z.

Definition _DATA_LICENCE_PP_MAP : list (t * string) :=
  [(UNKNOWN, "Unknown");
   (ALL_RIGHTS_RESERVED, "All rights reserved");
   (PDDL, "PDDL (public domain)");
   (ODC_BY, "ODB-By (attribution required)");
   (ODBL, "ODbl (attribution & sharealike)");
   (OGL, "Open Government Licence")].

Definition _DATA_LICENCE_SHORT_MAP : list (t * string) :=
  [(UNKNOWN, "Unknown");
   (ALL_RIGHTS_RESERVED, "All rights reserved");
   (PDDL, "Public domain");
   (ODC_BY, "ODB-By");
   (ODBL, "ODbl");
   (OGL, "OGL")].

Definition render (self : t) : subscript string :=
  table_get eqb self _DATA_LICENCE_PP_MAP.

Definition short_render (self : t) : subscript string :=
  table_get eqb self _DATA_LICENCE_SHORT_MAP.

(** [self.value > 1] *)
Definition is_free (self : t) : bool := (1 <? value self)%Z.

End DataLicence.

(** The methods of [ColumnType] other than [example], and its tables. *)
Module ColumnTypes.

Definition value (self : ColumnType) : Z :=
  match self with
  | TEXT => 1
  | INTEGER => 2
  | FLOAT => 3
  | BOOLEAN => 4
  | DATE => 5
  end.

Definition eqb (a b : ColumnType) : bool := (value a =? value b)%Z.

(** The classes of [sqlalchemy.types] that the table names. *)
Inductive SQLAlchemyType : Type :=
| sa_Text | sa_BigInteger | sa_Float | sa_Boolean | sa_Date.

(** The Python classes that the table names. *)
Inductive PythonClass : Type :=
| py_str_class | py_int_class | py_float_class | py_bool_class
| py_date_class.

Definition _SQLA_TYPE_MAP : list (ColumnType * SQLAlchemyType) :=
  [(TEXT, sa_Text); (INTEGER, sa_BigInteger); (FLOAT, sa_Float);
   (BOOLEAN, sa_Boolean); (DATE, sa_Date)].

Definition _REVERSE_SQL_TYPE_MAP : list (string * ColumnType) :=
  [("boolean", BOOLEAN); ("bigint", INTEGER); ("date", DATE);
   ("double precision", FLOAT); ("integer", INTEGER); ("text", TEXT)].

Definition _PYTHON_TYPE_MAP : list (ColumnType * PythonClass) :=
  [(TEXT, py_str_class); (INTEGER, py_int_class); (FLOAT, py_float_class);
   (BOOLEAN, py_bool_class); (DATE, py_date_class)].

Definition _PRETTY_TYPE_MAP : list (ColumnType * string) :=
  [(TEXT, "string"); (INTEGER, "integer"); (FLOAT, "float");
   (BOOLEAN, "boolean"); (DATE, "date")].

Definition from_sql_type (sqla_type : string) : subscript ColumnType :=
  table_get String.eqb sqla_type _REVERSE_SQL_TYPE_MAP.

Definition sqla_type (self : ColumnType) : subscript SQLAlchemyType :=
  table_get eqb self _SQLA_TYPE_MAP.

Definition python_type (self : ColumnType) : subscript PythonClass :=
  table_get eqb self _PYTHON_TYPE_MAP.

Definition pretty_type (self : ColumnType) : subscript string :=
  table_get eqb self _PRETTY_TYPE_MAP.

End ColumnTypes.

Module ContentType.

Inductive t : Type :=
| CSV | HTML | HTML_FORM | JSON | JSON_LINES | PARQUET | XLSX.

Definition value (self : t) : string :=
  match self with
  | CSV => "text/csv"
  | HTML => "text/html"
  | HTML_FORM => "application/x-www-form-urlencoded"
  | JSON => "application/json"
  | JSON_LINES => "application/x-jsonlines"
  | PARQUET => "application/parquet"
  | XLSX =>
      "application/vnd.openxmlformats-officedocument.spreadsheetml.sheet"
  end.

Definition eqb (a b : t) : bool := String.eqb (value a) (value b).

Definition EXTENSION_MAP : list (string * t) :=
  [("html", HTML); ("csv", CSV); ("parquet", PARQUET); ("json", JSON);
   ("jsonl", JSON_LINES); ("xlsx", XLSX)].

(** [{v: k for k, v in EXTENSION_MAP.items()}] *)
Definition EXTENSION_MAP_REVERSE : list (t * string) :=
  fold_left (fun d kv => table_set eqb (snd kv) (fst kv) d) EXTENSION_MAP [].

Definition PRETTY_NAME_MAP : list (t * string) :=
  [(HTML, "HTML"); (CSV, "CSV"); (PARQUET, "Parquet"); (JSON, "JSON");
   (JSON_LINES, "JSON lines"); (XLSX, "MS Excel")].

(** [EXTENSION_MAP.get(file_extension)]: [None] for an unknown one. *)
Definition from_file_extension (file_extension : string) : option t :=
  match table_get String.eqb file_extension EXTENSION_MAP with
  | Got ct => Some ct
  | _ => None
  end.

Definition pretty_name (self : t) : subscript string :=
  table_get eqb self PRETTY_NAME_MAP.

Definition file_extension (self : t) : subscript string :=
  table_get eqb self EXTENSION_MAP_REVERSE.

End ContentType.

Module Usage.

Record Quota : Type := mk_Quota {
  quota_private_tables : Z;
  quota_private_bytes : Z
}.

Record t : Type := mk_Usage {
  public_tables : Z;
  public_bytes : Z;
  private_tables : Z;
  private_bytes : Z
}.

Definition exceeds_quota (self : t) (quota : Quota) : bool :=
  (quota_private_tables quota <? private_tables self)%Z
  || (quota_private_bytes quota <? private_bytes self)%Z.

End Usage.

(** [binascii.hexlify(data).decode("utf-8")]: two lower-case hexadecimal
    digits for each byte, the high half first. *)
Module Hex.

Definition digit (n : nat) : ascii :=
  if n <? 10 then ascii_of_nat (48 + n) else ascii_of_nat (87 + n).

Fixpoint hexlify (data : string) : string :=
  match data with
  | EmptyString => EmptyString
  | String b rest =>
      String (digit (Py.ord b / 16))
             (String (digit (Py.ord b mod 16)) (hexlify rest))
  end.

End Hex.

Section Records.

(** [uuid.UUID] and [datetime.datetime] values are carried, not looked
    into. *)
Variable UUID : Type.
Variable datetime : Type.

Record User : Type := mk_User {
  user_uuid : UUID;
  username : string;
  email : option string;
  registered : datetime;
  api_key : string;
  timezone : string
}.

Definition hex_api_key (self : User) : string := Hex.hexlify (api_key self).

Record Table : Type := mk_Table {
  table_uuid : UUID;
  table_username : string;
  table_name : string;
  is_public : bool;
  caption : string;
  data_licence : DataLicence.t;
  table_columns : list ValueObjs.Column;
  created : datetime;
  row_count : ValueObjs.RowCount;
  last_changed : datetime
}.

(** [len(self.caption.strip()) > 0] *)
Definition has_caption (self : Table) : bool :=
  0 <? String.length (Py.strip (caption self)).

(** Those columns whose name does not start with [csvbase_]. *)
Definition user_columns (self : Table) : list ValueObjs.Column :=
  filter (fun column => negb (startswith "csvbase_" (ValueObjs.name column)))
         (table_columns self).

(** [self.columns[0]] *)
Definition row_id_column (self : Table) : subscript ValueObjs.Column :=
  match table_columns self with
  | column :: _ => Got column
  | [] => IndexError
  end.

End Records.

(** A table of two user columns behind the row-id column; its identifier
    and its dates are not looked into. *)
Definition table_people : Table unit unit :=
  mk_Table tt "someone" "people" true "" DataLicence.ALL_RIGHTS_RESERVED
    [ValueObjs.ROW_ID_COLUMN;
     ValueObjs.mk_Column "name" TEXT;
     ValueObjs.mk_Column "age" INTEGER]
    tt (ValueObjs.mk_RowCount None 0) tt.

(** ** [csvbase/conv.py] *)

Module Conv.

Import Re.

(** Concatenation of a list of expressions. *)
Definition Cat (rs : list regex) : regex := fold_right Seq Eps rs.

(** Alternatives, tried from the left. *)
Fixpoint Any (r : regex) (rs : list regex) : regex :=
  match rs with
  | [] => r
  | r' :: rs' => Alt r (Any r' rs')
  end.

Definition sp : regex := Chr " ".

(** [re.compile(r"^ *$")] *)
Definition WHITESPACE_REGEX : Pattern :=
  compile (Cat [Bol; Star sp; Eol]) false.

(** [sniff_and_allow_blanks]: the loop over [values], carrying [one_match];
    the answer pairs [non_match] with [one_match] as they stand when the
    loop ends or breaks. *)
Fixpoint sniff_loop (regex : Pattern) (values : list string)
    (one_match : bool) : bool * bool :=
  match values with
  | [] => (false, one_match)
  | value :: rest =>
      if matches regex value then sniff_loop regex rest true
      else if matches WHITESPACE_REGEX value
           then sniff_loop regex rest one_match
      else (true, one_match)
  end.

Definition sniff_and_allow_blanks (regex : Pattern) (values : list string)
  : bool :=
  let (non_match, one_match) := sniff_loop regex values false in
  negb non_match && one_match.

(** [raise exc.UnconvertableValueException()], as all four converters write
    it: the call passes no argument. *)
Definition raise_unconvertable {A} : result A :=
  Err (UnconvertableValueException_new None None).

Module DateConverter.

(** [re.compile(r"^ ?\d{4}-\d{2}-\d{2} ?$")] *)
Definition DATE_REGEX : Pattern :=
  compile (Cat [Bol; Opt sp; Rep 4 Digit; Chr "-"; Rep 2 Digit; Chr "-";
                Rep 2 Digit; Opt sp; Eol]) false.

Definition sniff (values : list string) : bool :=
  sniff_and_allow_blanks DATE_REGEX values.

Definition convert (value : string) : result PythonType :=
  let stripped := Py.strip value in
  if String.eqb stripped "" then Ok PNone
  else
    match PyDate.fromisoformat stripped with
    | Ok d => Ok (PDate d)
    | Err ValueError => raise_unconvertable
    | Err e => Err e
    end.

End DateConverter.

Module IntegerConverter.

(** [re.compile(r"^ ?-?(\d|,| )+$")] *)
Definition INTEGER_REGEX : Pattern :=
  compile (Cat [Bol; Opt sp; Opt (Chr "-");
                Plus (Any Digit [Chr ","; sp]); Eol]) false.

Definition sniff (values : list string) : bool :=
  sniff_and_allow_blanks INTEGER_REGEX values.

Definition convert (value : string) : result PythonType :=
  let stripped := Py.strip value in
  if String.eqb stripped "" then Ok PNone
  else
    match match_ INTEGER_REGEX value with
    | None => raise_unconvertable
    | Some group =>
        match Py.int (Py.remove_char "," group) with
        | Ok n => Ok (PInt n)
        | Err e => Err e
        end
    end.

End IntegerConverter.

Module FloatConverter.

(** [re.compile(r"^ ?-?(\d|,|\.| )+$")] *)
Definition FLOAT_REGEX : Pattern :=
  compile (Cat [Bol; Opt sp; Opt (Chr "-");
                Plus (Any Digit [Chr ","; Chr "."; sp]); Eol]) false.

Definition sniff (values : list string) : bool :=
  sniff_and_allow_blanks FLOAT_REGEX values.

Definition convert (value : string) : result PythonType :=
  let stripped := Py.strip value in
  if String.eqb stripped "" then Ok PNone
  else
    match match_ FLOAT_REGEX value with
    | None => raise_unconvertable
    | Some group =>
        match PyFloat.float (Py.remove_char "," group) with
        | Ok x => Ok (PFloat x)
        | Err e => Err e
        end
    end.

End FloatConverter.

Module BooleanConverter.

(** [re.compile(r"^ ?(TRUE|FALSE|T|F|YES|NO|Y|N) ?$", re.I)] *)
Definition BOOLEAN_REGEX : Pattern :=
  compile (Cat [Bol; Opt sp;
                Any (Lit "TRUE") [Lit "FALSE"; Lit "T"; Lit "F"; Lit "YES";
                                  Lit "NO"; Lit "Y"; Lit "N"];
                Opt sp; Eol]) true.

(** [re.compile(r"^(TRUE|T|YES|Y)$", re.I)] *)
Definition TRUE_REGEX : Pattern :=
  compile (Cat [Bol; Any (Lit "TRUE") [Lit "T"; Lit "YES"; Lit "Y"]; Eol])
          true.

(** [re.compile(r"^(FALSE|F|NO|N)$", re.I)] *)
Definition FALSE_REGEX : Pattern :=
  compile (Cat [Bol; Any (Lit "FALSE") [Lit "F"; Lit "NO"; Lit "N"]; Eol])
          true.

Definition sniff (values : list string) : bool :=
  sniff_and_allow_blanks BOOLEAN_REGEX values.

Definition convert (value : string) : result PythonType :=
  let stripped := Py.strip value in
  if String.eqb stripped "" then Ok PNone
  else if matches FALSE_REGEX stripped then Ok (PBool false)
  else if matches TRUE_REGEX stripped then Ok (PBool true)
  else raise_unconvertable.

End BooleanConverter.

End Conv.


(** ** [csvbase/streams.py] *)

Module Streams.

Import ValueObjs Conv.

(** *** Streams *)

(** What is done to a stream, in the order it is done. *)
Inductive event : Type :=
| EvRead (size : nat)
| EvReadlines
| EvSeek (offset : nat)
| EvNext.                     (* the csv reader asks for its next row *)

(** A seekable stream with the record of the operations applied to it. *)
Record world : Type := mk_world {
  content : string;
  position : nat;
  trace : list event
}.

Definition M (A : Type) : Type := world -> result A * world.

Definition ret {A} (a : A) : M A := fun w => (Ok a, w).

Definition raise {A} (e : exn) : M A := fun w => (Err e, w).

Definition bind {A B} (m : M A) (k : A -> M B) : M B :=
  fun w =>
    match m w with
    | (Ok a, w') => k a w'
    | (Err e, w') => (Err e, w')
    end.

Notation "x <- m ;; k" := (bind m (fun x => k))
  (at level 61, m at next level, right associativity).
Notation "' p <- m ;; k" := (bind m (fun x => let p := x in k))
  (at level 61, p pattern, m at next level, right associativity).
Notation "m ;; k" := (bind m (fun _ => k))
  (at level 61, right associativity).

Definition log (e : event) (w : world) : list event := trace w ++ [e].

(** What is left of the stream from its position on. *)
Definition remaining (w : world) : string :=
  substring (position w) (String.length (content w)) (content w).

(** [stream.read(size)] *)
Definition read (size : nat) : M string :=
  fun w =>
    let s := substring (position w) size (content w) in
    (Ok s, mk_world (content w) (position w + String.length s)
                    (log (EvRead size) w)).

(** [stream.seek(offset)] *)
Definition seek (offset : nat) : M nat :=
  fun w => (Ok offset, mk_world (content w) offset (log (EvSeek offset) w)).

(** [stream.tell()] *)
Definition tell : M nat := fun w => (Ok (position w), w).

(** The lines of a text, each with the line feed that ends it. *)
Fixpoint splitlines (s : string) : list string :=
  match s with
  | EmptyString => []
  | String c s' =>
      if Ascii.eqb c Py.LF then String c EmptyString :: splitlines s'
      else
        match splitlines s' with
        | [] => [String c EmptyString]
        | l :: ls => String c l :: ls
        end
  end.

(** [stream.readlines()] *)
Definition readlines : M (list string) :=
  fun w =>
    let s := remaining w in
    (Ok (splitlines s),
     mk_world (content w) (position w + String.length s) (log EvReadlines w)).

(** [with rewind(stream): body].  [__enter__] does nothing; [__exit__] runs
    however the body ends, seeks to 0 and lets an exception through. *)
Definition rewind {A} (body : M A) : M A :=
  fun w => let (r, w') := body w in (r, snd (seek 0 w')).

(** *** Dictionaries and sets *)

(** A [dict] with [str] keys, in insertion order. *)
Definition dict (V : Type) : Type := list (string * V).

Fixpoint dict_get {V} (key : string) (d : dict V) : option V :=
  match d with
  | [] => None
  | (k, v) :: d' => if String.eqb k key then Some v else dict_get key d'
  end.

(** [d[key] = v]: a key that is present keeps its place. *)
Fixpoint dict_set {V} (key : string) (v : V) (d : dict V) : dict V :=
  match d with
  | [] => [(key, v)]
  | (k, v') :: d' =>
      if String.eqb k key then (k, v) :: d' else (k, v') :: dict_set key v d'
  end.

(** [d.keys()] *)
Definition keys {V} (d : dict V) : list string := map fst d.

(** [dict(pairs)] *)
Definition dict_of {V} (pairs : list (string * V)) : dict V :=
  fold_left (fun d kv => dict_set (fst kv) (snd kv) d) pairs [].

(** [set(v)]: the distinct elements.  The order in which a set is iterated
    is not fixed by the language; the order taken here is one of them. *)
Definition py_set (v : list string) : list string := nodup string_dec v.

(** [zip] over the unpacked [rows]: the columns of [rows], as many as the shortest row has;
    none when there is no row. *)
Definition zip_star (rows : list (list string)) : list (list string) :=
  match rows with
  | [] => []
  | first :: others =>
      (fix columns (first : list string) (others : list (list string))
         : list (list string) :=
         match first with
         | [] => []
         | x :: first' =>
             if forallb (fun r => negb (length r =? 0)) others
             then (x :: map (hd "") others) :: columns first' (map (@tl _) others)
             else []
         end) first others
  end.

(** *** The [csv] module *)

Inductive Quoting : Type :=
| QUOTE_MINIMAL | QUOTE_ALL | QUOTE_NONNUMERIC | QUOTE_NONE.

Record Dialect : Type := mk_Dialect {
  delimiter : ascii;
  quotechar : option ascii;
  escapechar : option ascii;
  doublequote : bool;
  skipinitialspace : bool;
  lineterminator : string;
  quoting : Quoting
}.

(** [csv.excel] *)
Definition excel : Dialect :=
  mk_Dialect "," (Some (ascii_of_nat 34)) None true false
             (String (ascii_of_nat 13) (String Py.LF EmptyString))
             QUOTE_MINIMAL.

(** A [csv.reader] over a stream: what its next calls will give, each a row
    or an exception, with the number of characters it takes from the
    stream for it. *)
Definition reader : Type := list (result (list string) * nat).

Definition advance (n : nat) : M unit :=
  fun w => (Ok tt, mk_world (content w) (position w + n) (log EvNext w)).

(** One step of iterating a reader: [None] when it is exhausted. *)
Definition pull (r : reader) : M (option (list string) * reader) :=
  match r with
  | [] => advance 0 ;; ret (None, [])
  | (Ok row, n) :: r' => advance n ;; ret (Some row, r')
  | (Err e, n) :: r' => advance n ;; raise e
  end.

(** [next(reader)] *)
Definition next (r : reader) : M (list string * reader) :=
  ' (o, r') <- pull r ;;
  match o with
  | Some row => ret (row, r')
  | None => raise StopIteration
  end.

(** [[row for row, _ in zip(reader, range(n))]]: [zip] asks the reader
    first, so one row past the [n]-th is asked for and dropped. *)
Fixpoint take_rows (n : nat) (r : reader) {struct n}
  : M (list (list string)) :=
  ' (o, r') <- pull r ;;
  match o with
  | None => ret []
  | Some row =>
      match n with
      | 0 => ret []
      | S n' => rows <- take_rows n' r' ;; ret (row :: rows)
      end
  end.

(** [[header or f"col{i}" for i, header in enumerate(row, start=1)]] *)
Definition headers_of (row : list string) : list string :=
  map (fun ih => if String.eqb (snd ih) "" then ("col" ++ Py.str_nat (fst ih))%string
                 else snd ih)
      (combine (seq 1 (length row)) row).

(** The loop over [headers] when the columns exist already: [KeyError]
    becomes [TableDefinitionMismatchException]. *)
Fixpoint lookup_columns (existing_map : dict Column) (headers : list string)
  : result (list Column) :=
  match headers with
  | [] => Ok []
  | header :: rest =>
      match dict_get header existing_map with
      | None => Err TableDefinitionMismatchException
      | Some column =>
          match lookup_columns existing_map rest with
          | Ok columns => Ok (column :: columns)
          | Err e => Err e
          end
      end
  end.

(** The body of the loop over [as_dict.items()]. *)
Definition infer_column (key : string) (values : list string) : Column :=
  if String.eqb key "csvbase_row_id" || IntegerConverter.sniff values
  then mk_Column key INTEGER
  else if FloatConverter.sniff values then mk_Column key FLOAT
  else if BooleanConverter.sniff values then mk_Column key BOOLEAN
  else if DateConverter.sniff values then mk_Column key DATE
  else mk_Column key TEXT.

(** The rows that [take_rows n] hands over, apart from the stream: the
    first [n], unless an exception comes first or with the one call more. *)
Fixpoint rows_of (n : nat) (r : reader) : result (list (list string)) :=
  match r with
  | [] => Ok []
  | (Err e, _) :: _ => Err e
  | (Ok row, _) :: r' =>
      match n with
      | 0 => Ok []
      | S n' =>
          match rows_of n' r' with
          | Ok rows => Ok (row :: rows)
          | Err e => Err e
          end
      end
  end.

(** [as_dict] of [peek_csv]: header name to the set of sampled values. *)
Definition as_dict_of (headers : list string) (rows : list (list string))
  : dict (list string) :=
  dict_of (combine headers (map py_set (zip_star rows))).

(** [len(buf) == 0 or buf.isspace()] *)
Definition blank (buf : string) : bool :=
  (String.length buf =? 0) || Py.isspace buf.

(** The sniffer of each type; the fallback [TEXT] takes anything. *)
Definition sniffer_of (t : ColumnType) : list string -> bool :=
  match t with
  | INTEGER => IntegerConverter.sniff
  | FLOAT => FloatConverter.sniff
  | BOOLEAN => BooleanConverter.sniff
  | DATE => DateConverter.sniff
  | TEXT => fun _ => true
  end.

(** Type inference as the specification words it: [INTEGER] for the row-id
    name, otherwise the first of [INTEGER], [FLOAT], [BOOLEAN], [DATE]
    whose sniffer accepts the sample, otherwise [TEXT]. *)
Definition first_sniffed_type (key : string) (values : list string)
  : ColumnType :=
  if String.eqb key (name ROW_ID_COLUMN) then INTEGER
  else
    match find (fun t => sniffer_of t values) [INTEGER; FLOAT; BOOLEAN; DATE]
    with
    | Some t => t
    | None => TEXT
    end.

Section Csv.

(** [csv.Sniffer().sniff(sample)] and the rows of [csv.reader] over a text
    are those of the library; the code is embedded for any such pair. *)
Variable Sniffer_sniff : string -> result Dialect.
Variable csv_reader : Dialect -> string -> reader.

(** [sniff_csv(csv_buf, sample_size_hint)] *)
Definition sniff_csv (sample_size_hint : nat) : M Dialect :=
  rewind (sample <- read sample_size_hint ;;
          match Sniffer_sniff sample with
          | Ok dialect => ret dialect
          | Err csv_Error => ret excel
          | Err e => raise e
          end).

(** The dialect that [sniff_csv] settles on for a stream at its start. *)
Definition dialect_of (text : string) : result Dialect :=
  match Sniffer_sniff (substring 0 8192 text) with
  | Ok dialect => Ok dialect
  | Err csv_Error => Ok excel
  | Err e => Err e
  end.

(** [csv.reader(csv_buf, dialect)] *)
Definition new_reader (dialect : Dialect) : M reader :=
  fun w => (Ok (csv_reader dialect (remaining w)), w).

(** The first [with] block of [peek_csv]. *)
Definition blank_check : M unit :=
  rewind (buf <- read 2048 ;;
          if (String.length buf =? 0) || Py.isspace buf
          then raise (BlankCSVException "blank csv file!")
          else ret tt).

(** [peek_csv(csv_buf, existing_columns)] *)
Definition peek_csv (existing_columns : option (list Column))
  : M (Dialect * list Column) :=
  blank_check ;;
  rewind (
    dialect <- sniff_csv 8192 ;;
    rd <- new_reader dialect ;;
    ' (row, rd) <- next rd ;;
    let headers := headers_of row in
    match existing_columns with
    | Some existing_columns =>
        let existing_map :=
          dict_of (map (fun c => (name c, c)) existing_columns) in
        match lookup_columns existing_map headers with
        | Ok columns => ret (dialect, columns)
        | Err e => raise e
        end
    | None =>
        rows <- take_rows 1000 rd ;;
        let first_few := zip_star rows in
        let as_dict := dict_of (combine headers (map py_set first_few)) in
        ret (dialect, map (fun kv => infer_column (fst kv) (snd kv)) as_dict)
    end).

(** What [peek_csv] answers, read off the text of the stream and the
    position it is entered at, without the stream. *)
Definition outcome (existing_columns : option (list Column))
    (text : string) (pos : nat) : result (Dialect * list Column) :=
  if blank (substring pos 2048 text)
  then Err (BlankCSVException "blank csv file!")
  else
    match dialect_of text with
    | Err e => Err e
    | Ok dialect =>
        match csv_reader dialect text with
        | [] => Err StopIteration
        | (Err e, _) :: _ => Err e
        | (Ok row, _) :: rd =>
            let headers := headers_of row in
            match existing_columns with
            | Some existing_columns =>
                match lookup_columns
                        (dict_of (map (fun c => (name c, c))
                                      existing_columns)) headers with
                | Ok columns => Ok (dialect, columns)
                | Err e => Err e
                end
            | None =>
                match rows_of 1000 rd with
                | Ok rows =>
                    Ok (dialect,
                        map (fun kv => infer_column (fst kv) (snd kv))
                            (as_dict_of headers rows))
                | Err e => Err e
                end
            end
        end
    end.

End Csv.

Section Charset.

(** [cchardet.UniversalDetector] and the codec registry. *)
Variable detector : Type.
Variable UniversalDetector : detector.
Variable feed : detector -> string -> detector.
Variable done : detector -> bool.
Variable result_encoding : detector -> option string.
Variable codec_exists : string -> bool.

(** A [codecs.StreamReader] over the byte stream. *)
Record StreamReader : Type := mk_StreamReader { encoding : string }.

(** The loop over [byte_buf.readlines()]. *)
Fixpoint feed_lines (d : detector) (lines : list string) : M detector :=
  match lines with
  | [] => ret d
  | line :: rest =>
      let d' := feed d line in
      if done d' then ret d'
      else
        t <- tell ;;
        if 1000000 <? t then ret d' else feed_lines d' rest
  end.

(** [byte_buf_to_str_buf(byte_buf)] *)
Definition byte_buf_to_str_buf : M StreamReader :=
  d <- rewind (lines <- readlines ;; feed_lines UniversalDetector lines) ;;
  let encoding :=
    match result_encoding d with
    | Some e => e
    | None => "utf-8"
    end in
  if codec_exists encoding then ret (mk_StreamReader encoding)
  else raise LookupError.

End Charset.

(** *** The length of a stream *)

(** [stream.seek(offset, os.SEEK_END)]: the position becomes the length of
    the stream plus [offset]; the record of operations keeps the position
    reached. *)
Definition seek_end (offset : nat) : M nat :=
  fun w =>
    let p := String.length (content w) + offset in
    (Ok p, mk_world (content w) p (log (EvSeek p) w)).

(** [file_length(stream)] *)
Definition file_length : M nat :=
  rewind (seek_end 0 ;; tell).

(** What the loop of [byte_buf_to_str_buf] leaves in the detector, apart
    from the stream: [told] is what [tell] answers all along. *)
Fixpoint fed {detector : Type} (feed : detector -> string -> detector)
    (done : detector -> bool) (d : detector) (lines : list string)
    (told : nat) : detector :=
  match lines with
  | [] => d
  | line :: rest =>
      let d' := feed d line in
      if done d' then d'
      else if 1000000 <? told then d' else fed feed done d' rest told
  end.

(** *** A reader and a sniffer to run the code on *)

Fixpoint split_on (d : ascii) (s : string) : list string :=
  match s with
  | EmptyString => [EmptyString]
  | String c s' =>
      if Ascii.eqb c d then EmptyString :: split_on d s'
      else
        match split_on d s' with
        | [] => [String c EmptyString]
        | f :: fs => String c f :: fs
        end
  end.

(** The rows of a text that has no quote character and whose lines end
    with a line feed: one row for each line, cut at the delimiter. *)
Definition plain_reader (dialect : Dialect) (text : string) : reader :=
  map (fun line =>
         let body := Py.remove_char Py.LF line in
         (Ok (match body with
              | EmptyString => []
              | _ => split_on (delimiter dialect) body
              end),
          String.length line))
      (splitlines text).

(** A sniffer that recognises nothing. *)
Definition no_sniff (sample : string) : result Dialect := Err csv_Error.

(** A line feed, as a string. *)
Definition nl : string := String Py.LF EmptyString.

(** A stream at its start on which nothing has been done yet. *)
Definition fresh (text : string) : world := mk_world text 0 [].

(** Small uploads to run the code on: two columns of values, the same with
    the header cells the other way round and with one header cell more, and
    a header row that repeats a name. *)
Definition upload_typed : string :=
  "n,s" ++ nl ++ "1,x" ++ nl ++ "2," ++ nl.
Definition upload_reordered : string := "b,a" ++ nl ++ "1,x" ++ nl.
Definition upload_extra : string := "a,b,c" ++ nl ++ "1,x,3" ++ nl.
Definition upload_repeated : string := "a,a" ++ nl ++ "1,x" ++ nl.

(** The columns of an existing table to append to. *)
Definition table_ab : list Column := [mk_Column "a" INTEGER; mk_Column "b" TEXT].

(** *** A detector to run the code on *)

(** A detector that keeps the lines it is fed and never concludes. *)
Definition keep_line (d : list string) (line : string) : list string :=
  d ++ [line].

(** [n] times the character [c]. *)
Fixpoint chars (n : nat) (c : ascii) : string :=
  match n with
  | 0 => EmptyString
  | S n' => String c (chars n' c)
  end.

(** A text without a line feed. *)
Definition no_line_feed (s : string) : Prop :=
  Py.all_chars (fun c => negb (Ascii.eqb c Py.LF)) s = true.

(** Two lines, of a million and five characters together. *)
Definition upload_large : string :=
  "a,b" ++ nl ++ chars 1000000 "x" ++ nl.

(** The end of [byte_buf_to_str_buf]: the reader for what the detector
    found, utf-8 when it found nothing. *)
Definition reader_for {detector : Type}
    (result_encoding : detector -> option string)
    (codec_exists : string -> bool) (d : detector) : result StreamReader :=
  let encoding :=
    match result_encoding d with
    | Some e => e
    | None => "utf-8"
    end in
  if codec_exists encoding then Ok (mk_StreamReader encoding)
  else Err LookupError.

(** Two readers that give a header row and 1001 rows alike, and then a
    row for the one and an exception for the other. *)
Definition long_rows : reader :=
  (Ok ["n"], 2) :: repeat (Ok ["1"], 2) 1001.
Definition long_reader_row (dialect : Dialect) (text : string) : reader :=
  long_rows ++ [(Ok ["x"], 2)].
Definition long_reader_error (dialect : Dialect) (text : string) : reader :=
  long_rows ++ [(Err csv_Error, 0)].

End Streams.


(** ** Conversion of a cell by column type *)

(** Modelled from the spec: the dispatch [convert_cell(column_type,
    raw_string)] of the external interface and the [TEXT] row of the
    converter table ("identity; blank string is itself a valid TEXT
    value"), neither of which [conv.py] holds.  The four other types go to
    the converters of [conv.py]. *)
Definition convert_cell (column_type : ColumnType) (raw_string : string)
  : result PythonType :=
  match column_type with
  | TEXT => Ok (PStr raw_string)
  | INTEGER => Conv.IntegerConverter.convert raw_string
  | FLOAT => Conv.FloatConverter.convert raw_string
  | BOOLEAN => Conv.BooleanConverter.convert raw_string
  | DATE => Conv.DateConverter.convert raw_string
  end.

(** A string of space characters only, the empty one included. *)
Definition only_spaces (s : string) : bool := Py.all_chars (Ascii.eqb " ") s.

(** Inference with the four tests tried in a given order: as
    [first_sniffed_type], which tries them in the order of the code. *)
Definition sniffed_in_order (order : list ColumnType) (key : string)
    (values : list string) : ColumnType :=
  if String.eqb key (ValueObjs.name ValueObjs.ROW_ID_COLUMN) then INTEGER
  else
    match find (fun t => Streams.sniffer_of t values) order with
    | Some t => t
    | None => TEXT
    end.

(** The letters that a boolean word starts with, in either case. *)
Definition is_bool_initial (c : ascii) : bool :=
  existsb (fun x => Re.chr_eq true x c) ["T"; "F"; "Y"; "N"]%char.

(** The characters of a number after its sign, as [FLOAT_REGEX] has
    them. *)
Definition float_body : Re.regex :=
  Conv.Any Re.Digit [Re.Chr ","; Re.Chr "."; Conv.sp].

(** One space or nothing. *)
Definition opt_space (a : string) : Prop := a = "" \/ a = " ".

(** * Properties *)

Import Conv ValueObjs Streams.

(** ** The blank-tolerant matcher *)

Section Sniff.

Variable regex : Re.Pattern.

Let hit (v : string) : Prop := Re.matches regex v = true.
Let blank_value (v : string) : Prop := Re.matches WHITESPACE_REGEX v = true.

Lemma sniff_loop_spec (values : list string) (one_match : bool) :
  sniff_loop regex values one_match =
    if forallb (fun v => Re.matches regex v
                         || Re.matches WHITESPACE_REGEX v) values
    then (false, one_match || existsb (Re.matches regex) values)
    else (true, snd (sniff_loop regex values one_match)).
Proof.
  revert one_match.
  induction values as [|v rest IH]; intro one_match; simpl.
  - now rewrite orb_false_r.
  - destruct (Re.matches regex v) eqn:Hv; simpl.
    + rewrite IH.
      destruct (forallb _ rest); simpl; [|reflexivity].
      now rewrite orb_true_r.
    + destruct (Re.matches WHITESPACE_REGEX v); simpl; [|reflexivity].
      apply IH.
Qed.

Lemma sniff_true_iff (values : list string) :
  sniff_and_allow_blanks regex values = true <->
  Exists hit values /\ Forall (fun v => hit v \/ blank_value v) values.
Proof.
  unfold sniff_and_allow_blanks, hit, blank_value.
  rewrite sniff_loop_spec.
  destruct (forallb _ values) eqn:Hall.
  - simpl. rewrite forallb_forall in Hall.
    split.
    + intro Hex. apply existsb_exists in Hex.
      destruct Hex as [v [Hin Hv]]. split.
      * apply Exists_exists. eauto.
      * apply Forall_forall. intros x Hx.
        apply Hall in Hx. now apply orb_true_iff in Hx.
    + intros [Hex _]. apply Exists_exists in Hex.
      destruct Hex as [v [Hin Hv]].
      apply existsb_exists. eauto.
  - simpl. split; [discriminate|].
    intros [_ Hf]. rewrite Forall_forall in Hf.
    assert (forallb (fun v => Re.matches regex v
                              || Re.matches WHITESPACE_REGEX v) values
            = true) as Habs.
    { apply forallb_forall. intros x Hx.
      apply orb_true_iff. now apply Hf. }
    congruence.
Qed.

Lemma sniff_false_without_hit (values : list string) :
  Forall (fun v => Re.matches regex v = false) values ->
  sniff_and_allow_blanks regex values = false.
Proof.
  intro Hnone.
  destruct (sniff_and_allow_blanks regex values) eqn:E; [|reflexivity].
  apply sniff_true_iff in E. destruct E as [Hex _].
  apply Exists_exists in Hex. destruct Hex as [v [Hin Hv]].
  rewrite Forall_forall in Hnone. apply Hnone in Hin.
  unfold hit in Hv. congruence.
Qed.

(** The answer depends on which values occur, not on their order or on
    how often each occurs: a set may be iterated in any order. *)
Lemma sniff_same_elements (l1 l2 : list string) :
  (forall v, In v l1 <-> In v l2) ->
  sniff_and_allow_blanks regex l1 = sniff_and_allow_blanks regex l2.
Proof.
  intro Hsame.
  apply eq_true_iff_eq. rewrite !sniff_true_iff.
  rewrite !Exists_exists, !Forall_forall.
  split; intros [[v [Hin Hv]] Hall]; split;
    try (exists v; split; [now apply Hsame|assumption]);
    intros x Hx; apply Hall; now apply Hsame.
Qed.

End Sniff.

(** A run of spaces passes the blank test of the matcher. *)
Lemma star_loop_spaces (k : nat -> string -> option nat) (fuel : nat) :
  forall (s : string) (pos : nat),
    only_spaces s = true -> String.length s <= fuel ->
    k (pos + String.length s) EmptyString <> None ->
    Re.star_loop (Re.run false sp) k fuel pos s
    = k (pos + String.length s) EmptyString.
Proof.
  induction fuel as [|fuel IH]; intros s pos Hsp Hlen Hk.
  - destruct s; simpl in *; [|lia]. now rewrite Nat.add_0_r.
  - destruct s as [|c s]; simpl in *.
    + now rewrite Nat.add_0_r.
    + apply andb_true_iff in Hsp. destruct Hsp as [Hc Hs].
      apply Ascii.eqb_eq in Hc. subst c. simpl.
      assert ((String.length s <? S (String.length s)) = true) as ->
        by (apply Nat.ltb_lt; lia).
      rewrite IH by (try assumption; try lia;
                     now replace (S pos + String.length s)
                       with (pos + S (String.length s)) by lia).
      replace (S pos + String.length s) with (pos + S (String.length s))
        by lia.
      destruct (k (pos + S (String.length s)) EmptyString); congruence.
Qed.

Lemma only_spaces_blank (s : string) :
  only_spaces s = true -> Re.matches WHITESPACE_REGEX s = true.
Proof.
  intro Hsp. unfold Re.matches, Re.match_. simpl.
  rewrite star_loop_spaces; simpl; try easy.
Qed.

(** ** Dictionaries *)

Section Dict.

Variable V : Type.
Implicit Types (d : dict V) (k : string) (v : V).

Lemma dict_set_In k v d x y :
  In (x, y) (dict_set k v d) -> (x, y) = (k, v) \/ In (x, y) d.
Proof.
  induction d as [|[k0 v0] d IH]; simpl.
  - intros [H|[]]. left. now symmetry.
  - destruct (String.eqb k0 k) eqn:E; simpl.
    + apply String.eqb_eq in E. subst k0.
      intros [H|H]; [left; now symmetry|right; now right].
    + intros [H|H]; [right; now left|].
      destruct (IH H); [now left|right; now right].
Qed.

Lemma dict_set_keys k v d x :
  In x (keys (dict_set k v d)) <-> x = k \/ In x (keys d).
Proof.
  unfold keys. induction d as [|[k0 v0] d IH]; simpl.
  - split; intros [H|H]; auto.
  - destruct (String.eqb k0 k) eqn:E; simpl.
    + apply String.eqb_eq in E. subst k0. intuition auto.
    + rewrite IH. intuition auto.
Qed.

Lemma dict_set_NoDup k v d :
  NoDup (keys d) -> NoDup (keys (dict_set k v d)).
Proof.
  unfold keys. induction d as [|[k0 v0] d IH]; simpl; intro Hnd.
  - constructor; [intros []|constructor].
  - inversion Hnd as [|? ? Hnotin Hrest]; subst.
    destruct (String.eqb k0 k) eqn:E; simpl.
    + now constructor.
    + constructor; [|now apply IH].
      intro Hin. apply dict_set_keys in Hin. destruct Hin as [->|Hin].
      * now rewrite String.eqb_refl in E.
      * now apply Hnotin.
Qed.

Let step d (kv : string * V) := dict_set (fst kv) (snd kv) d.

Lemma dict_fold_NoDup pairs : forall d,
  NoDup (keys d) -> NoDup (keys (fold_left step pairs d)).
Proof.
  induction pairs as [|[k v] pairs IH]; intros d Hnd; simpl; [assumption|].
  apply IH. now apply dict_set_NoDup.
Qed.

Lemma dict_fold_keys pairs : forall d x,
  In x (keys (fold_left step pairs d)) <->
  In x (keys d) \/ In x (map fst pairs).
Proof.
  induction pairs as [|[k v] pairs IH]; intros d x; simpl.
  - intuition auto.
  - rewrite IH. unfold step. simpl. rewrite dict_set_keys.
    intuition auto.
Qed.

Lemma dict_fold_In pairs : forall d x y,
  In (x, y) (fold_left step pairs d) -> In (x, y) d \/ In (x, y) pairs.
Proof.
  induction pairs as [|[k v] pairs IH]; intros d x y; simpl; [now left|].
  intro H. apply IH in H. destruct H as [H|H]; [|now right; right].
  apply dict_set_In in H. simpl in H.
  destruct H as [H|H]; [right; left; now symmetry|now left].
Qed.

Lemma dict_of_NoDup (pairs : list (string * V)) :
  NoDup (keys (dict_of pairs)).
Proof. apply dict_fold_NoDup. constructor. Qed.

Lemma dict_of_keys (pairs : list (string * V)) x :
  In x (keys (dict_of pairs)) <-> In x (map fst pairs).
Proof.
  unfold dict_of. fold step. rewrite dict_fold_keys. simpl. intuition auto.
Qed.

Lemma dict_of_In (pairs : list (string * V)) x y :
  In (x, y) (dict_of pairs) -> In (x, y) pairs.
Proof.
  intro H. apply dict_fold_In in H. now destruct H as [[]|H].
Qed.

Lemma dict_get_Some d k v : dict_get k d = Some v -> In (k, v) d.
Proof.
  induction d as [|[k0 v0] d IH]; simpl; [discriminate|].
  destruct (String.eqb k0 k) eqn:E.
  - apply String.eqb_eq in E. subst k0. intros [= ->]. now left.
  - intro H. right. now apply IH.
Qed.

Lemma dict_get_None d k : dict_get k d = None <-> ~ In k (keys d).
Proof.
  unfold keys. induction d as [|[k0 v0] d IH]; simpl; [intuition auto|].
  destruct (String.eqb k0 k) eqn:E.
  - apply String.eqb_eq in E. subst k0. split; [discriminate|].
    intro H. exfalso. apply H. now left.
  - rewrite IH. apply String.eqb_neq in E. intuition auto.
Qed.

End Dict.

(** ** Running the stream code *)

Lemma substring_full (s : string) : substring 0 (String.length s) s = s.
Proof. induction s as [|c s IH]; simpl; [reflexivity|now rewrite IH]. Qed.

Lemma rewind_position {A} (body : M A) (w : world) :
  position (snd (rewind body w)) = 0.
Proof. unfold rewind. now destruct (body w). Qed.

Lemma bind_position {A B} (m : M A) (k : A -> M B) (w : world) :
  position (snd (m w)) = 0 ->
  (forall a w', position (snd (k a w')) = 0) ->
  position (snd (bind m k w)) = 0.
Proof.
  intros Hm Hk. unfold bind.
  destruct (m w) as [[a|e] w']; simpl in *; [apply Hk|assumption].
Qed.

Lemma take_rows_run (n : nat) :
  forall (rd : reader) (w : world),
    fst (take_rows n rd w) = rows_of n rd
    /\ content (snd (take_rows n rd w)) = content w.
Proof.
  induction n as [|n IH]; intros [|[[row|e] k] rd] w;
    try (split; reflexivity).
  cbn [take_rows rows_of]. cbv [bind pull advance ret].
  specialize (IH rd (mk_world (content w) (position w + k) (log EvNext w))).
  destruct IH as [Hr Hc]. rewrite <- Hr.
  destruct (take_rows n rd _) as [[rows|e] w']; split; assumption || reflexivity.
Qed.

Section CsvRuns.

Variable Sniffer_sniff : string -> result Dialect.
Variable csv_reader : Dialect -> string -> reader.

Lemma blank_check_run (w : world) :
  blank_check w =
    ((if blank (substring (position w) 2048 (content w))
      then Err (BlankCSVException "blank csv file!") else Ok tt),
     mk_world (content w) 0 (trace w ++ [EvRead 2048; EvSeek 0])).
Proof.
  unfold blank_check, rewind, bind, read, blank, seek, log.
  cbn [snd content trace position].
  destruct (_ || _); cbn [raise ret snd content trace];
    now rewrite <- app_assoc.
Qed.

Lemma sniff_csv_run (hint : nat) (w : world) :
  sniff_csv Sniffer_sniff hint w =
    (match Sniffer_sniff (substring (position w) hint (content w)) with
     | Ok dialect => Ok dialect
     | Err csv_Error => Ok excel
     | Err e => Err e
     end,
     mk_world (content w) 0 (trace w ++ [EvRead hint; EvSeek 0])).
Proof.
  unfold sniff_csv, rewind, bind, read, seek, log.
  cbn [snd content trace position].
  destruct (Sniffer_sniff _) as [d|[]];
    cbn [raise ret snd content trace]; now rewrite <- app_assoc.
Qed.

(** [peek_csv] answers what [outcome] reads off the text. *)
Lemma peek_csv_fst (existing : option (list Column)) (w : world) :
  fst (peek_csv Sniffer_sniff csv_reader existing w)
  = outcome Sniffer_sniff csv_reader existing (content w) (position w).
Proof.
  unfold peek_csv, outcome.
  unfold bind at 1. rewrite blank_check_run.
  destruct (blank _); [reflexivity|].
  unfold rewind. unfold bind at 1. rewrite sniff_csv_run.
  cbn [content position]. unfold dialect_of.
  destruct (Sniffer_sniff _) as [d|[]]; try reflexivity.
  all: cbv [bind new_reader remaining next pull advance ret raise seek];
    cbn [content position]; rewrite substring_full;
    destruct (csv_reader _ _) as [|[[row|e] k] rd]; try reflexivity;
    destruct existing as [ex|];
    [ destruct (lookup_columns _ _); reflexivity | ];
    match goal with
    | |- context [take_rows ?n ?r ?v] =>
        destruct (take_rows_run n r v) as [Hr _]; rewrite <- Hr;
        destruct (take_rows n r v) as [[rows|e] w']; reflexivity
    end.
Qed.

End CsvRuns.

(** ** Columns of an existing table *)

Section Existing.

Variable existing : list Column.

Let existing_map : dict Column :=
  dict_of (map (fun c => (name c, c)) existing).

Lemma existing_map_get (h : string) (c : Column) :
  dict_get h existing_map = Some c -> name c = h /\ In c existing.
Proof.
  intro H. apply dict_get_Some, dict_of_In, in_map_iff in H.
  destruct H as [c' [[= <- <-] Hin]]. now split.
Qed.

Lemma existing_map_keys (h : string) :
  In h (keys existing_map) <-> In h (map name existing).
Proof.
  unfold existing_map. rewrite dict_of_keys, map_map. reflexivity.
Qed.

Lemma lookup_columns_missing (headers : list string) :
  (exists h, In h headers /\ ~ In h (map name existing)) ->
  lookup_columns existing_map headers = Err TableDefinitionMismatchException.
Proof.
  induction headers as [|header rest IH]; intros [h [Hin Hno]];
    [destruct Hin|]. simpl.
  destruct (dict_get header existing_map) as [c|] eqn:E; [|reflexivity].
  destruct Hin as [->|Hin].
  - exfalso. apply Hno, existing_map_keys.
    destruct (in_dec string_dec h (keys existing_map)) as [Hk|Hk];
      [assumption|]. apply dict_get_None in Hk. congruence.
  - rewrite IH; [reflexivity|]. now exists h.
Qed.

Lemma lookup_columns_found (headers : list string) :
  (forall h, In h headers -> In h (map name existing)) ->
  exists columns,
    lookup_columns existing_map headers = Ok columns
    /\ map name columns = headers
    /\ Forall (fun c => In c existing) columns.
Proof.
  induction headers as [|header rest IH]; intro Hall; simpl.
  - exists []. repeat split. constructor.
  - destruct (dict_get header existing_map) as [c|] eqn:E.
    + destruct IH as [cols [Hl [Hn Hf]]].
      { intros h Hh. apply Hall. now right. }
      rewrite Hl. exists (c :: cols).
      apply existing_map_get in E. destruct E as [Hname Hin].
      repeat split; simpl; [now rewrite Hname, Hn|now constructor].
    + exfalso. apply dict_get_None in E. apply E, existing_map_keys.
      apply Hall. now left.
Qed.

(** When the header names are the names of the table, each once, the
    columns found are the columns of the table in another order. *)
Lemma found_columns_permutation (headers : list string)
    (columns : list Column) :
  map name columns = headers ->
  Forall (fun c => In c existing) columns ->
  NoDup (map name existing) ->
  Permutation headers (map name existing) ->
  Permutation columns existing.
Proof.
  intros Hn Hf Hnd Hperm. subst headers.
  apply NoDup_Permutation_bis.
  - apply (NoDup_map_inv name).
    apply Permutation_NoDup with (l := map name existing);
      [now apply Permutation_sym|assumption].
  - apply Permutation_length in Hperm. rewrite !length_map in Hperm. lia.
  - intros c Hc. rewrite Forall_forall in Hf. now apply Hf.
Qed.

End Existing.

Section CsvExisting.

Variable Sniffer_sniff : string -> result Dialect.
Variable csv_reader : Dialect -> string -> reader.

(** The whole run of [peek_csv] when the columns exist and a header row
    is there: the answer and the stream afterwards. *)
Lemma peek_csv_existing_run (existing : list Column) (w : world)
    (dialect : Dialect) (row : list string) (n : nat) (rd : reader) :
  blank (substring (position w) 2048 (content w)) = false ->
  dialect_of Sniffer_sniff (content w) = Ok dialect ->
  csv_reader dialect (content w) = (Ok row, n) :: rd ->
  peek_csv Sniffer_sniff csv_reader (Some existing) w =
    (match lookup_columns
             (dict_of (map (fun c => (name c, c)) existing))
             (headers_of row) with
     | Ok columns => Ok (dialect, columns)
     | Err e => Err e
     end,
     mk_world (content w) 0
       (trace w ++ [EvRead 2048; EvSeek 0; EvRead 8192; EvSeek 0;
                    EvNext; EvSeek 0])).
Proof.
  intros Hblank Hdialect Hrows.
  unfold peek_csv.
  unfold bind at 1. rewrite blank_check_run, Hblank.
  unfold rewind. unfold bind at 1. rewrite sniff_csv_run.
  cbn [content position trace]. unfold dialect_of in Hdialect.
  assert (forall d,
    d = dialect ->
    (let (r, w') :=
       (rd0 <- new_reader csv_reader d ;;
        ' (row0, _) <- next rd0 ;;
        match lookup_columns
                (dict_of (map (fun c => (name c, c)) existing))
                (headers_of row0) with
        | Ok columns => ret (d, columns)
        | Err e => raise e
        end)
         (mk_world (content w) 0
            ((trace w ++ [EvRead 2048; EvSeek 0])
               ++ [EvRead 8192; EvSeek 0])) in
     (r, snd (seek 0 w')))
    = (match lookup_columns
               (dict_of (map (fun c => (name c, c)) existing))
               (headers_of row) with
       | Ok columns => Ok (dialect, columns)
       | Err e => Err e
       end,
       mk_world (content w) 0
         (trace w ++ [EvRead 2048; EvSeek 0; EvRead 8192; EvSeek 0;
                      EvNext; EvSeek 0]))) as Hbody.
  { intros d ->.
    cbv [bind new_reader remaining next pull advance ret raise seek log].
    cbn [content position trace]. rewrite substring_full, Hrows.
    destruct (lookup_columns _ _); cbn [snd content trace];
      now rewrite <- !app_assoc. }
  destruct (Sniffer_sniff _) as [d|[]]; try discriminate;
    injection Hdialect as Hd; now apply Hbody.
Qed.

End CsvExisting.

(** ** Only [ValueError] leaves [int] and [float] *)

Lemma int_error (s : string) (e : exn) : Py.int s = Err e -> e = ValueError.
Proof.
  unfold Py.int. destruct (Py.split_sign _) as [neg body].
  destruct (Py.digits_acc _ _ _); congruence.
Qed.

Lemma float_error (s : string) (e : exn) :
  PyFloat.float s = Err e -> e = ValueError.
Proof.
  unfold PyFloat.float, PyFloat.number.
  destruct (Py.split_sign _) as [neg body].
  destruct (_ || _); [discriminate|].
  destruct (String.eqb _ _); [discriminate|].
  destruct (PyFloat.drop_underscores _ _) as [t|]; [|congruence].
  destruct (PyFloat.span_digits 0 0 t) as [[i ni] r1].
  destruct (match r1 with String "." r => _ | _ => _ end) as [[m nf] r2].
  destruct (ni + nf); [congruence|].
  destruct (PyFloat.exponent r2); congruence.
Qed.

(** * The claims *)

(** C1 does not hold of the code.  The pattern is tried before the blank
    test and the integer and float patterns themselves match a space-only
    string, so a column whose only value is one space is sniffed as
    integer and as float, and is typed [INTEGER] and not [TEXT]; the date
    and boolean sniffers do reject it, as the claim says, and the integer
    converter itself reads that value as a blank. *)
Theorem C1_space_only_sample_sniffed :
  only_spaces " " = true
  /\ Re.matches WHITESPACE_REGEX " " = true
  /\ sniff_and_allow_blanks IntegerConverter.INTEGER_REGEX [" "] = true
  /\ sniff_and_allow_blanks FloatConverter.FLOAT_REGEX [" "] = true
  /\ sniff_and_allow_blanks DateConverter.DATE_REGEX [" "] = false
  /\ sniff_and_allow_blanks BooleanConverter.BOOLEAN_REGEX [" "] = false
  /\ IntegerConverter.convert " " = Ok PNone
  /\ FloatConverter.convert " " = Ok PNone
  /\ infer_column "c" [" "] = mk_Column "c" INTEGER.
Proof. repeat split. Qed.

(** C2 does not hold of the code: a value that passes the sniff pattern
    and is no number leaves [convert] as the [ValueError] of [int] or
    [float], a value that fails the pattern leaves it as the [TypeError] of
    building the exception without its two arguments, and in no case is
    [UnconvertableValueException] what comes out. *)
Theorem C2_convert_errors :
  (Py.strip "1 2" <> ""
   /\ IntegerConverter.sniff ["1 2"] = true
   /\ IntegerConverter.convert "1 2" = Err ValueError)
  /\ (Py.strip "1.2.3" <> ""
      /\ FloatConverter.sniff ["1.2.3"] = true
      /\ FloatConverter.convert "1.2.3" = Err ValueError)
  /\ IntegerConverter.convert "abc" = Err TypeError
  /\ FloatConverter.convert "abc" = Err TypeError
  /\ forall (value : string) (t : ColumnType) (raw : string),
       IntegerConverter.convert value
         <> Err (UnconvertableValueException t raw)
       /\ FloatConverter.convert value
            <> Err (UnconvertableValueException t raw).
Proof.
  repeat split; try discriminate.
  - unfold IntegerConverter.convert.
    destruct (String.eqb _ _); [discriminate|].
    destruct (Re.match_ _ _) as [group|]; [|discriminate].
    destruct (Py.int _) as [n|e] eqn:E; [discriminate|].
    apply int_error in E. subst e. discriminate.
  - unfold FloatConverter.convert.
    destruct (String.eqb _ _); [discriminate|].
    destruct (Re.match_ _ _) as [group|]; [|discriminate].
    destruct (PyFloat.float _) as [x|e] eqn:E; [discriminate|].
    apply float_error in E. subst e. discriminate.
Qed.

(** ** Schema inference *)

Lemma infer_column_first_sniffed (key : string) (values : list string) :
  infer_column key values = mk_Column key (first_sniffed_type key values).
Proof.
  unfold infer_column, first_sniffed_type.
  cbn [name ROW_ID_COLUMN find sniffer_of].
  destruct (String.eqb key "csvbase_row_id"); [reflexivity|]. cbn [orb].
  destruct (IntegerConverter.sniff values); [reflexivity|].
  destruct (FloatConverter.sniff values); [reflexivity|].
  destruct (BooleanConverter.sniff values); [reflexivity|].
  destruct (DateConverter.sniff values); reflexivity.
Qed.

Lemma permutation_same_elements (l1 l2 : list string) :
  Permutation l1 l2 -> forall v, In v l1 <-> In v l2.
Proof.
  intros Hp v. split; apply Permutation_in;
    [assumption|now apply Permutation_sym].
Qed.

(** The type of a column does not depend on the order in which its set of
    values is iterated. *)
Lemma infer_column_same_elements (key : string) (l1 l2 : list string) :
  (forall v, In v l1 <-> In v l2) ->
  infer_column key l1 = infer_column key l2.
Proof.
  intro Hsame.
  unfold infer_column, IntegerConverter.sniff, FloatConverter.sniff,
    BooleanConverter.sniff, DateConverter.sniff.
  now rewrite (sniff_same_elements IntegerConverter.INTEGER_REGEX _ _ Hsame),
    (sniff_same_elements FloatConverter.FLOAT_REGEX _ _ Hsame),
    (sniff_same_elements BooleanConverter.BOOLEAN_REGEX _ _ Hsame),
    (sniff_same_elements DateConverter.DATE_REGEX _ _ Hsame).
Qed.

Section Inference.

Variable Sniffer_sniff : string -> result Dialect.
Variable csv_reader : Dialect -> string -> reader.

(** C3: a column of a fresh table gets [INTEGER] when it bears the row-id
    name, otherwise the first of [INTEGER], [FLOAT], [BOOLEAN], [DATE]
    whose sniffer accepts its sample, otherwise [TEXT]; this is the type
    of every column that [peek_csv] returns without existing columns; and
    the sample of "1", "2" and "", in whatever order the set gives them,
    is typed [INTEGER] although the float sniffer accepts it too. *)
Theorem C3_first_sniffed_type_wins :
  (forall key values,
      infer_column key values
      = mk_Column key (first_sniffed_type key values))
  /\ (forall w d cols,
         fst (peek_csv Sniffer_sniff csv_reader None w) = Ok (d, cols) ->
         exists row n rd rows,
           csv_reader d (content w) = (Ok row, n) :: rd
           /\ rows_of 1000 rd = Ok rows
           /\ cols = map (fun kv => mk_Column (fst kv)
                                      (first_sniffed_type (fst kv) (snd kv)))
                         (as_dict_of (headers_of row) rows))
  /\ (forall key sample,
         Permutation sample ["1"; "2"; ""] ->
         infer_column key sample = mk_Column key INTEGER
         /\ FloatConverter.sniff sample = true).
Proof.
  split; [exact infer_column_first_sniffed|]. split.
  - intros w d cols. rewrite peek_csv_fst. unfold outcome.
    destruct (blank _); [discriminate|].
    destruct (dialect_of _ _) as [dialect|]; [|discriminate].
    destruct (csv_reader dialect (content w)) as [|[[row|e] n] rd] eqn:Hrd;
      try discriminate.
    destruct (rows_of 1000 rd) as [rows|] eqn:Hrows; [|discriminate].
    intros [= <- <-]. exists row, n, rd, rows.
    repeat split; try assumption.
    apply map_ext. intros [k vs]. apply infer_column_first_sniffed.
  - intros key sample Hp.
    pose proof (permutation_same_elements Hp) as Hsame.
    unfold infer_column, IntegerConverter.sniff, FloatConverter.sniff.
    rewrite (sniff_same_elements IntegerConverter.INTEGER_REGEX _ _ Hsame).
    rewrite (sniff_same_elements FloatConverter.FLOAT_REGEX _ _ Hsame).
    split; [|reflexivity].
    replace (sniff_and_allow_blanks IntegerConverter.INTEGER_REGEX
               ["1"; "2"; ""]) with true by reflexivity.
    now rewrite orb_true_r.
Qed.

(** C4: with existing columns, a non-blank stream and a header row, a
    header that names no existing column makes [peek_csv] raise
    [TableDefinitionMismatchException]; otherwise it returns, for each
    header in the order of the file, the existing column of that name
    (all the existing columns, reordered, when the header names each of
    them once).  The stream is asked for the header row only: no row of
    values is read and nothing is sniffed. *)
Theorem C4_existing_columns_in_file_order
    (existing : list Column) (w : world)
    (dialect : Dialect) (row : list string) (n : nat) (rd : reader) :
  blank (substring (position w) 2048 (content w)) = false ->
  dialect_of Sniffer_sniff (content w) = Ok dialect ->
  csv_reader dialect (content w) = (Ok row, n) :: rd ->
  let headers := headers_of row in
  let run := peek_csv Sniffer_sniff csv_reader (Some existing) w in
  ((exists h, In h headers /\ ~ In h (map name existing)) ->
   fst run = Err TableDefinitionMismatchException)
  /\ ((forall h, In h headers -> In h (map name existing)) ->
      exists columns,
        fst run = Ok (dialect, columns)
        /\ map name columns = headers
        /\ Forall (fun c => In c existing) columns
        /\ (NoDup (map name existing) ->
            Permutation headers (map name existing) ->
            Permutation columns existing))
  /\ trace (snd run)
     = trace w ++ [EvRead 2048; EvSeek 0; EvRead 8192; EvSeek 0;
                   EvNext; EvSeek 0].
Proof.
  intros Hblank Hdialect Hrows headers run. subst run.
  rewrite (@peek_csv_existing_run Sniffer_sniff csv_reader existing w
             dialect row n rd Hblank Hdialect Hrows).
  cbn [fst snd trace]. fold headers.
  split; [|split; [|reflexivity]].
  - intro Hmiss. now rewrite (lookup_columns_missing existing headers Hmiss).
  - intro Hall.
    destruct (lookup_columns_found existing headers Hall)
      as [columns [Hl [Hn Hf]]].
    exists columns. rewrite Hl. repeat split; try assumption.
    now apply found_columns_permutation.
Qed.

(** C5: when what [peek_csv] reads first, the 2048 characters from the
    position of the stream (its first 2 KiB for a stream at its start),
    is empty or all white space, [BlankCSVException] is raised and the
    stream has only been read once and rewound: no sample was read for
    the dialect and the csv reader was never asked for a row. *)
Theorem C5_blank_input_raises_first
    (existing : option (list Column)) (w : world) :
  let buf := substring (position w) 2048 (content w) in
  buf = "" \/ Py.isspace buf = true ->
  peek_csv Sniffer_sniff csv_reader existing w
  = (Err (BlankCSVException "blank csv file!"),
     mk_world (content w) 0 (trace w ++ [EvRead 2048; EvSeek 0])).
Proof.
  intros buf Hbuf. unfold peek_csv. unfold bind at 1.
  rewrite blank_check_run. fold buf.
  assert (blank buf = true) as ->; [|reflexivity].
  unfold blank. destruct Hbuf as [-> | ->]; [reflexivity|].
  apply orb_true_r.
Qed.

End Inference.

Section Rewind.

Variable Sniffer_sniff : string -> result Dialect.
Variable csv_reader : Dialect -> string -> reader.
Variable detector : Type.
Variable UniversalDetector : detector.
Variable feed : detector -> string -> detector.
Variable done : detector -> bool.
Variable result_encoding : detector -> option string.
Variable codec_exists : string -> bool.

(** C6: whatever the stream holds and wherever it stands, and whether the
    call returns or raises, the stream is at position 0 after
    [byte_buf_to_str_buf], after [sniff_csv] and after [peek_csv]. *)
Theorem C6_stream_rewound (w : world) (hint : nat)
    (existing : option (list Column)) :
  position (snd (byte_buf_to_str_buf UniversalDetector feed done
                   result_encoding codec_exists w)) = 0
  /\ position (snd (sniff_csv Sniffer_sniff hint w)) = 0
  /\ position (snd (peek_csv Sniffer_sniff csv_reader existing w)) = 0.
Proof.
  split; [|split].
  - unfold byte_buf_to_str_buf, bind.
    pose proof (rewind_position
                  (lines <- readlines ;;
                   feed_lines feed done UniversalDetector lines) w) as Hpos.
    destruct (rewind _ w) as [[d|e] w']; cbn [snd] in *; [|assumption].
    destruct (codec_exists _); assumption.
  - apply rewind_position.
  - unfold peek_csv. apply bind_position.
    + apply rewind_position.
    + intros _ w'. apply rewind_position.
Qed.

End Rewind.

(** ** Conversion and value objects *)

(** C7: for each column type, the string form of its example value
    converts back to the example value. *)
Theorem C7_example_round_trip (t : ColumnType) :
  convert_cell t (py_str (example t)) = Ok (example t).
Proof. destruct t; vm_compute; reflexivity. Qed.

(** C8, as stated, fails: a [KeySet] of one column, no value and size 0 is
    built without complaint. *)
Lemma C8_ill_formed_keyset_built :
  exists k : KeySet,
    KeySet_init [ROW_ID_COLUMN] [] greater_than (Some 0%Z) = Ok k
    /\ length (values k) <> length (columns k)
    /\ (size k <= 0)%Z.
Proof.
  eexists. split; [reflexivity|]. split; simpl; [discriminate|lia].
Qed.

(** C8, amended: building a [KeySet] checks nothing; it always succeeds
    and keeps the columns, values and operator it is given and the size it
    is given, or 10 when none is given. *)
Theorem C8_keyset_built_unchecked (cols : list Column)
    (vals : list PythonType) (o : KeySetOp) (sz : option Z) :
  exists k : KeySet,
    KeySet_init cols vals o sz = Ok k
    /\ columns k = cols /\ values k = vals /\ op k = o
    /\ size k = match sz with Some n => n | None => 10%Z end.
Proof. eexists. split; [reflexivity|]. repeat split. Qed.

(** C9 does not hold of the code: an exact count of 0 is present and
    [best] still answers the approximate count.  A present count other
    than 0 is answered, and so is the approximate count when the exact one
    is absent. *)
Theorem C9_best_exact_zero :
  best (mk_RowCount (Some 0%Z) 5) = 5%Z
  /\ (forall n a, best (mk_RowCount (Some n) a)
                  = if (n =? 0)%Z then a else n)
  /\ (forall a, best (mk_RowCount None a) = a).
Proof. repeat split. Qed.

(** C10: on a fresh table, whenever the stream is not blank, a header row
    is there and the csv reader raises nothing on the sampled rows,
    [peek_csv] returns columns, whatever names the header row repeats; the
    names of the columns are distinct and are header names, so there are no
    more columns than distinct header names; and with the header row "a,a"
    there is one column for two header cells. *)
Theorem C10_repeated_headers_collapse :
  (forall Sniffer_sniff csv_reader (w : world) (dialect : Dialect)
          (row : list string) (n : nat) (rd : reader)
          (rows : list (list string)),
      blank (substring (position w) 2048 (content w)) = false ->
      dialect_of Sniffer_sniff (content w) = Ok dialect ->
      csv_reader dialect (content w) = (Ok row, n) :: rd ->
      rows_of 1000 rd = Ok rows ->
      exists cols,
        fst (peek_csv Sniffer_sniff csv_reader None w) = Ok (dialect, cols)
        /\ NoDup (map name cols)
        /\ incl (map name cols) (headers_of row)
        /\ length cols <= length (nodup string_dec (headers_of row)))
  /\ (plain_reader excel upload_repeated
      = [(Ok ["a"; "a"], 4); (Ok ["1"; "x"], 4)]
      /\ fst (peek_csv no_sniff plain_reader None (fresh upload_repeated))
         = Ok (excel, [mk_Column "a" TEXT])).
Proof.
  split; [|split; reflexivity].
  intros Sniffer_sniff csv_reader w dialect row n rd rows
         Hblank Hdialect Hrd Hrows.
  rewrite peek_csv_fst. unfold outcome. rewrite Hblank, Hdialect, Hrd, Hrows.
  eexists. split; [reflexivity|].
  assert (map name (map (fun kv => infer_column (fst kv) (snd kv))
                        (as_dict_of (headers_of row) rows))
          = keys (as_dict_of (headers_of row) rows)) as Hnames.
  { unfold keys. rewrite map_map. apply map_ext. intros [k vs].
    now rewrite infer_column_first_sniffed. }
  rewrite Hnames.
  assert (incl (keys (as_dict_of (headers_of row) rows)) (headers_of row))
    as Hincl.
  { intros k Hk. unfold as_dict_of in Hk.
    apply (proj1 (dict_of_keys _ _)) in Hk.
    apply in_map_iff in Hk. destruct Hk as [[k' vs] [Hfst Hin]].
    simpl in Hfst. subst k'. eapply in_combine_l; eassumption. }
  split; [apply dict_of_NoDup|]. split; [assumption|].
  rewrite <- (length_map name), Hnames.
  apply NoDup_incl_length; [apply dict_of_NoDup|].
  intros k Hk. apply nodup_In. now apply Hincl.
Qed.

(** ** The theorems at work on small uploads *)

Ltac distinct_names :=
  repeat constructor; simpl; intuition discriminate.

Lemma C3_first_sniffed_type_wins_witness :
  fst (peek_csv no_sniff plain_reader None (fresh upload_typed))
  = Ok (excel, [mk_Column "n" INTEGER; mk_Column "s" TEXT])
  /\ (exists row n rd rows,
         plain_reader excel upload_typed = (Ok row, n) :: rd
         /\ rows_of 1000 rd = Ok rows
         /\ [mk_Column "n" INTEGER; mk_Column "s" TEXT]
            = map (fun kv => mk_Column (fst kv)
                               (first_sniffed_type (fst kv) (snd kv)))
                  (as_dict_of (headers_of row) rows))
  /\ Permutation ["2"; ""; "1"] ["1"; "2"; ""]
  /\ infer_column "n" ["2"; ""; "1"] = mk_Column "n" INTEGER
  /\ FloatConverter.sniff ["2"; ""; "1"] = true.
Proof.
  destruct (C3_first_sniffed_type_wins no_sniff plain_reader)
    as [_ [Hpeek Hsample]].
  assert (fst (peek_csv no_sniff plain_reader None (fresh upload_typed))
          = Ok (excel, [mk_Column "n" INTEGER; mk_Column "s" TEXT])) as Hrun
    by (vm_compute; reflexivity).
  assert (Permutation ["2"; ""; "1"] ["1"; "2"; ""]) as Hperm.
  { apply perm_trans with (l' := ["2"; "1"; ""]);
      [apply perm_skip, perm_swap|apply perm_swap]. }
  split; [exact Hrun|]. split; [exact (Hpeek _ _ _ Hrun)|].
  split; [exact Hperm|]. exact (Hsample "n" _ Hperm).
Defined.

Lemma C4_existing_columns_in_file_order_witness :
  (blank (substring 0 2048 upload_reordered) = false
   /\ dialect_of no_sniff upload_reordered = Ok excel
   /\ plain_reader excel upload_reordered
      = [(Ok ["b"; "a"], 4); (Ok ["1"; "x"], 4)]
   /\ (exists columns,
          fst (peek_csv no_sniff plain_reader (Some table_ab)
                 (fresh upload_reordered)) = Ok (excel, columns)
          /\ map name columns = ["b"; "a"]
          /\ Forall (fun c => In c table_ab) columns
          /\ Permutation columns table_ab)
   /\ trace (snd (peek_csv no_sniff plain_reader (Some table_ab)
                    (fresh upload_reordered)))
      = [EvRead 2048; EvSeek 0; EvRead 8192; EvSeek 0; EvNext; EvSeek 0])
  /\ (blank (substring 0 2048 upload_extra) = false
      /\ plain_reader excel upload_extra
         = [(Ok ["a"; "b"; "c"], 6); (Ok ["1"; "x"; "3"], 6)]
      /\ fst (peek_csv no_sniff plain_reader (Some table_ab)
                (fresh upload_extra))
         = Err TableDefinitionMismatchException).
Proof.
  assert (blank (substring 0 2048 upload_reordered) = false) as Hb1
    by reflexivity.
  assert (dialect_of no_sniff upload_reordered = Ok excel) as Hd1
    by reflexivity.
  assert (plain_reader excel upload_reordered
          = [(Ok ["b"; "a"], 4); (Ok ["1"; "x"], 4)]) as Hr1 by reflexivity.
  assert (blank (substring 0 2048 upload_extra) = false) as Hb2
    by reflexivity.
  assert (dialect_of no_sniff upload_extra = Ok excel) as Hd2 by reflexivity.
  assert (plain_reader excel upload_extra
          = [(Ok ["a"; "b"; "c"], 6); (Ok ["1"; "x"; "3"], 6)]) as Hr2
    by reflexivity.
  destruct (@C4_existing_columns_in_file_order no_sniff plain_reader table_ab
              (fresh upload_reordered) excel _ _ _ Hb1 Hd1 Hr1)
    as [_ [Hfound Htrace]].
  destruct (@C4_existing_columns_in_file_order no_sniff plain_reader table_ab
              (fresh upload_extra) excel _ _ _ Hb2 Hd2 Hr2)
    as [Hmissing _].
  split.
  - split; [exact Hb1|]. split; [exact Hd1|]. split; [exact Hr1|].
    split; [|exact Htrace].
    destruct Hfound as [columns [Hrun [Hn [Hf Hp]]]].
    { simpl. intros h [<-|[<-|[]]]; simpl; auto. }
    exists columns. repeat split; try assumption.
    apply Hp.
    + distinct_names.
    + apply perm_swap.
  - split; [exact Hb2|]. split; [exact Hr2|].
    apply Hmissing. exists "c". split; simpl; [auto|].
    intuition discriminate.
Defined.

Lemma C5_blank_input_raises_first_witness :
  (substring 0 2048 "" = ""
   /\ peek_csv no_sniff plain_reader None (fresh "")
      = (Err (BlankCSVException "blank csv file!"),
         mk_world "" 0 [EvRead 2048; EvSeek 0]))
  /\ (Py.isspace (substring 0 2048 ("  " ++ nl)) = true
      /\ peek_csv no_sniff plain_reader (Some table_ab) (fresh ("  " ++ nl))
         = (Err (BlankCSVException "blank csv file!"),
            mk_world ("  " ++ nl) 0 [EvRead 2048; EvSeek 0])).
Proof.
  split; (split; [reflexivity|]).
  - apply (@C5_blank_input_raises_first no_sniff plain_reader None (fresh "")).
    left. reflexivity.
  - apply (@C5_blank_input_raises_first no_sniff plain_reader (Some table_ab)
             (fresh ("  " ++ nl))).
    right. reflexivity.
Defined.

Lemma C10_repeated_headers_collapse_witness :
  blank (substring 0 2048 upload_repeated) = false
  /\ dialect_of no_sniff upload_repeated = Ok excel
  /\ plain_reader excel upload_repeated
     = [(Ok ["a"; "a"], 4); (Ok ["1"; "x"], 4)]
  /\ rows_of 1000 [(Ok ["1"; "x"], 4)] = Ok [["1"; "x"]]
  /\ exists cols,
       fst (peek_csv no_sniff plain_reader None (fresh upload_repeated))
       = Ok (excel, cols)
       /\ NoDup (map name cols)
       /\ incl (map name cols) (headers_of ["a"; "a"])
       /\ length cols <= length (nodup string_dec (headers_of ["a"; "a"])).
Proof.
  assert (blank (substring 0 2048 upload_repeated) = false) as Hb
    by reflexivity.
  assert (dialect_of no_sniff upload_repeated = Ok excel) as Hd
    by reflexivity.
  assert (plain_reader excel upload_repeated
          = [(Ok ["a"; "a"], 4); (Ok ["1"; "x"], 4)]) as Hr by reflexivity.
  assert (rows_of 1000 [(Ok ["1"; "x"], 4)] = Ok [["1"; "x"]]) as Hrows
    by reflexivity.
  split; [exact Hb|]. split; [exact Hd|]. split; [exact Hr|].
  split; [exact Hrows|].
  exact (proj1 C10_repeated_headers_collapse no_sniff plain_reader
           (fresh upload_repeated) excel _ _ _ _ Hb Hd Hr Hrows).
Defined.


(** * Further properties of the code *)

(** ** White space and [strip] *)

Lemma lstrip_all_space (s : string) :
  Py.all_chars Py.is_space s = true -> Py.lstrip s = "".
Proof.
  induction s as [|c s IH]; simpl; [reflexivity|].
  destruct (Py.is_space c); simpl; [exact IH|discriminate].
Qed.

Lemma lstrip_keeps_ink (s : string) :
  Py.all_chars Py.is_space s = false ->
  Py.all_chars Py.is_space (Py.lstrip s) = false.
Proof.
  induction s as [|c s IH]; simpl; [discriminate|].
  destruct (Py.is_space c) eqn:E; simpl; [exact IH|].
  intros _. now rewrite E.
Qed.

Lemma rstrip_empty_iff (s : string) :
  Py.rstrip s = "" <-> Py.all_chars Py.is_space s = true.
Proof.
  induction s as [|c s IH]; simpl; [easy|].
  destruct (Py.rstrip s) as [|a t] eqn:E.
  - destruct (Py.is_space c); simpl.
    + split; [intros _; now apply IH|reflexivity].
    + split; discriminate.
  - split; [discriminate|]. intro H.
    apply andb_true_iff in H. destruct H as [_ H].
    apply IH in H. discriminate.
Qed.

Lemma strip_empty_iff (s : string) :
  Py.strip s = "" <-> Py.all_chars Py.is_space s = true.
Proof.
  unfold Py.strip. rewrite rstrip_empty_iff.
  destruct (Py.all_chars Py.is_space s) eqn:E.
  - rewrite (lstrip_all_space s E). easy.
  - rewrite (lstrip_keeps_ink s E). easy.
Qed.

Lemma strip_eqb_empty (s : string) :
  String.eqb (Py.strip s) "" = Py.all_chars Py.is_space s.
Proof.
  apply eq_true_iff_eq. rewrite String.eqb_eq. apply strip_empty_iff.
Qed.

(** ** Converters and blank cells *)

(** Each of the four converters answers [None] exactly for the values
    made of white space only (tabs and line ends count, and so does the
    empty value); no other value is converted to [None]. *)
Theorem convert_none_iff_white_space (value : string) :
  (DateConverter.convert value = Ok PNone
   <-> Py.all_chars Py.is_space value = true)
  /\ (IntegerConverter.convert value = Ok PNone
      <-> Py.all_chars Py.is_space value = true)
  /\ (FloatConverter.convert value = Ok PNone
      <-> Py.all_chars Py.is_space value = true)
  /\ (BooleanConverter.convert value = Ok PNone
      <-> Py.all_chars Py.is_space value = true).
Proof.
  unfold DateConverter.convert, IntegerConverter.convert,
    FloatConverter.convert, BooleanConverter.convert, raise_unconvertable.
  rewrite strip_eqb_empty.
  destruct (Py.all_chars Py.is_space value); [repeat split; reflexivity|].
  repeat split; try discriminate.
  - destruct (PyDate.fromisoformat _) as [d|[]]; discriminate.
  - destruct (Re.match_ _ _); [|discriminate].
    destruct (Py.int _); discriminate.
  - destruct (Re.match_ _ _); [|discriminate].
    destruct (PyFloat.float _); discriminate.
  - destruct (Re.matches _ _); [discriminate|].
    destruct (Re.matches _ _); discriminate.
Qed.

(** ** Enumerations and their tables *)

(** A file extension names a content type exactly when that content type
    has this file extension; [HTML_FORM], and it alone, has no file
    extension and no pretty name: asking for either raises [KeyError]. *)
Theorem content_type_extension_round_trip :
  (forall ext ct,
      ContentType.from_file_extension ext = Some ct
      <-> ContentType.file_extension ct = Got ext)
  /\ (forall ct,
         ContentType.file_extension ct = KeyError
         <-> ct = ContentType.HTML_FORM)
  /\ (forall ct,
         ContentType.pretty_name ct = KeyError
         <-> ct = ContentType.HTML_FORM).
Proof.
  split; [|split].
  - intros ext ct. split.
    + unfold ContentType.from_file_extension, ContentType.EXTENSION_MAP.
      cbn [table_get].
      repeat match goal with
             | |- context [String.eqb ?k ext] =>
                 let E := fresh "E" in
                 destruct (String.eqb k ext) eqn:E;
                 [apply String.eqb_eq in E; subst ext;
                  intros [= <-]; reflexivity|]
             end.
      discriminate.
    + destruct ct; vm_compute; intros [= <-] || discriminate; reflexivity.
  - intro ct. split; [|intros ->; reflexivity].
    destruct ct; vm_compute; (discriminate || reflexivity).
  - intro ct. split; [|intros ->; reflexivity].
    destruct ct; vm_compute; (discriminate || reflexivity).
Qed.

(** Every column type has an entry in the tables of SQLAlchemy types, of
    Python types and of pretty names, so none of the three look-ups raises
    [KeyError]; different column types have different pretty names and
    different SQLAlchemy types; and every column type is the answer of
    [from_sql_type] for some SQL type name. *)
Theorem column_type_tables_total :
  (forall t, exists a p s,
        ColumnTypes.sqla_type t = Got a
        /\ ColumnTypes.python_type t = Got p
        /\ ColumnTypes.pretty_type t = Got s)
  /\ (forall t1 t2,
         ColumnTypes.pretty_type t1 = ColumnTypes.pretty_type t2
         \/ ColumnTypes.sqla_type t1 = ColumnTypes.sqla_type t2 <->
         t1 = t2)
  /\ (forall t, exists sql, ColumnTypes.from_sql_type sql = Got t).
Proof.
  split; [|split].
  - intros []; do 3 eexists; repeat split.
  - intros t1 t2. split; [|intros ->; now left].
    destruct t1, t2; vm_compute; intros [H|H];
      (reflexivity || discriminate).
  - intros [].
    + now exists "text".
    + now exists "bigint".
    + now exists "double precision".
    + now exists "boolean".
    + now exists "date".
Qed.

(** Every licence has a long and a short rendering ([render] and
    [short_render] never raise [KeyError]), different licences are
    rendered differently, and the free licences are all but [UNKNOWN] and
    [ALL_RIGHTS_RESERVED]. *)
Theorem data_licence_rendered :
  (forall l, exists long short,
        DataLicence.render l = Got long
        /\ DataLicence.short_render l = Got short)
  /\ (forall l1 l2,
         DataLicence.render l1 = DataLicence.render l2
         \/ DataLicence.short_render l1 = DataLicence.short_render l2 <->
         l1 = l2)
  /\ (forall l,
         DataLicence.is_free l = true
         <-> l <> DataLicence.UNKNOWN
             /\ l <> DataLicence.ALL_RIGHTS_RESERVED).
Proof.
  split; [|split].
  - intros []; do 2 eexists; split; reflexivity.
  - intros l1 l2. split; [|intros ->; now left].
    destruct l1, l2; vm_compute; intros [H|H];
      (reflexivity || discriminate).
  - intros []; unfold DataLicence.is_free; simpl; split;
      try discriminate;
      try (intros [H1 H2]; congruence);
      intros _; split; discriminate.
Qed.

(** ** Users and tables *)

Lemma hex_digit_code (n : nat) :
  n < 16 -> Py.ord (Hex.digit n) = if n <? 10 then 48 + n else 87 + n.
Proof.
  intro Hn. unfold Hex.digit, Py.ord.
  destruct (n <? 10) eqn:E; apply nat_ascii_embedding;
    [apply Nat.ltb_lt in E|]; lia.
Qed.

Lemma hex_digit_injective (n m : nat) :
  n < 16 -> m < 16 -> Hex.digit n = Hex.digit m -> n = m.
Proof.
  intros Hn Hm H. apply (f_equal Py.ord) in H.
  rewrite !hex_digit_code in H by assumption.
  destruct (n <? 10) eqn:En, (m <? 10) eqn:Em;
    try apply Nat.ltb_lt in En; try apply Nat.ltb_lt in Em;
    try apply Nat.ltb_ge in En; try apply Nat.ltb_ge in Em; lia.
Qed.

Lemma hexlify_injective (a : string) :
  forall b, Hex.hexlify a = Hex.hexlify b -> a = b.
Proof.
  induction a as [|x a IH]; intros [|y b]; cbn [Hex.hexlify]; try easy.
  assert (Py.ord x < 256) as Hx by apply nat_ascii_bounded.
  assert (Py.ord y < 256) as Hy by apply nat_ascii_bounded.
  pose proof (Nat.div_mod_eq (Py.ord x) 16) as Ex.
  pose proof (Nat.div_mod_eq (Py.ord y) 16) as Ey.
  assert (Py.ord x / 16 < 16) as Hxh
    by (apply Nat.Div0.div_lt_upper_bound; lia).
  assert (Py.ord y / 16 < 16) as Hyh
    by (apply Nat.Div0.div_lt_upper_bound; lia).
  assert (Py.ord x mod 16 < 16) as Hxl by (apply Nat.mod_upper_bound; lia).
  assert (Py.ord y mod 16 < 16) as Hyl by (apply Nat.mod_upper_bound; lia).
  revert Ex Ey Hxh Hyh Hxl Hyl.
  generalize (Py.ord x / 16) (Py.ord x mod 16)
             (Py.ord y / 16) (Py.ord y mod 16).
  intros xh xl yh yl Ex Ey Hxh Hyh Hxl Hyl [= Hhi Hlo Hrest].
  apply hex_digit_injective in Hhi; [|assumption|assumption].
  apply hex_digit_injective in Hlo; [|assumption|assumption].
  assert (Py.ord x = Py.ord y) as Hxy by (subst; lia).
  f_equal; [|now apply IH].
  unfold Py.ord in Hxy.
  rewrite <- (ascii_nat_embedding x), <- (ascii_nat_embedding y).
  now rewrite Hxy.
Qed.

Lemma hexlify_length (a : string) :
  String.length (Hex.hexlify a) = 2 * String.length a.
Proof. induction a as [|x a IH]; simpl; [reflexivity|]. rewrite IH. lia. Qed.

Lemma startswith_row_id :
  startswith "csvbase_" (name ROW_ID_COLUMN) = true.
Proof. reflexivity. Qed.

Section RecordFacts.

Variable UUID : Type.
Variable datetime : Type.

(** The hexadecimal form of an API key determines the key: two users
    have the same [hex_api_key] exactly when they have the same key, and
    the form is twice as long as the key. *)
Theorem hex_api_key_faithful (u1 u2 : User UUID datetime) :
  (hex_api_key u1 = hex_api_key u2 <-> api_key u1 = api_key u2)
  /\ String.length (hex_api_key u1) = 2 * String.length (api_key u1).
Proof.
  unfold hex_api_key. split; [split|apply hexlify_length].
  - apply hexlify_injective.
  - now intros ->.
Qed.

(** [user_columns] keeps, in their order, the columns whose name does not
    start with [csvbase_], so the row-id column is never among them; for a
    table whose columns are the row-id column followed by columns without
    that prefix, [row_id_column] is the row-id column and [user_columns]
    the others; a table without columns makes [row_id_column] raise
    [IndexError]. *)
Theorem user_columns_drop_reserved (t : Table UUID datetime) :
  (forall c, In c (user_columns t)
             <-> In c (table_columns t)
                 /\ startswith "csvbase_" (name c) = false)
  /\ ~ In ROW_ID_COLUMN (user_columns t)
  /\ (forall others,
         table_columns t = ROW_ID_COLUMN :: others ->
         Forall (fun c => startswith "csvbase_" (name c) = false) others ->
         row_id_column t = Got ROW_ID_COLUMN /\ user_columns t = others)
  /\ (table_columns t = [] -> row_id_column t = IndexError).
Proof.
  unfold user_columns, row_id_column.
  split; [|split; [|split]].
  - intro c. rewrite filter_In, negb_true_iff. reflexivity.
  - intro H. apply filter_In in H. destruct H as [_ H].
    rewrite startswith_row_id in H. discriminate.
  - intros others Hcols Hfree. rewrite Hcols. split; [reflexivity|].
    cbn [filter]. rewrite startswith_row_id. cbn [negb].
    clear Hcols. induction Hfree as [|c others Hc _ IH]; [reflexivity|].
    cbn [filter]. rewrite Hc. cbn [negb]. now f_equal.
  - intros ->. reflexivity.
Qed.

(** A table has a caption exactly when its caption holds a character
    that is not white space. *)
Theorem has_caption_iff_ink (t : Table UUID datetime) :
  has_caption t = true <-> Py.all_chars Py.is_space (caption t) = false.
Proof.
  unfold has_caption. rewrite <- strip_eqb_empty.
  destruct (Py.strip (caption t)) as [|c s]; simpl; split;
    discriminate || reflexivity.
Qed.

End RecordFacts.

Lemma user_columns_drop_reserved_witness :
  row_id_column table_people = Got ROW_ID_COLUMN
  /\ user_columns table_people
     = [mk_Column "name" TEXT; mk_Column "age" INTEGER].
Proof.
  apply (proj1 (proj2 (proj2 (user_columns_drop_reserved table_people)))).
  - reflexivity.
  - repeat constructor.
Defined.

(** ** Streams *)

(** [file_length] answers the number of characters of the stream,
    wherever the stream stands, and leaves the stream at position 0 (not
    at the position it had). *)
Theorem file_length_then_start (w : world) :
  file_length w
  = (Ok (String.length (content w)),
     mk_world (content w) 0
       (trace w ++ [EvSeek (String.length (content w)); EvSeek 0])).
Proof.
  unfold file_length, rewind, bind, seek_end, tell, seek, log.
  cbn [snd content trace position fst].
  now rewrite Nat.add_0_r, <- app_assoc.
Qed.

Section DetectorFacts.

Variable detector : Type.
Variable UniversalDetector : detector.
Variable feed : detector -> string -> detector.
Variable done : detector -> bool.
Variable result_encoding : detector -> option string.
Variable codec_exists : string -> bool.

Lemma feed_lines_run (lines : list string) :
  forall (d : detector) (w : world),
    feed_lines feed done d lines w
    = (Ok (fed feed done d lines (position w)), w).
Proof.
  induction lines as [|line rest IH]; intros d w; cbn [feed_lines fed];
    [reflexivity|].
  destruct (done (feed d line)); [reflexivity|].
  unfold bind, tell.
  destruct (1000000 <? position w); [reflexivity|apply IH].
Qed.

Lemma byte_buf_to_str_buf_run (w : world) :
  byte_buf_to_str_buf UniversalDetector feed done result_encoding
    codec_exists w
  = (let d := fed feed done UniversalDetector (splitlines (remaining w))
                  (position w + String.length (remaining w)) in
     let encoding :=
       match result_encoding d with Some e => e | None => "utf-8" end in
     if codec_exists encoding then Ok (mk_StreamReader encoding)
     else Err LookupError,
     mk_world (content w) 0 (trace w ++ [EvReadlines; EvSeek 0])).
Proof.
  unfold byte_buf_to_str_buf, rewind.
  unfold bind at 1. unfold bind at 1. unfold readlines at 1.
  rewrite feed_lines_run. unfold seek, log.
  cbn [snd content trace position].
  rewrite <- app_assoc. cbn [app].
  destruct (codec_exists _); reflexivity.
Qed.

End DetectorFacts.


Lemma length_append (a b : string) :
  String.length (a ++ b) = String.length a + String.length b.
Proof. induction a as [|c a IH]; simpl; [reflexivity|now rewrite IH]. Qed.

Lemma chars_length (n : nat) (c : ascii) : String.length (chars n c) = n.
Proof. induction n as [|n IH]; simpl; [reflexivity|now rewrite IH]. Qed.

Lemma splitlines_last (l : string) :
  no_line_feed l -> splitlines (l ++ nl) = [(l ++ nl)%string].
Proof.
  unfold no_line_feed, nl.
  induction l as [|c l IH]; simpl; [reflexivity|].
  intro H. apply andb_true_iff in H. destruct H as [Hc Hl].
  apply negb_true_iff in Hc. rewrite Hc, (IH Hl). reflexivity.
Qed.

Lemma splitlines_line (l s : string) :
  no_line_feed l ->
  splitlines (l ++ nl ++ s) = (l ++ nl)%string :: splitlines s.
Proof.
  unfold no_line_feed, nl.
  change (String Py.LF "" ++ s)%string with (String Py.LF s).
  induction l as [|c l IH]; simpl; [reflexivity|].
  intro H. apply andb_true_iff in H. destruct H as [Hc Hl].
  apply negb_true_iff in Hc. rewrite Hc, (IH Hl). reflexivity.
Qed.

Lemma chars_no_line_feed (n : nat) : no_line_feed (chars n "x").
Proof. unfold no_line_feed. induction n as [|n IH]; simpl; auto. Qed.

(* Statements that hold the number 1000000 are not searched for implicit
   arguments. *)
Unset Implicit Arguments.

Section DetectorFeeding.

Variable detector : Type.
Variable UniversalDetector : detector.
Variable feed : detector -> string -> detector.
Variable done : detector -> bool.
Variable result_encoding : detector -> option string.
Variable codec_exists : string -> bool.

(** The detector, started from [d], reports that it is done after none
    of the lines of [lines]. *)
Lemma fed_all (told : nat) (lines : list string) :
  told <= 1000000 ->
  forall d,
    (forall p l q, lines = p ++ l :: q ->
                   done (fold_left feed (p ++ [l]) d) = false) ->
    fed feed done d lines told = fold_left feed lines d.
Proof.
  intro Hsmall.
  induction lines as [|line rest IH]; intros d Hquiet; cbn [fed fold_left];
    [reflexivity|].
  pose proof (Hquiet [] line rest eq_refl) as Hline.
  cbn [app fold_left] in Hline. rewrite Hline.
  assert ((1000000 <? told) = false) as ->
    by exact (proj2 (Nat.ltb_ge _ _) Hsmall).
  apply IH. intros p l q ->. exact (Hquiet (line :: p) l q eq_refl).
Qed.

Lemma fed_until_done (told : nat) (pre : list string) (line : string)
    (post : list string) :
  told <= 1000000 ->
  forall d,
    (forall p l q, pre = p ++ l :: q ->
                   done (fold_left feed (p ++ [l]) d) = false) ->
    done (fold_left feed (pre ++ [line]) d) = true ->
    fed feed done d (pre ++ line :: post) told
    = fold_left feed (pre ++ [line]) d.
Proof.
  intro Hsmall.
  induction pre as [|first pre IH]; intros d Hquiet Hdone;
    cbn [app fed fold_left]; cbn [app fold_left] in Hdone.
  - now rewrite Hdone.
  - pose proof (Hquiet [] first pre eq_refl) as Hline.
    cbn [app fold_left] in Hline. rewrite Hline.
    assert ((1000000 <? told) = false) as ->
      by exact (proj2 (Nat.ltb_ge _ _) Hsmall).
    apply IH; [|exact Hdone].
    intros p l q ->. exact (Hquiet (first :: p) l q eq_refl).
Qed.

(** [byte_buf_to_str_buf] always reads the stream to its end and rewinds
    it.  When the stream ends within the first 1,000,000 bytes: if in this
    run the detector reports that it is done after none of the lines,
    every line is fed to it, in order; if it first reports so after some
    line, the lines up to that one are fed and no line after it.  When the
    stream ends past 1,000,000 bytes, the first line alone is fed.  The
    reader returned is for the encoding the detector then reports, utf-8
    when it reports none, and [LookupError] is raised when there is no
    codec of that name. *)
Theorem detector_fed_by_size (w : world) :
  let lines := splitlines (remaining w) in
  let total := position w + String.length (remaining w) in
  let run := byte_buf_to_str_buf UniversalDetector feed done
               result_encoding codec_exists w in
  snd run = mk_world (content w) 0 (trace w ++ [EvReadlines; EvSeek 0])
  /\ (total <= 1000000 ->
      (forall p l q, lines = p ++ l :: q ->
                     done (fold_left feed (p ++ [l]) UniversalDetector)
                     = false) ->
      fst run = reader_for result_encoding codec_exists
                  (fold_left feed lines UniversalDetector))
  /\ (forall pre line post,
         total <= 1000000 ->
         lines = pre ++ line :: post ->
         (forall p l q, pre = p ++ l :: q ->
                        done (fold_left feed (p ++ [l]) UniversalDetector)
                        = false) ->
         done (fold_left feed (pre ++ [line]) UniversalDetector) = true ->
         fst run = reader_for result_encoding codec_exists
                     (fold_left feed (pre ++ [line]) UniversalDetector))
  /\ (forall line rest,
         lines = line :: rest ->
         1000000 < total ->
         fst run = reader_for result_encoding codec_exists
                     (feed UniversalDetector line)).
Proof.
  intros lines total run. subst run.
  rewrite byte_buf_to_str_buf_run. cbn [fst snd]. fold lines total.
  split; [reflexivity|]. split; [|split].
  - intros Hsmall Hquiet. unfold reader_for.
    now rewrite (fed_all total lines Hsmall UniversalDetector Hquiet).
  - intros pre line post Hsmall Hlines Hquiet Hdone. unfold reader_for.
    rewrite Hlines.
    now rewrite (fed_until_done total pre line post Hsmall UniversalDetector
                   Hquiet Hdone).
  - intros line rest Hlines Hbig. unfold reader_for.
    rewrite Hlines. cbn [fed].
    assert ((1000000 <? total) = true) as ->
      by exact (proj2 (Nat.ltb_lt _ _) Hbig).
    now destruct (done _).
Qed.

End DetectorFeeding.

Lemma detector_fed_by_size_witness :
  (position (fresh upload_typed)
   + String.length (remaining (fresh upload_typed)) <= 1000000
   /\ fst (byte_buf_to_str_buf [] keep_line (fun _ => false)
             (fun _ => None) (String.eqb "utf-8") (fresh upload_typed))
      = reader_for (fun _ : list string => None) (String.eqb "utf-8")
          (fold_left keep_line
             (splitlines (remaining (fresh upload_typed))) []))
  /\ (splitlines (remaining (fresh upload_typed))
      = [("n,s" ++ nl)%string] ++ ("1,x" ++ nl)%string
        :: [("2," ++ nl)%string]
      /\ fst (byte_buf_to_str_buf [] keep_line
                (fun d => 2 <=? length d)
                (fun _ => None) (String.eqb "utf-8") (fresh upload_typed))
         = reader_for (fun _ : list string => None) (String.eqb "utf-8")
             [("n,s" ++ nl)%string; ("1,x" ++ nl)%string])
  /\ (splitlines (remaining (fresh upload_large))
      = [("a,b" ++ nl)%string; (chars 1000000 "x" ++ nl)%string]
      /\ 1000000 < position (fresh upload_large)
                   + String.length (remaining (fresh upload_large))
      /\ fst (byte_buf_to_str_buf [] keep_line (fun _ => false)
                (fun _ => None) (String.eqb "utf-8") (fresh upload_large))
         = reader_for (fun _ : list string => None) (String.eqb "utf-8")
             (keep_line [] ("a,b" ++ nl))).
Proof.
  assert (remaining (fresh upload_large) = upload_large) as Hrem
    by apply substring_full.
  assert (splitlines (remaining (fresh upload_large))
          = [("a,b" ++ nl)%string; (chars 1000000 "x" ++ nl)%string])
    as Hlines.
  { rewrite Hrem. unfold upload_large.
    rewrite splitlines_line by reflexivity.
    now rewrite splitlines_last by apply chars_no_line_feed. }
  assert (1000000 < position (fresh upload_large)
                    + String.length (remaining (fresh upload_large)))
    as Hbig.
  { rewrite Hrem. unfold upload_large, fresh. cbn [position].
    rewrite !length_append, chars_length.
    generalize 1000000. intro n. simpl. lia. }
  assert (position (fresh upload_typed)
          + String.length (remaining (fresh upload_typed)) <= 1000000)
    as Hsmall.
  { apply Nat.leb_le. vm_compute. reflexivity. }
  assert (splitlines (remaining (fresh upload_typed))
          = [("n,s" ++ nl)%string] ++ ("1,x" ++ nl)%string
            :: [("2," ++ nl)%string]) as Hthree by reflexivity.
  destruct (detector_fed_by_size (list string) [] keep_line (fun _ => false)
              (fun _ => None) (String.eqb "utf-8") (fresh upload_typed))
    as [_ [Hall _]].
  destruct (detector_fed_by_size (list string) [] keep_line
              (fun d => 2 <=? length d)
              (fun _ => None) (String.eqb "utf-8") (fresh upload_typed))
    as [_ [_ [Hstop _]]].
  destruct (detector_fed_by_size (list string) [] keep_line (fun _ => false)
              (fun _ => None) (String.eqb "utf-8") (fresh upload_large))
    as [_ [_ [_ Hfirst]]].
  split; [split; [exact Hsmall|]|
          split; [split; [exact Hthree|]|
                  split; [exact Hlines|split; [exact Hbig|]]]].
  - apply Hall; [exact Hsmall|reflexivity].
  - apply (Hstop _ _ _ Hsmall Hthree); [|reflexivity].
    intros p l q Hp. destruct p as [|? [|? ?]]; try discriminate Hp.
    injection Hp as <- <-. reflexivity.
  - exact (Hfirst _ _ Hlines Hbig).
Defined.

Set Implicit Arguments.


(** ** Fresh tables: how many columns, from how many rows *)

Lemma zip_star_cons (x : string) (first : list string)
    (others : list (list string)) :
  zip_star ((x :: first) :: others)
  = if forallb (fun r => negb (length r =? 0)) others
    then (x :: map (hd "") others) :: zip_star (first :: map (@tl _) others)
    else [].
Proof. reflexivity. Qed.

Lemma zip_star_length_first (first : list string) :
  forall others, length (zip_star (first :: others)) <= length first.
Proof.
  induction first as [|x first IH]; intro others; [apply Nat.le_refl|].
  rewrite zip_star_cons. destruct (forallb _ others); cbn [length]; [|lia].
  specialize (IH (map (@tl _) others)). lia.
Qed.

Lemma zip_star_length_others (first : list string) :
  forall others r,
    In r others -> length (zip_star (first :: others)) <= length r.
Proof.
  induction first as [|x first IH]; intros others r Hin; [simpl; lia|].
  rewrite zip_star_cons.
  destruct (forallb _ others) eqn:Hall; cbn [length]; [|lia].
  rewrite forallb_forall in Hall. specialize (Hall r Hin).
  destruct r as [|y r]; [discriminate|]. cbn [length].
  apply le_n_S. apply (IH (map (@tl _) others) r).
  change r with (tl (y :: r)). now apply in_map.
Qed.

Lemma zip_star_length (rows : list (list string)) (r : list string) :
  In r rows -> length (zip_star rows) <= length r.
Proof.
  destruct rows as [|first others]; [intros []|].
  intros [<-|Hin];
    [apply zip_star_length_first|now apply zip_star_length_others].
Qed.

Lemma dict_of_length {V} (pairs : list (string * V)) :
  length (dict_of pairs) <= length pairs.
Proof.
  rewrite <- (length_map fst (dict_of pairs)), <- (length_map fst pairs).
  apply NoDup_incl_length; [apply dict_of_NoDup|].
  intros k Hk. now apply (proj1 (dict_of_keys _ _)).
Qed.

Lemma rows_of_firstn (n : nat) :
  forall rd, rows_of n (firstn (S n) rd) = rows_of n rd.
Proof.
  induction n as [|n IH]; intros [|[[row|e] k] rd]; try reflexivity.
  rewrite firstn_cons. cbn [rows_of]. now rewrite IH.
Qed.

Lemma firstn_heads {A} (k : nat) (l1 l2 : list A) :
  firstn (S k) l1 = firstn (S k) l2 ->
  match l1, l2 with
  | [], [] => True
  | x1 :: t1, x2 :: t2 => x1 = x2 /\ firstn k t1 = firstn k t2
  | _, _ => False
  end.
Proof.
  destruct l1 as [|x1 t1], l2 as [|x2 t2]; rewrite ?firstn_cons;
    try easy.
  intros [= -> H]. now split.
Qed.

Section FreshTables.

Variable Sniffer_sniff : string -> result Dialect.
Variable csv_reader : Dialect -> string -> reader.

(** On a stream that is not blank: when the csv reader has no row at
    all, [peek_csv] raises [StopIteration], with or without existing
    columns; when it has a header row and nothing else, [peek_csv] for a
    fresh table returns no column at all, and raises nothing. *)
Theorem no_row_or_header_only (w : world) (dialect : Dialect) :
  blank (substring (position w) 2048 (content w)) = false ->
  dialect_of Sniffer_sniff (content w) = Ok dialect ->
  (csv_reader dialect (content w) = [] ->
   forall existing,
     fst (peek_csv Sniffer_sniff csv_reader existing w) = Err StopIteration)
  /\ (forall row n,
         csv_reader dialect (content w) = [(Ok row, n)] ->
         fst (peek_csv Sniffer_sniff csv_reader None w) = Ok (dialect, [])).
Proof.
  intros Hblank Hdialect. split.
  - intros Hrd existing. rewrite peek_csv_fst. unfold outcome.
    now rewrite Hblank, Hdialect, Hrd.
  - intros row n Hrd. rewrite peek_csv_fst. unfold outcome.
    rewrite Hblank, Hdialect, Hrd. cbn [rows_of].
    unfold as_dict_of. cbn [zip_star map]. now rewrite combine_nil.
Qed.

(** A fresh table gets no more columns than the header row has cells and
    no more than the shortest sampled row has cells: the cells of a longer
    row past that length, and the header cells past it, are left out. *)
Theorem columns_cut_to_shortest_row (w : world) (dialect : Dialect)
    (row : list string) (n : nat) (rd : reader)
    (rows : list (list string)) :
  blank (substring (position w) 2048 (content w)) = false ->
  dialect_of Sniffer_sniff (content w) = Ok dialect ->
  csv_reader dialect (content w) = (Ok row, n) :: rd ->
  rows_of 1000 rd = Ok rows ->
  exists cols,
    fst (peek_csv Sniffer_sniff csv_reader None w) = Ok (dialect, cols)
    /\ length cols <= length row
    /\ forall r, In r rows -> length cols <= length r.
Proof.
  intros Hblank Hdialect Hrd Hrows.
  rewrite peek_csv_fst. unfold outcome. rewrite Hblank, Hdialect, Hrd, Hrows.
  eexists. split; [reflexivity|].
  rewrite length_map. unfold as_dict_of.
  pose proof (dict_of_length
                (combine (headers_of row) (map py_set (zip_star rows))))
    as Hd.
  rewrite length_combine, length_map in Hd.
  assert (length (headers_of row) = length row) as Hh.
  { unfold headers_of. now rewrite length_map, length_combine, length_seq,
      Nat.min_id. }
  split; [lia|].
  intros r Hr. pose proof (zip_star_length rows r Hr). lia.
Qed.

(** The answer of [peek_csv] depends on the first 1002 items of the csv
    reader only: the header row, the 1000 rows sampled and the one item
    that the loop takes and drops.  Two readers that agree on these give
    the same answer, whatever comes after. *)
Theorem sample_of_thousand_rows
    (other_reader : Dialect -> string -> reader)
    (existing : option (list Column)) (w : world) :
  (forall dialect,
      firstn 1002 (csv_reader dialect (content w))
      = firstn 1002 (other_reader dialect (content w))) ->
  fst (peek_csv Sniffer_sniff csv_reader existing w)
  = fst (peek_csv Sniffer_sniff other_reader existing w).
Proof.
  intro Hsame. rewrite !peek_csv_fst. unfold outcome.
  destruct (blank _); [reflexivity|].
  destruct (dialect_of _ _) as [dialect|]; [|reflexivity].
  specialize (Hsame dialect).
  destruct (csv_reader dialect (content w)) as [|item1 rd1],
           (other_reader dialect (content w)) as [|item2 rd2];
    try reflexivity;
    try (apply (firstn_heads 1001) in Hsame; contradiction).
  apply (firstn_heads 1001) in Hsame. destruct Hsame as [Hitem Hrest].
  subst item2.
  destruct item1 as [[row|e] n]; [|reflexivity].
  destruct existing as [ex|]; [reflexivity|].
  rewrite <- (rows_of_firstn 1000 rd1), <- (rows_of_firstn 1000 rd2).
  now rewrite Hrest.
Qed.

End FreshTables.

Lemma no_row_or_header_only_witness :
  (blank (substring 0 2048 "x") = false
   /\ dialect_of no_sniff "x" = Ok excel
   /\ fst (peek_csv no_sniff (fun _ _ => []) (Some table_ab) (fresh "x"))
      = Err StopIteration)
  /\ (blank (substring 0 2048 ("a,b" ++ nl)) = false
      /\ plain_reader excel ("a,b" ++ nl) = [(Ok ["a"; "b"], 4)]
      /\ fst (peek_csv no_sniff plain_reader None (fresh ("a,b" ++ nl)))
         = Ok (excel, [])).
Proof.
  assert (blank (substring 0 2048 "x") = false) as Hb1 by reflexivity.
  assert (dialect_of no_sniff "x" = Ok excel) as Hd1 by reflexivity.
  assert (blank (substring 0 2048 ("a,b" ++ nl)) = false) as Hb2
    by reflexivity.
  assert (dialect_of no_sniff ("a,b" ++ nl) = Ok excel) as Hd2
    by reflexivity.
  assert (plain_reader excel ("a,b" ++ nl) = [(Ok ["a"; "b"], 4)]) as Hr2
    by reflexivity.
  split.
  - split; [exact Hb1|]. split; [exact Hd1|].
    exact (proj1 (@no_row_or_header_only no_sniff (fun _ _ => [])
                    (fresh "x") excel Hb1 Hd1) eq_refl (Some table_ab)).
  - split; [exact Hb2|]. split; [exact Hr2|].
    exact (proj2 (@no_row_or_header_only no_sniff plain_reader
                    (fresh ("a,b" ++ nl)) excel Hb2 Hd2) _ _ Hr2).
Defined.

Lemma columns_cut_to_shortest_row_witness :
  blank (substring 0 2048 ("a,b,c" ++ nl ++ "1,2" ++ nl ++ "3" ++ nl)) = false
  /\ plain_reader excel ("a,b,c" ++ nl ++ "1,2" ++ nl ++ "3" ++ nl)
     = [(Ok ["a"; "b"; "c"], 6); (Ok ["1"; "2"], 4); (Ok ["3"], 2)]
  /\ rows_of 1000 [(Ok ["1"; "2"], 4); (Ok ["3"], 2)]
     = Ok [["1"; "2"]; ["3"]]
  /\ exists cols,
       fst (peek_csv no_sniff plain_reader None
              (fresh ("a,b,c" ++ nl ++ "1,2" ++ nl ++ "3" ++ nl)))
       = Ok (excel, cols)
       /\ length cols <= length ["a"; "b"; "c"]
       /\ forall r, In r [["1"; "2"]; ["3"]] -> length cols <= length r.
Proof.
  assert (blank (substring 0 2048
                   ("a,b,c" ++ nl ++ "1,2" ++ nl ++ "3" ++ nl)) = false)
    as Hb by reflexivity.
  assert (dialect_of no_sniff ("a,b,c" ++ nl ++ "1,2" ++ nl ++ "3" ++ nl)
          = Ok excel) as Hd by reflexivity.
  assert (plain_reader excel ("a,b,c" ++ nl ++ "1,2" ++ nl ++ "3" ++ nl)
          = [(Ok ["a"; "b"; "c"], 6); (Ok ["1"; "2"], 4); (Ok ["3"], 2)])
    as Hr by reflexivity.
  assert (rows_of 1000 [(Ok ["1"; "2"], 4); (Ok ["3"], 2)]
          = Ok [["1"; "2"]; ["3"]]) as Hrows by reflexivity.
  split; [exact Hb|]. split; [exact Hr|]. split; [exact Hrows|].
  exact (@columns_cut_to_shortest_row no_sniff plain_reader
           (fresh ("a,b,c" ++ nl ++ "1,2" ++ nl ++ "3" ++ nl))
           excel _ _ _ _ Hb Hd Hr Hrows).
Defined.

Lemma sample_of_thousand_rows_witness :
  (forall dialect,
      firstn 1002 (long_reader_row dialect upload_typed)
      = firstn 1002 (long_reader_error dialect upload_typed))
  /\ fst (peek_csv no_sniff long_reader_row None (fresh upload_typed))
     = fst (peek_csv no_sniff long_reader_error None (fresh upload_typed)).
Proof.
  assert (forall dialect,
             firstn 1002 (long_reader_row dialect upload_typed)
             = firstn 1002 (long_reader_error dialect upload_typed)) as H
    by (intro dialect; vm_compute; reflexivity).
  split; [exact H|].
  exact (@sample_of_thousand_rows no_sniff long_reader_row long_reader_error
           None (fresh upload_typed) H).
Defined.

(** ** Values and types *)

(** A column other than the row-id column whose sampled values are all
    the empty string is typed [TEXT]. *)
Theorem empty_values_are_text (key : string) (values : list string) :
  String.eqb key "csvbase_row_id" = false ->
  Forall (fun v => v = "") values ->
  infer_column key values = mk_Column key TEXT.
Proof.
  intros Hkey Hempty. unfold infer_column. rewrite Hkey. cbn [orb].
  assert (forall regex,
             Re.matches regex "" = false ->
             sniff_and_allow_blanks regex values = false) as Hno.
  { intros regex Hre. apply sniff_false_without_hit.
    eapply Forall_impl; [|exact Hempty]. now intros v ->. }
  unfold IntegerConverter.sniff, FloatConverter.sniff,
    BooleanConverter.sniff, DateConverter.sniff.
  now rewrite !Hno by reflexivity.
Qed.

Lemma empty_values_are_text_witness :
  String.eqb "note" "csvbase_row_id" = false
  /\ Forall (fun v => v = "") [""; ""]
  /\ infer_column "note" [""; ""] = mk_Column "note" TEXT.
Proof.
  assert (Forall (fun v => v = "") [""; ""]) as H by (repeat constructor).
  split; [reflexivity|]. split; [exact H|].
  exact (@empty_values_are_text "note" [""; ""] eq_refl H).
Defined.

(** The type of a column is the same whether it is inferred from the
    values of the column as they come or from their set, and whatever the
    order in which the set hands them over. *)
Theorem inference_on_set_of_values (key : string) (v : list string) :
  infer_column key (py_set v) = infer_column key v
  /\ forall v', Permutation (py_set v) v' ->
                infer_column key v' = infer_column key v.
Proof.
  assert (forall x, In x (py_set v) <-> In x v) as Hset
    by (intro x; apply nodup_In).
  split; [now apply infer_column_same_elements|].
  intros v' Hperm. apply infer_column_same_elements. intro x.
  rewrite <- Hset. symmetry. now apply permutation_same_elements.
Qed.

Lemma inference_on_set_of_values_witness :
  Permutation (py_set ["1"; ""; "1"; "2"]) ["2"; "1"; ""]
  /\ infer_column "n" ["2"; "1"; ""] = infer_column "n" ["1"; ""; "1"; "2"].
Proof.
  assert (Permutation (py_set ["1"; ""; "1"; "2"]) ["2"; "1"; ""]) as H.
  { change (py_set ["1"; ""; "1"; "2"]) with [""; "1"; "2"].
    apply perm_trans with (l' := ["1"; ""; "2"]); [apply perm_swap|].
    apply perm_trans with (l' := ["1"; "2"; ""]);
      [apply perm_skip, perm_swap|apply perm_swap]. }
  split; [exact H|].
  exact (proj2 (@inference_on_set_of_values "n" ["1"; ""; "1"; "2"]) _ H).
Defined.

(** ** Header names *)

Lemma nth_error_numbered {A} (row : list A) :
  forall start i cell,
    nth_error row i = Some cell ->
    nth_error (combine (seq start (length row)) row) i
    = Some (start + i, cell).
Proof.
  induction row as [|x row IH]; intros start [|i] cell; simpl;
    try discriminate.
  - intros [= ->]. now rewrite Nat.add_0_r.
  - intro H. rewrite (IH (S start) i cell H). f_equal. f_equal. lia.
Qed.

(** The header names are as many as the cells of the header row; the
    name at each place is the cell itself, or [col] followed by the place
    counted from 1 when the cell is empty; so no header name is empty. *)
Theorem header_placeholders (row : list string) :
  length (headers_of row) = length row
  /\ (forall i cell,
         nth_error row i = Some cell ->
         nth_error (headers_of row) i
         = Some (if String.eqb cell "" then ("col" ++ Py.str_nat (S i))%string
                 else cell))
  /\ Forall (fun header => header <> "") (headers_of row).
Proof.
  unfold headers_of. split; [|split].
  - now rewrite length_map, length_combine, length_seq, Nat.min_id.
  - intros i cell H.
    apply (nth_error_numbered row 1) in H.
    now rewrite (map_nth_error _ _ _ H).
  - apply Forall_forall. intros h Hin. apply in_map_iff in Hin.
    destruct Hin as [[k cell] [<- _]]. cbn [fst snd].
    destruct (String.eqb cell "") eqn:E; [discriminate|].
    now apply String.eqb_neq in E.
Qed.

Lemma header_placeholders_witness :
  nth_error ["id"; ""; "name"] 1 = Some ""
  /\ nth_error (headers_of ["id"; ""; "name"]) 1 = Some "col2".
Proof.
  split; [reflexivity|].
  exact (proj1 (proj2 (header_placeholders ["id"; ""; "name"])) 1 ""
           eq_refl).
Defined.

(** ** The matcher and what an expression matches *)

Section Matcher.

Variable ic : bool.

Lemma star_loop_sound (r : Re.regex) (k : nat -> string -> option nat) :
  (forall pos s k' e,
      Re.run ic r pos s k' = Some e ->
      exists p t, Re.lang ic r pos s p t /\ k' p t = Some e) ->
  forall fuel pos s e,
    Re.star_loop (Re.run ic r) k fuel pos s = Some e ->
    exists p t, Re.lang ic (Re.Star r) pos s p t /\ k p t = Some e.
Proof.
  intro IHr. induction fuel as [|fuel IH]; intros pos s e; cbn [Re.star_loop].
  - intro H. exists pos, s. split; [constructor|assumption].
  - destruct (Re.run ic r pos s _) as [e'|] eqn:Hstep.
    + intros [= ->]. apply IHr in Hstep.
      destruct Hstep as [p1 [t [Hr Hk]]].
      destruct (String.length t <? String.length s) eqn:Hlt; [|discriminate].
      apply Nat.ltb_lt in Hlt. apply IH in Hk.
      destruct Hk as [p2 [u [Hstar Hk]]].
      exists p2, u. split; [|assumption].
      now apply Re.lang_Star_step with (p1 := p1) (t := t).
    + intro H. exists pos, s. split; [constructor|assumption].
Qed.

(** What the matcher finds is a match. *)
Lemma run_sound (r : Re.regex) :
  forall pos s k e,
    Re.run ic r pos s k = Some e ->
    exists p t, Re.lang ic r pos s p t /\ k p t = Some e.
Proof.
  induction r as [| | |c| |r1 IH1 r2 IH2|r1 IH1 r2 IH2|r IH];
    intros pos s k e; cbn [Re.run].
  - intro H. exists pos, s. split; [constructor|assumption].
  - destruct (pos =? 0) eqn:E; [|discriminate].
    apply Nat.eqb_eq in E. subst pos.
    intro H. exists 0, s. split; [constructor|assumption].
  - destruct (Re.at_eol s) eqn:E; [|discriminate].
    intro H. exists pos, s. split; [now constructor|assumption].
  - destruct s as [|a s]; [discriminate|].
    destruct (Re.chr_eq ic c a) eqn:E; [|discriminate].
    intro H. exists (S pos), s. split; [now constructor|assumption].
  - destruct s as [|a s]; [discriminate|].
    destruct (Py.is_digit a) eqn:E; [|discriminate].
    intro H. exists (S pos), s. split; [now constructor|assumption].
  - intro H. apply IH1 in H. destruct H as [p1 [t [H1 H]]].
    apply IH2 in H. destruct H as [p2 [u [H2 H]]].
    exists p2, u. split; [|assumption].
    now apply Re.lang_Seq with (p1 := p1) (t := t).
  - destruct (Re.run ic r1 pos s k) as [e1|] eqn:E1.
    + intros [= ->]. apply IH1 in E1. destruct E1 as [p [t [H1 H]]].
      exists p, t. split; [now apply Re.lang_Alt_l|assumption].
    + intro H. apply IH2 in H. destruct H as [p [t [H2 H]]].
      exists p, t. split; [now apply Re.lang_Alt_r|assumption].
  - apply star_loop_sound. exact IH.
Qed.

Lemma star_loop_complete (r : Re.regex) (k : nat -> string -> option nat) :
  (forall pos s p t,
      Re.lang ic r pos s p t ->
      forall k', k' p t <> None -> Re.run ic r pos s k' <> None) ->
  forall fuel pos s p t,
    String.length s <= fuel ->
    Re.lang ic (Re.Star r) pos s p t ->
    k p t <> None ->
    Re.star_loop (Re.run ic r) k fuel pos s <> None.
Proof.
  intro IHr. induction fuel as [|fuel IH]; intros pos s p t Hfuel Hstar Hk;
    cbn [Re.star_loop].
  - inversion Hstar; subst; [assumption|lia].
  - inversion Hstar as [| | | | | | | |? ? ?|? ? ? p1 t1 ? ? Hr Hlt Hrest];
      subst.
    + destruct (Re.run ic r _ _ _); [discriminate|assumption].
    + assert (Re.run ic r pos s
                (fun p0 t0 =>
                   if String.length t0 <? String.length s
                   then Re.star_loop (Re.run ic r) k fuel p0 t0 else None)
              <> None) as Hstep.
      { apply (IHr _ _ _ _ Hr).
        assert ((String.length t1 <? String.length s) = true) as ->
          by (apply Nat.ltb_lt; assumption).
        apply (IH p1 t1 p t); [lia|assumption|assumption]. }
      destruct (Re.run ic r pos s _); [discriminate|contradiction].
Qed.

(** Where there is a match, the matcher finds one. *)
Lemma run_complete (r : Re.regex) :
  forall pos s p t,
    Re.lang ic r pos s p t ->
    forall k, k p t <> None -> Re.run ic r pos s k <> None.
Proof.
  induction r as [| | |c| |r1 IH1 r2 IH2|r1 IH1 r2 IH2|r IH];
    intros pos s p t Hlang k Hk; cbn [Re.run].
  - inversion Hlang; subst. assumption.
  - inversion Hlang; subst. assumption.
  - inversion Hlang as [| |? ? Heol| | | | | | |]; subst.
    now rewrite Heol.
  - inversion Hlang as [| | |? ? ? ? Hc| | | | | |]; subst.
    now rewrite Hc.
  - inversion Hlang as [| | | |? ? ? Hd| | | | |]; subst.
    now rewrite Hd.
  - inversion Hlang as [| | | | |? ? ? ? p1 t1 ? ? H1 H2| | | |]; subst.
    apply (IH1 _ _ _ _ H1). now apply (IH2 _ _ _ _ H2).
  - inversion Hlang as [| | | | | |? ? ? ? ? ? H1|? ? ? ? ? ? H2| |]; subst.
    + pose proof (IH1 _ _ _ _ H1 k Hk).
      destruct (Re.run ic r1 pos s k); [discriminate|contradiction].
    + destruct (Re.run ic r1 pos s k); [discriminate|].
      now apply (IH2 _ _ _ _ H2).
  - apply (@star_loop_complete r k IH (String.length s) pos s p t);
      [apply Nat.le_refl|assumption|assumption].
Qed.

End Matcher.

(** A pattern matches a text exactly when its expression matches a
    prefix of it from the start. *)
Lemma matches_iff (p : Re.Pattern) (s : string) :
  Re.matches p s = true
  <-> exists e t, Re.lang (Re.ignorecase p) (Re.expr p) 0 s e t.
Proof.
  unfold Re.matches, Re.match_. split.
  - destruct (Re.run _ _ 0 s _) as [e|] eqn:H; [|discriminate].
    intros _. apply run_sound in H. destruct H as [e' [t [H _]]].
    now exists e', t.
  - intros [e [t H]].
    pose proof (run_complete H (fun e _ => Some e)) as Hc.
    destruct (Re.run _ _ 0 s _); [reflexivity|].
    exfalso. now apply Hc.
Qed.

(** A match starts a suffix of the text; it consumes characters that the
    expression can consume, and counts them. *)
Lemma all_chars_append (P : ascii -> bool) (a b : string) :
  Py.all_chars P (a ++ b) = Py.all_chars P a && Py.all_chars P b.
Proof.
  induction a as [|c a IH]; simpl; [reflexivity|].
  now rewrite IH, andb_assoc.
Qed.

Lemma all_chars_weaken (P Q : ascii -> bool) (a : string) :
  (forall c, P c = true -> Q c = true) ->
  Py.all_chars P a = true -> Py.all_chars Q a = true.
Proof.
  intro HPQ. induction a as [|c a IH]; simpl; [easy|].
  intro H. apply andb_true_iff in H. destruct H as [Hc Ha].
  now rewrite (HPQ c Hc), IH.
Qed.

Lemma append_assoc (a b c : string) :
  ((a ++ b) ++ c = a ++ b ++ c)%string.
Proof. induction a as [|x a IH]; simpl; [reflexivity|now rewrite IH]. Qed.

Lemma append_empty_r (a : string) : (a ++ "")%string = a.
Proof. induction a as [|x a IH]; simpl; [reflexivity|now rewrite IH]. Qed.

Lemma lang_consumes (ic : bool) (r : Re.regex) (pos : nat) (s : string)
    (p : nat) (t : string) :
  Re.lang ic r pos s p t ->
  exists w, s = (w ++ t)%string
            /\ p = pos + String.length w
            /\ Py.all_chars (Re.eats ic r) w = true.
Proof.
  induction 1 as [pos s|s|pos s _|c a pos s Hc|a pos s Hd
                 |r1 r2 pos s p1 t p2 u _ IH1 _ IH2
                 |r1 r2 pos s p t _ IH|r1 r2 pos s p t _ IH
                 |r pos s|r pos s p1 t p2 u _ IH1 _ _ IH2];
    try (exists ""%string; repeat split; simpl; lia).
  - exists (String a ""). simpl. rewrite Hc. repeat split. lia.
  - exists (String a ""). simpl. rewrite Hd. repeat split. lia.
  - destruct IH1 as [w1 [-> [-> H1]]]. destruct IH2 as [w2 [-> [-> H2]]].
    exists (w1 ++ w2)%string. split; [|split].
    + now rewrite append_assoc.
    + rewrite length_append. lia.
    + rewrite all_chars_append. cbn [Re.eats]. apply andb_true_iff. split.
      * apply (all_chars_weaken _ _ w1 (fun c H => orb_true_intro _ _ (or_introl H)) H1).
      * apply (all_chars_weaken _ _ w2 (fun c H => orb_true_intro _ _ (or_intror H)) H2).
  - destruct IH as [w [-> [-> H]]]. exists w. repeat split. cbn [Re.eats].
    apply (all_chars_weaken _ _ w (fun c H => orb_true_intro _ _ (or_introl H)) H).
  - destruct IH as [w [-> [-> H]]]. exists w. repeat split. cbn [Re.eats].
    apply (all_chars_weaken _ _ w (fun c H => orb_true_intro _ _ (or_intror H)) H).
  - destruct IH1 as [w1 [-> [-> H1]]]. destruct IH2 as [w2 [-> [-> H2]]].
    exists (w1 ++ w2)%string. split; [|split].
    + now rewrite append_assoc.
    + rewrite length_append. lia.
    + rewrite all_chars_append. apply andb_true_iff. split.
      * exact (all_chars_weaken (Re.eats ic r) (Re.eats ic (Re.Star r)) w1
                 (fun c H => H) H1).
      * exact H2.
Qed.

(** ** The shapes of the values that the patterns match *)

Ltac inv_lang :=
  repeat match goal with
         | H : Re.lang _ (Re.Seq _ _) _ _ _ _ |- _ =>
             inversion H; subst; clear H
         | H : Re.lang _ (Re.Alt _ _) _ _ _ _ |- _ =>
             inversion H; subst; clear H
         | H : Re.lang _ Re.Eps _ _ _ _ |- _ => inversion H; subst; clear H
         | H : Re.lang _ Re.Bol _ _ _ _ |- _ => inversion H; subst; clear H
         | H : Re.lang _ Re.Eol _ _ _ _ |- _ => inversion H; subst; clear H
         | H : Re.lang _ (Re.Chr _) _ _ _ _ |- _ =>
             inversion H; subst; clear H
         | H : Re.lang _ Re.Digit _ _ _ _ |- _ => inversion H; subst; clear H
         end.

Lemma chr_eq_exact (c a : ascii) : Re.chr_eq false c a = true -> a = c.
Proof. unfold Re.chr_eq. intro H. apply Ascii.eqb_eq in H. now symmetry. Qed.

Ltac exact_chars :=
  repeat match goal with
         | H : Re.chr_eq false _ _ = true |- _ =>
             apply chr_eq_exact in H; subst
         end.

Lemma number_shape (body : Re.regex) (s : string) (e : nat) (t : string) :
  Re.lang false
    (Cat [Re.Bol; Re.Opt sp; Re.Opt (Re.Chr "-"); Re.Plus body; Re.Eol])
    0 s e t ->
  exists pre w,
    s = (pre ++ w ++ t)%string
    /\ In pre [""; " "; "-"; " -"]
    /\ Py.all_chars (Re.eats false body) w = true
    /\ Re.at_eol t = true.
Proof.
  unfold Cat, Re.Opt, Re.Plus, sp. cbn [fold_right]. intro H. inv_lang.
  all: match goal with
       | H1 : Re.lang false ?b _ _ _ _,
         H2 : Re.lang false (Re.Star ?b) _ _ _ _ |- _ =>
           apply lang_consumes in H1; destruct H1 as [w1 [-> [_ Hw1]]];
           apply lang_consumes in H2; destruct H2 as [w2 [-> [_ Hw2]]]
       end.
  all: exact_chars.
  all: assert (Py.all_chars (Re.eats false body) (w1 ++ w2) = true) as Hw
    by (rewrite all_chars_append; apply andb_true_iff; split; assumption).
  all: first
         [ exists " -", (w1 ++ w2)%string; rewrite append_assoc;
           split; [reflexivity|split; [simpl; tauto|split; assumption]]
         | exists " ", (w1 ++ w2)%string; rewrite append_assoc;
           split; [reflexivity|split; [simpl; tauto|split; assumption]]
         | exists "-", (w1 ++ w2)%string; rewrite append_assoc;
           split; [reflexivity|split; [simpl; tauto|split; assumption]]
         | exists "", (w1 ++ w2)%string; rewrite append_assoc;
           split; [reflexivity|split; [simpl; tauto|split; assumption]] ].
Qed.

Lemma chr_eq_ci_space (a : ascii) : Re.chr_eq true " " a = true -> a = " "%char.
Proof.
  destruct a as [[] [] [] [] [] [] [] []]; vm_compute; intro H;
    (reflexivity || discriminate).
Qed.

Ltac space_chars :=
  repeat match goal with
         | H : Re.chr_eq true " " _ = true |- _ =>
             apply chr_eq_ci_space in H; subst
         end.

Ltac use_chr_eq :=
  repeat match goal with
         | H : Re.chr_eq true ?x ?c = true
           |- context [Re.chr_eq true ?x ?c] => rewrite H
         end.

Lemma bool_initial_is_no_number_char (c : ascii) :
  is_bool_initial c = true ->
  (Ascii.eqb c " " || Ascii.eqb c "-" || Ascii.eqb c Py.LF || Py.is_digit c
   || Re.eats false (Any Re.Digit [Re.Chr ","; Re.Chr "."; sp]) c) = false.
Proof.
  destruct c as [[] [] [] [] [] [] [] []]; vm_compute; intro H;
    (reflexivity || discriminate).
Qed.

Lemma digit_is_no_mark (c : ascii) :
  Py.is_digit c = true ->
  (Ascii.eqb c " " || Ascii.eqb c "-" || Ascii.eqb c Py.LF) = false.
Proof.
  destruct c as [[] [] [] [] [] [] [] []]; vm_compute; intro H;
    (reflexivity || discriminate).
Qed.

(** A value that the boolean pattern matches starts, after one space at
    most, with one of the letters T, F, Y and N in either case. *)
Lemma boolean_head (s : string) (e : nat) (t : string) :
  Re.lang true (Re.expr BooleanConverter.BOOLEAN_REGEX) 0 s e t ->
  exists a c rest,
    s = (a ++ String c rest)%string /\ opt_space a
    /\ is_bool_initial c = true.
Proof.
  unfold BooleanConverter.BOOLEAN_REGEX, Cat, Re.Opt, sp. cbn [Re.expr].
  cbn [fold_right Any Re.Lit]. intro H. inv_lang; space_chars.
  all: first
         [ exists ""; do 2 eexists; split; [reflexivity|];
           split; [now left|];
           unfold is_bool_initial; cbn [existsb]; use_chr_eq;
           cbn [orb]; rewrite ?orb_true_r; reflexivity
         | exists " "; do 2 eexists; split; [reflexivity|];
           split; [now right|];
           unfold is_bool_initial; cbn [existsb]; use_chr_eq;
           cbn [orb]; rewrite ?orb_true_r; reflexivity ].
Qed.

(** A value that the date pattern matches starts, after one space at
    most, with four digits and a hyphen. *)
Lemma date_head (s : string) (e : nat) (t : string) :
  Re.lang false (Re.expr DateConverter.DATE_REGEX) 0 s e t ->
  exists a d1 d2 d3 d4 rest,
    s = (a ++ String d1 (String d2 (String d3 (String d4
               (String "-" rest)))))%string
    /\ opt_space a /\ Py.is_digit d1 = true.
Proof.
  unfold DateConverter.DATE_REGEX, Cat, Re.Opt, sp. cbn [Re.expr].
  cbn [fold_right Re.Rep]. intro H. inv_lang; exact_chars.
  all: first
         [ exists ""; do 5 eexists; split; [reflexivity|];
           split; [now left|assumption]
         | exists " "; do 5 eexists; split; [reflexivity|];
           split; [now right|assumption] ].
Qed.

(** A value that passes the blank test is spaces up to its end or up to
    a line feed that ends it. *)
Lemma blank_shape (s : string) (e : nat) (t : string) :
  Re.lang false (Re.expr WHITESPACE_REGEX) 0 s e t ->
  exists w, s = (w ++ t)%string
            /\ Py.all_chars (Ascii.eqb " ") w = true
            /\ Re.at_eol t = true.
Proof.
  unfold WHITESPACE_REGEX, Cat, sp. cbn [Re.expr fold_right].
  intro H. inv_lang.
  match goal with
  | H : Re.lang false (Re.Star _) _ _ _ _ |- _ =>
      apply lang_consumes in H; destruct H as [w [-> [_ Hw]]]
  end.
  exists w. repeat split; assumption.
Qed.

(** A character that is not consumed and is no line feed is not in a
    text made of consumed characters and the end of a line. *)
Lemma stray_char (P : ascii -> bool) (c : ascii) (y : string) :
  P c = false -> Ascii.eqb c Py.LF = false ->
  forall x w u,
    (w ++ u = x ++ String c y)%string ->
    Py.all_chars P w = true -> Re.at_eol u = true -> False.
Proof.
  intros HP Hlf. induction x as [|x0 x IH]; intros [|c' w] u; simpl.
  - intros -> _. simpl. destruct y; [|discriminate].
    intro H. congruence.
  - intros [= -> _]. rewrite HP. discriminate.
  - intros -> _. simpl. destruct x; simpl; discriminate.
  - intros [= _ H] Hw. apply andb_true_iff in Hw. destruct Hw as [_ Hw].
    now apply (IH w u).
Qed.

(** ** Which patterns can match the same value *)

Lemma lang_seq_map (ic : bool) (r1 r1' r2 r2' : Re.regex) :
  (forall pos s p t, Re.lang ic r1 pos s p t -> Re.lang ic r1' pos s p t) ->
  (forall pos s p t, Re.lang ic r2 pos s p t -> Re.lang ic r2' pos s p t) ->
  forall pos s p t,
    Re.lang ic (Re.Seq r1 r2) pos s p t ->
    Re.lang ic (Re.Seq r1' r2') pos s p t.
Proof.
  intros H1 H2 pos s p t H.
  inversion H as [| | | | |? ? ? ? p1 t1 ? ? Ha Hb| | | |]; subst.
  apply Re.lang_Seq with (p1 := p1) (t := t1); auto.
Qed.

Lemma lang_star_map (ic : bool) (r r' : Re.regex) :
  (forall pos s p t, Re.lang ic r pos s p t -> Re.lang ic r' pos s p t) ->
  forall pos s p t,
    Re.lang ic (Re.Star r) pos s p t -> Re.lang ic (Re.Star r') pos s p t.
Proof.
  intros Hr pos s p t H. remember (Re.Star r) as sr eqn:E.
  induction H as [| | | | | | | |r0 pos s
                 |r0 pos s p1 t p2 u Hstep _ Hlt _ IH]; try discriminate.
  - constructor.
  - injection E as ->.
    apply Re.lang_Star_step with (p1 := p1) (t := t); auto.
Qed.

Lemma integer_body_in_float_body (pos : nat) (s : string) (p : nat)
    (t : string) :
  Re.lang false (Any Re.Digit [Re.Chr ","; sp]) pos s p t ->
  Re.lang false float_body pos s p t.
Proof.
  unfold float_body. cbn [Any]. intro H.
  inversion H as [| | | | | |? ? ? ? ? ? H1|? ? ? ? ? ? H1| |]; subst;
    [now apply Re.lang_Alt_l|apply Re.lang_Alt_r].
  inversion H1 as [| | | | | |? ? ? ? ? ? H2|? ? ? ? ? ? H2| |]; subst;
    [now apply Re.lang_Alt_l|apply Re.lang_Alt_r].
  now apply Re.lang_Alt_r.
Qed.

Lemma integer_in_float (v : string) :
  Re.matches IntegerConverter.INTEGER_REGEX v = true ->
  Re.matches FloatConverter.FLOAT_REGEX v = true.
Proof.
  rewrite !matches_iff. intros [e [t H]]. exists e, t. revert H.
  unfold IntegerConverter.INTEGER_REGEX, FloatConverter.FLOAT_REGEX, Cat,
    Re.Plus.
  cbn [Re.expr Re.ignorecase fold_right].
  repeat (apply lang_seq_map; [now auto|]).
  apply lang_seq_map; [|now auto].
  apply lang_seq_map; [exact integer_body_in_float_body|].
  apply lang_star_map. exact integer_body_in_float_body.
Qed.

Lemma float_shape (v : string) :
  Re.matches FloatConverter.FLOAT_REGEX v = true ->
  exists pre w t,
    v = (pre ++ w ++ t)%string
    /\ In pre [""; " "; "-"; " -"]
    /\ Py.all_chars (Re.eats false float_body) w = true
    /\ Re.at_eol t = true.
Proof.
  rewrite matches_iff. intros [e [t H]].
  apply (number_shape (body := float_body)) in H.
  destruct H as [pre [w H]]. now exists pre, w, t.
Qed.

Ltac split_orb H :=
  repeat match type of H with
         | (_ || _) = false =>
             let H' := fresh "Hc" in
             apply orb_false_elim in H; destruct H as [H H']
         end.

Lemma boolean_not_float (v : string) :
  Re.matches BooleanConverter.BOOLEAN_REGEX v = true ->
  Re.matches FloatConverter.FLOAT_REGEX v = false.
Proof.
  intro HB. destruct (Re.matches FloatConverter.FLOAT_REGEX v) eqn:HF;
    [exfalso|reflexivity].
  apply matches_iff in HB. destruct HB as [e [t HB]].
  apply boolean_head in HB. destruct HB as [a [c [rest [-> [Ha Hc]]]]].
  apply float_shape in HF.
  destruct HF as [pre [w [u [Heq [Hpre [Hw Hu]]]]]].
  apply bool_initial_is_no_number_char in Hc. split_orb Hc.
  assert (forall x, (w ++ u = x ++ String c rest)%string -> False) as Hstray
    by (intros x Hx; eapply stray_char; eassumption).
  destruct Ha as [-> | ->];
    destruct Hpre as [<- | [<- | [<- | [<- | []]]]]; simpl in Heq;
    try discriminate;
    try (injection Heq as -> _; discriminate);
    try (injection Heq as _ -> _; discriminate).
  - now apply (Hstray "").
  - now apply (Hstray " ").
  - injection Heq as Heq. now apply (Hstray "").
Qed.

Lemma boolean_not_blank (v : string) :
  Re.matches BooleanConverter.BOOLEAN_REGEX v = true ->
  Re.matches WHITESPACE_REGEX v = false.
Proof.
  intro HB. destruct (Re.matches WHITESPACE_REGEX v) eqn:HW;
    [exfalso|reflexivity].
  apply matches_iff in HB. destruct HB as [e [t HB]].
  apply boolean_head in HB. destruct HB as [a [c [rest [-> [Ha Hc]]]]].
  apply matches_iff in HW. destruct HW as [e' [u HW]].
  apply blank_shape in HW. destruct HW as [w [Heq [Hw Hu]]].
  apply bool_initial_is_no_number_char in Hc. split_orb Hc.
  assert (Ascii.eqb " " c = false) as Hsp by now rewrite Ascii.eqb_sym.
  exact (stray_char (Ascii.eqb " ") c rest Hsp Hc2 a w u (eq_sym Heq) Hw Hu).
Qed.

Lemma date_not_float (v : string) :
  Re.matches DateConverter.DATE_REGEX v = true ->
  Re.matches FloatConverter.FLOAT_REGEX v = false.
Proof.
  intro HD. destruct (Re.matches FloatConverter.FLOAT_REGEX v) eqn:HF;
    [exfalso|reflexivity].
  apply matches_iff in HD. destruct HD as [e [t HD]].
  apply date_head in HD.
  destruct HD as [a [d1 [d2 [d3 [d4 [rest [-> [Ha Hd]]]]]]]].
  apply float_shape in HF.
  destruct HF as [pre [w [u [Heq [Hpre [Hw Hu]]]]]].
  apply digit_is_no_mark in Hd. split_orb Hd.
  assert (forall x, (w ++ u = x ++ String "-" rest)%string -> False)
    as Hstray
    by (intros x Hx;
        eapply (stray_char (Re.eats false float_body) "-"%char rest);
        [reflexivity|reflexivity|exact Hx|exact Hw|exact Hu]).
  destruct Ha as [-> | ->];
    destruct Hpre as [<- | [<- | [<- | [<- | []]]]]; simpl in Heq;
    try discriminate;
    try (injection Heq as -> _; discriminate);
    try (injection Heq as _ -> _; discriminate).
  - apply (Hstray (String d1 (String d2 (String d3 (String d4 ""))))).
    now symmetry.
  - apply (Hstray (String " " (String d1 (String d2 (String d3
                                                     (String d4 "")))))).
    now symmetry.
  - injection Heq as Heq.
    apply (Hstray (String d1 (String d2 (String d3 (String d4 ""))))).
    now symmetry.
Qed.

Lemma date_not_blank (v : string) :
  Re.matches DateConverter.DATE_REGEX v = true ->
  Re.matches WHITESPACE_REGEX v = false.
Proof.
  intro HD. destruct (Re.matches WHITESPACE_REGEX v) eqn:HW;
    [exfalso|reflexivity].
  apply matches_iff in HD. destruct HD as [e [t HD]].
  apply date_head in HD.
  destruct HD as [a [d1 [d2 [d3 [d4 [rest [-> [Ha Hd]]]]]]]].
  apply matches_iff in HW. destruct HW as [e' [u HW]].
  apply blank_shape in HW. destruct HW as [w [Heq [Hw Hu]]].
  apply digit_is_no_mark in Hd. split_orb Hd.
  assert (Ascii.eqb " " d1 = false) as Hsp by now rewrite Ascii.eqb_sym.
  exact (stray_char (Ascii.eqb " ") d1 _ Hsp Hc a w u (eq_sym Heq) Hw Hu).
Qed.

Lemma boolean_not_date (v : string) :
  Re.matches BooleanConverter.BOOLEAN_REGEX v = true ->
  Re.matches DateConverter.DATE_REGEX v = false.
Proof.
  intro HB. destruct (Re.matches DateConverter.DATE_REGEX v) eqn:HD;
    [exfalso|reflexivity].
  apply matches_iff in HB. destruct HB as [e [t HB]].
  apply boolean_head in HB. destruct HB as [a [c [rest [-> [Ha Hc]]]]].
  apply matches_iff in HD. destruct HD as [e' [u HD]].
  apply date_head in HD.
  destruct HD as [a' [d1 [d2 [d3 [d4 [rest' [Heq [Ha' Hd]]]]]]]].
  apply bool_initial_is_no_number_char in Hc. split_orb Hc.
  pose proof (digit_is_no_mark _ Hd) as Hm. split_orb Hm.
  destruct Ha as [-> | ->], Ha' as [-> | ->]; simpl in Heq;
    injection Heq; intros; subst; simpl in *; congruence.
Qed.

Lemma sniff_includes (p q : Re.Pattern) (values : list string) :
  (forall v, Re.matches p v = true -> Re.matches q v = true) ->
  sniff_and_allow_blanks p values = true ->
  sniff_and_allow_blanks q values = true.
Proof.
  intro Hpq. rewrite !sniff_true_iff. intros [Hex Hall]. split.
  - apply Exists_exists in Hex. destruct Hex as [v [Hin Hv]].
    apply Exists_exists. exists v. auto.
  - eapply Forall_impl; [|exact Hall]. intros v [Hv|Hv]; auto.
Qed.

Lemma sniff_excludes (p q : Re.Pattern) (values : list string) :
  (forall v, Re.matches p v = true ->
             Re.matches q v = false
             /\ Re.matches WHITESPACE_REGEX v = false) ->
  sniff_and_allow_blanks p values = true ->
  sniff_and_allow_blanks q values = false.
Proof.
  intros Hpq Hp.
  destruct (sniff_and_allow_blanks q values) eqn:Hq; [exfalso|reflexivity].
  apply sniff_true_iff in Hp. destruct Hp as [Hex _].
  apply sniff_true_iff in Hq. destruct Hq as [_ Hall].
  apply Exists_exists in Hex. destruct Hex as [v [Hin Hv]].
  rewrite Forall_forall in Hall. specialize (Hall v Hin).
  destruct (Hpq v Hv) as [Hnq Hnb]. destruct Hall; congruence.
Qed.

Lemma date_not_boolean (v : string) :
  Re.matches DateConverter.DATE_REGEX v = true ->
  Re.matches BooleanConverter.BOOLEAN_REGEX v = false.
Proof.
  intro HD. destruct (Re.matches BooleanConverter.BOOLEAN_REGEX v) eqn:HB;
    [|reflexivity].
  apply boolean_not_date in HB. congruence.
Qed.

Lemma not_float_not_integer (v : string) :
  Re.matches FloatConverter.FLOAT_REGEX v = false ->
  Re.matches IntegerConverter.INTEGER_REGEX v = false.
Proof.
  intro HF. destruct (Re.matches IntegerConverter.INTEGER_REGEX v) eqn:HI;
    [|reflexivity].
  apply integer_in_float in HI. congruence.
Qed.

Lemma integer_sniffed_is_float_sniffed (values : list string) :
  IntegerConverter.sniff values = true -> FloatConverter.sniff values = true.
Proof.
  unfold IntegerConverter.sniff, FloatConverter.sniff.
  apply sniff_includes. exact integer_in_float.
Qed.

Lemma boolean_sniffed_alone (values : list string) :
  BooleanConverter.sniff values = true ->
  IntegerConverter.sniff values = false
  /\ FloatConverter.sniff values = false
  /\ DateConverter.sniff values = false.
Proof.
  unfold IntegerConverter.sniff, FloatConverter.sniff, BooleanConverter.sniff,
    DateConverter.sniff.
  intro HB. repeat split; revert HB; apply sniff_excludes; intros v Hv;
    (split; [|now apply boolean_not_blank]).
  - now apply not_float_not_integer, boolean_not_float.
  - now apply boolean_not_float.
  - now apply boolean_not_date.
Qed.

Lemma date_sniffed_alone (values : list string) :
  DateConverter.sniff values = true ->
  IntegerConverter.sniff values = false
  /\ FloatConverter.sniff values = false
  /\ BooleanConverter.sniff values = false.
Proof.
  unfold IntegerConverter.sniff, FloatConverter.sniff, BooleanConverter.sniff,
    DateConverter.sniff.
  intro HD. repeat split; revert HD; apply sniff_excludes; intros v Hv;
    (split; [|now apply date_not_blank]).
  - now apply not_float_not_integer, date_not_float.
  - now apply date_not_float.
  - now apply date_not_boolean.
Qed.

(** A sample that the integer sniffer accepts is accepted by the float
    sniffer too; that is the only overlap: a sample that the boolean
    sniffer or the date sniffer accepts is rejected by the three other
    sniffers. *)
Theorem sniffers_overlap_only_integer_float (values : list string) :
  (IntegerConverter.sniff values = true -> FloatConverter.sniff values = true)
  /\ (BooleanConverter.sniff values = true ->
      IntegerConverter.sniff values = false
      /\ FloatConverter.sniff values = false
      /\ DateConverter.sniff values = false)
  /\ (DateConverter.sniff values = true ->
      IntegerConverter.sniff values = false
      /\ FloatConverter.sniff values = false
      /\ BooleanConverter.sniff values = false).
Proof.
  split; [|split].
  - apply integer_sniffed_is_float_sniffed.
  - apply boolean_sniffed_alone.
  - apply date_sniffed_alone.
Qed.

Lemma sniffers_overlap_only_integer_float_witness :
  (IntegerConverter.sniff ["1"; "2"] = true
   /\ FloatConverter.sniff ["1"; "2"] = true)
  /\ (BooleanConverter.sniff ["yes"; ""; "N"] = true
      /\ IntegerConverter.sniff ["yes"; ""; "N"] = false
      /\ FloatConverter.sniff ["yes"; ""; "N"] = false
      /\ DateConverter.sniff ["yes"; ""; "N"] = false)
  /\ (DateConverter.sniff ["2018-01-03"] = true
      /\ IntegerConverter.sniff ["2018-01-03"] = false
      /\ FloatConverter.sniff ["2018-01-03"] = false
      /\ BooleanConverter.sniff ["2018-01-03"] = false).
Proof.
  split; [|split].
  - split; [reflexivity|].
    exact (proj1 (sniffers_overlap_only_integer_float ["1"; "2"]) eq_refl).
  - split; [reflexivity|].
    exact (proj1 (proj2 (sniffers_overlap_only_integer_float
                           ["yes"; ""; "N"])) eq_refl).
  - split; [reflexivity|].
    exact (proj2 (proj2 (sniffers_overlap_only_integer_float
                           ["2018-01-03"])) eq_refl).
Defined.

Lemma find_first {A} (p : A -> bool) (x : A) (l1 l2 : list A) :
  p x = true ->
  (forall t, In t l1 -> p t = true -> t = x) ->
  find p (l1 ++ x :: l2) = Some x.
Proof.
  intros Hx. induction l1 as [|a l1 IH]; intro Hl1; simpl.
  - now rewrite Hx.
  - destruct (p a) eqn:Ha.
    + f_equal. apply Hl1; [now left|assumption].
    + apply IH. intros t Ht. apply Hl1. now right.
Qed.

Lemma find_only {A} (p : A -> bool) (x : A) (l : list A) :
  In x l -> p x = true ->
  (forall t, In t l -> p t = true -> t = x) ->
  find p l = Some x.
Proof.
  intros Hin Hx Hl. apply in_split in Hin. destruct Hin as [l1 [l2 ->]].
  apply find_first; [assumption|].
  intros t Ht. apply Hl. apply in_or_app. now left.
Qed.

Lemma find_nothing {A} (p : A -> bool) (l : list A) :
  (forall t, In t l -> p t = false) -> find p l = None.
Proof.
  induction l as [|a l IH]; intro Hl; simpl; [reflexivity|].
  rewrite (Hl a (or_introl eq_refl)). apply IH.
  intros t Ht. apply Hl. now right.
Qed.

(** The four tests may be tried in any order that has [INTEGER] before
    [FLOAT]: the type inferred is the one that the order of the code
    gives. *)
Theorem inference_order_free (order before after : list ColumnType)
    (key : string) (values : list string) :
  Permutation order [INTEGER; FLOAT; BOOLEAN; DATE] ->
  order = before ++ INTEGER :: after ->
  ~ In FLOAT before ->
  sniffed_in_order order key values = first_sniffed_type key values.
Proof.
  intros Hperm Horder Hbefore.
  unfold sniffed_in_order, first_sniffed_type.
  destruct (String.eqb key (name ROW_ID_COLUMN)); [reflexivity|].
  assert (forall t, In t order -> t <> TEXT) as Hno_text.
  { intros t Ht. apply (Permutation_in _ Hperm) in Ht.
    simpl in Ht. intuition (subst; discriminate). }
  assert (forall t, In t [INTEGER; FLOAT; BOOLEAN; DATE] -> In t order)
    as Hall
    by (intros t Ht; now apply (Permutation_in _ (Permutation_sym Hperm))).
  pose proof (@integer_sniffed_is_float_sniffed values) as Hif.
  pose proof (@boolean_sniffed_alone values) as Hb.
  pose proof (@date_sniffed_alone values) as Hd.
  cbn [find sniffer_of].
  destruct (IntegerConverter.sniff values) eqn:Ei.
  { specialize (Hif eq_refl). rewrite Horder. rewrite find_first;
      [reflexivity|exact Ei|].
    intros t Ht Hacc.
    assert (In t order) as Hin
      by (rewrite Horder; apply in_or_app; now left).
    destruct t; cbn [sniffer_of] in Hacc; try reflexivity.
    - now apply Hno_text in Hin.
    - contradiction.
    - apply Hb in Hacc. destruct Hacc as [? _]. congruence.
    - apply Hd in Hacc. destruct Hacc as [? _]. congruence. }
  destruct (FloatConverter.sniff values) eqn:Ef.
  { rewrite (@find_only _ _ FLOAT order); [reflexivity| |exact Ef|].
    - apply Hall. simpl. tauto.
    - intros t Hin Hacc.
      destruct t; cbn [sniffer_of] in Hacc; try reflexivity; try congruence.
      + now apply Hno_text in Hin.
      + apply Hb in Hacc. destruct Hacc as [_ [? _]]. congruence.
      + apply Hd in Hacc. destruct Hacc as [_ [? _]]. congruence. }
  destruct (BooleanConverter.sniff values) eqn:Eb.
  { rewrite (@find_only _ _ BOOLEAN order); [reflexivity| |exact Eb|].
    - apply Hall. simpl. tauto.
    - intros t Hin Hacc.
      destruct t; cbn [sniffer_of] in Hacc; try reflexivity; try congruence.
      + now apply Hno_text in Hin.
      + apply Hd in Hacc. destruct Hacc as [_ [_ ?]]. congruence. }
  destruct (DateConverter.sniff values) eqn:Ed.
  { rewrite (@find_only _ _ DATE order); [reflexivity| |exact Ed|].
    - apply Hall. simpl. tauto.
    - intros t Hin Hacc.
      destruct t; cbn [sniffer_of] in Hacc; try reflexivity; try congruence.
      now apply Hno_text in Hin. }
  rewrite find_nothing; [reflexivity|].
  intros t Hin. destruct t; cbn [sniffer_of]; try assumption.
  now apply Hno_text in Hin.
Qed.

Lemma inference_order_free_witness :
  Permutation [DATE; BOOLEAN; INTEGER; FLOAT] [INTEGER; FLOAT; BOOLEAN; DATE]
  /\ ~ In FLOAT [DATE; BOOLEAN]
  /\ sniffed_in_order [DATE; BOOLEAN; INTEGER; FLOAT] "n" ["1"; "2"; ""]
     = first_sniffed_type "n" ["1"; "2"; ""].
Proof.
  assert (Permutation [DATE; BOOLEAN; INTEGER; FLOAT]
                      [INTEGER; FLOAT; BOOLEAN; DATE]) as Hperm.
  { apply perm_trans with (l' := [BOOLEAN; DATE; INTEGER; FLOAT]);
      [apply perm_swap|].
    apply perm_trans with (l' := [BOOLEAN; INTEGER; DATE; FLOAT]);
      [apply perm_skip, perm_swap|].
    apply perm_trans with (l' := [INTEGER; BOOLEAN; DATE; FLOAT]);
      [apply perm_swap|].
    apply perm_skip.
    apply perm_trans with (l' := [BOOLEAN; FLOAT; DATE]);
      [apply perm_skip, perm_swap|].
    apply perm_trans with (l' := [FLOAT; BOOLEAN; DATE]);
      [apply perm_swap|apply Permutation_refl]. }
  assert (~ In FLOAT [DATE; BOOLEAN]) as Hbefore
    by (simpl; intuition discriminate).
  split; [exact Hperm|]. split; [exact Hbefore|].
  exact (@inference_order_free [DATE; BOOLEAN; INTEGER; FLOAT]
           [DATE; BOOLEAN] [FLOAT] "n" ["1"; "2"; ""] Hperm eq_refl Hbefore).
Defined.

(** ** Values that the boolean test accepts are converted *)

Lemma ci_letter (x c : ascii) :
  In x ["T"; "R"; "U"; "E"; "F"; "A"; "L"; "S"; "Y"; "N"; "O"]%char ->
  Re.chr_eq true x c = true -> c = x \/ c = Re.lower x.
Proof.
  intro Hx. simpl in Hx.
  repeat (destruct Hx as [<-|Hx]; [|try contradiction]).
  all: destruct c as [[] [] [] [] [] [] [] []]; vm_compute; intro H;
    try discriminate H; auto.
Qed.

Ltac ci_letters :=
  repeat match goal with
         | H : Re.chr_eq true _ _ = true |- _ =>
             apply ci_letter in H; [|simpl; tauto];
             cbv in H; destruct H as [H|H]; subst
         end.

Ltac line_end :=
  match goal with
  | H : Re.at_eol ?t = true |- _ =>
      destruct t as [|? [|? ?]]; simpl in H; try discriminate H;
      try (apply Ascii.eqb_eq in H; subst)
  end.

Lemma boolean_value_converts (v : string) :
  Re.matches BooleanConverter.BOOLEAN_REGEX v = true ->
  exists b, BooleanConverter.convert v = Ok (PBool b).
Proof.
  intro H. apply matches_iff in H. destruct H as [e [t H]].
  unfold BooleanConverter.BOOLEAN_REGEX, Cat, Re.Opt, sp in H.
  cbn [Re.expr Re.ignorecase fold_right Any Re.Lit] in H.
  inv_lang; space_chars; ci_letters; line_end;
    solve [ exists true; vm_compute; reflexivity
          | exists false; vm_compute; reflexivity ].
Qed.

Lemma blank_value_converts (v : string) :
  Re.matches WHITESPACE_REGEX v = true ->
  BooleanConverter.convert v = Ok PNone.
Proof.
  intro H. apply matches_iff in H. destruct H as [e [t H]].
  apply blank_shape in H. destruct H as [w [-> [Hw Ht]]].
  unfold BooleanConverter.convert. rewrite strip_eqb_empty.
  rewrite all_chars_append.
  rewrite (@all_chars_weaken (Ascii.eqb " ") Py.is_space w); [|
    intros c Hc; apply Ascii.eqb_eq in Hc; now subst | exact Hw].
  line_end; reflexivity.
Qed.

(** A column that the boolean sniffer accepts is converted without an
    error: each of its values becomes [None] or a boolean, and one of them
    at least a boolean. *)
Theorem boolean_column_converts (values : list string) :
  BooleanConverter.sniff values = true ->
  Forall (fun v => BooleanConverter.convert v = Ok PNone
                   \/ exists b, BooleanConverter.convert v = Ok (PBool b))
         values
  /\ Exists (fun v => exists b, BooleanConverter.convert v = Ok (PBool b))
            values.
Proof.
  unfold BooleanConverter.sniff. rewrite sniff_true_iff.
  intros [Hex Hall]. split.
  - eapply Forall_impl; [|exact Hall]. intros v [Hv|Hv].
    + right. now apply boolean_value_converts.
    + left. now apply blank_value_converts.
  - eapply Exists_impl; [|exact Hex]. intros v Hv.
    now apply boolean_value_converts.
Qed.

Lemma boolean_column_converts_witness :
  BooleanConverter.sniff [" Yes"; ""; "f "; "NO"] = true
  /\ map BooleanConverter.convert [" Yes"; ""; "f "; "NO"]
     = [Ok (PBool true); Ok PNone; Ok (PBool false); Ok (PBool false)]
  /\ Forall (fun v => BooleanConverter.convert v = Ok PNone
                      \/ exists b, BooleanConverter.convert v = Ok (PBool b))
            [" Yes"; ""; "f "; "NO"].
Proof.
  split; [reflexivity|]. split; [reflexivity|].
  exact (proj1 (boolean_column_converts [" Yes"; ""; "f "; "NO"] eq_refl)).
Defined.

(** ** Integers written by [str] are read back *)

Lemma digit_is_plain (c : ascii) :
  Py.is_digit c = true ->
  Py.is_space c = false /\ Ascii.eqb c "," = false
  /\ Ascii.eqb c "-" = false /\ Ascii.eqb c "+" = false
  /\ Ascii.eqb c Py.LF = false.
Proof.
  destruct c as [[] [] [] [] [] [] [] []]; vm_compute; intro H;
    try discriminate H; repeat split.
Qed.

Lemma remove_comma_digits (s : string) :
  Py.all_chars Py.is_digit s = true -> Py.remove_char "," s = s.
Proof.
  induction s as [|c s IH]; cbn [Py.all_chars Py.remove_char]; [reflexivity|].
  intro H. apply andb_true_iff in H. destruct H as [Hc Hs].
  destruct (digit_is_plain c Hc) as [_ [-> _]]. now rewrite IH.
Qed.

Lemma rstrip_digits (s : string) :
  Py.all_chars Py.is_digit s = true -> Py.rstrip s = s.
Proof.
  induction s as [|c s IH]; cbn [Py.all_chars Py.rstrip]; [reflexivity|].
  intro H. apply andb_true_iff in H. destruct H as [Hc Hs].
  rewrite (IH Hs). destruct s; [|reflexivity].
  now destruct (digit_is_plain c Hc) as [-> _].
Qed.

Lemma digits_no_line_feed (s : string) :
  Py.all_chars Py.is_digit s = true -> no_line_feed s.
Proof.
  apply all_chars_weaken. intros c Hc.
  now destruct (digit_is_plain c Hc) as [_ [_ [_ [_ ->]]]].
Qed.

(** A sign, which is nothing or a minus, before digits. *)
Lemma strip_number (sign ds : string) :
  sign = "" \/ sign = "-" ->
  Py.all_chars Py.is_digit ds = true -> ds <> "" ->
  Py.strip (sign ++ ds) = (sign ++ ds)%string.
Proof.
  intros Hsign Hds Hne. unfold Py.strip.
  destruct ds as [|c ds]; [contradiction|].
  pose proof Hds as Hc. cbn [Py.all_chars] in Hc.
  apply andb_true_iff in Hc. destruct Hc as [Hc _].
  destruct (digit_is_plain c Hc) as [Hsp _].
  destruct Hsign as [-> | ->]; cbn [append Py.lstrip].
  - rewrite Hsp. now apply rstrip_digits.
  - change (Py.is_space "-") with false. cbn iota.
    change (Py.rstrip (String "-" (String c ds)))
      with (match Py.rstrip (String c ds) with
            | "" => if Py.is_space "-" then "" else "-"
            | t => String "-" t
            end)%string.
    now rewrite (rstrip_digits _ Hds).
Qed.

Lemma lang_star_digits (body : Re.regex) :
  (forall c pos s, Py.is_digit c = true ->
                   Re.lang false body pos (String c s) (S pos) s) ->
  forall w pos,
    Py.all_chars Py.is_digit w = true ->
    Re.lang false (Re.Star body) pos w (pos + String.length w) "".
Proof.
  intro Hbody. induction w as [|c w IH]; intros pos H.
  - cbn [String.length]. rewrite Nat.add_0_r. constructor.
  - cbn [Py.all_chars] in H. apply andb_true_iff in H. destruct H as [Hc Hw].
    apply Re.lang_Star_step with (p1 := S pos) (t := w).
    + now apply Hbody.
    + cbn [String.length]. lia.
    + cbn [String.length]. rewrite Nat.add_succ_r. exact (IH (S pos) Hw).
Qed.

Lemma integer_lang (sign ds : string) :
  sign = "" \/ sign = "-" ->
  Py.all_chars Py.is_digit ds = true -> ds <> "" ->
  exists e t,
    Re.lang false (Re.expr IntegerConverter.INTEGER_REGEX) 0 (sign ++ ds) e t.
Proof.
  intros Hsign Hds Hne. destruct ds as [|c ds]; [contradiction|].
  cbn [Py.all_chars] in Hds. apply andb_true_iff in Hds.
  destruct Hds as [Hc Hds].
  assert (forall pos,
             Re.lang false (Re.Plus (Any Re.Digit [Re.Chr ","; sp]))
               pos (String c ds) (S pos + String.length ds) "") as Hplus.
  { intro pos. unfold Re.Plus.
    apply Re.lang_Seq with (p1 := S pos) (t := ds).
    - cbn [Any]. now apply Re.lang_Alt_l, Re.lang_Digit.
    - apply lang_star_digits; [|exact Hds].
      intros a p s Ha. cbn [Any]. now apply Re.lang_Alt_l, Re.lang_Digit. }
  unfold IntegerConverter.INTEGER_REGEX, Cat, Re.Opt.
  cbn [Re.expr fold_right].
  destruct Hsign as [-> | ->]; cbn [append]; do 2 eexists.
  - eapply Re.lang_Seq; [apply Re.lang_Bol|].
    eapply Re.lang_Seq; [apply Re.lang_Alt_r, Re.lang_Eps|].
    eapply Re.lang_Seq; [apply Re.lang_Alt_r, Re.lang_Eps|].
    eapply Re.lang_Seq; [apply Hplus|].
    eapply Re.lang_Seq; [now apply Re.lang_Eol|apply Re.lang_Eps].
  - eapply Re.lang_Seq; [apply Re.lang_Bol|].
    eapply Re.lang_Seq; [apply Re.lang_Alt_r, Re.lang_Eps|].
    eapply Re.lang_Seq; [now apply Re.lang_Alt_l, Re.lang_Chr|].
    eapply Re.lang_Seq; [apply Hplus|].
    eapply Re.lang_Seq; [now apply Re.lang_Eol|apply Re.lang_Eps].
Qed.

(** A pattern that ends at the end of the line matches the whole of a
    text without a line feed, when it matches. *)
Lemma match_whole (p : Re.Pattern) (v : string) :
  no_line_feed v ->
  (forall e t, Re.lang (Re.ignorecase p) (Re.expr p) 0 v e t ->
               Re.at_eol t = true) ->
  (exists e t, Re.lang (Re.ignorecase p) (Re.expr p) 0 v e t) ->
  Re.match_ p v = Some v.
Proof.
  intros Hlf Heol [e [t Hlang]]. unfold Re.match_.
  destruct (Re.run _ _ 0 v _) as [e'|] eqn:Hrun.
  - apply run_sound in Hrun. destruct Hrun as [p1 [t1 [H1 [= <-]]]].
    pose proof (Heol _ _ H1) as Ht1.
    apply lang_consumes in H1. destruct H1 as [w [Hv [-> Hw]]].
    destruct t1 as [|a [|? ?]]; try discriminate Ht1.
    + rewrite append_empty_r in Hv. subst w. cbn [Nat.add].
      now rewrite substring_full.
    + exfalso. unfold no_line_feed in Hlf. rewrite Hv in Hlf.
      rewrite all_chars_append in Hlf. cbn [Py.all_chars] in Hlf.
      cbn [Re.at_eol] in Ht1. rewrite Ht1 in Hlf. cbn [negb] in Hlf.
      rewrite andb_false_r in Hlf. discriminate.
  - exfalso. revert Hrun. eapply run_complete; [exact Hlang|discriminate].
Qed.

Lemma digits_acc_step (c : ascii) (acc : Z) (b : bool) (s : string) :
  Py.is_digit c = true ->
  Py.digits_acc acc b (String c s)
  = Py.digits_acc (10 * acc + Py.digit_val c) true s.
Proof. intro H. cbn [Py.digits_acc]. now rewrite H. Qed.

Ltac digit_step :=
  rewrite digits_acc_step by reflexivity;
  match goal with
  | |- context [Py.digit_val ?c] =>
      let v := eval vm_compute in (Py.digit_val c) in
      change (Py.digit_val c) with v
  end.

Lemma digits_acc_uint (d : Decimal.uint) :
  forall acc : positive,
    Py.digits_acc (Z.pos acc) true (NilEmpty.string_of_uint d)
    = Some (Z.pos (Pos.of_uint_acc d acc)).
Proof.
  induction d as [|d IH|d IH|d IH|d IH|d IH|d IH|d IH|d IH|d IH|d IH];
    intro acc; cbn [NilEmpty.string_of_uint Pos.of_uint_acc];
    [reflexivity|..];
    digit_step; rewrite <- IH; f_equal; lia.
Qed.

Lemma digits_acc_zero (d : Decimal.uint) :
  d <> Decimal.Nil ->
  forall b, Py.digits_acc 0 b (NilEmpty.string_of_uint d)
            = Some (Z.of_N (Pos.of_uint d)).
Proof.
  induction d as [|d IH|d IH|d IH|d IH|d IH|d IH|d IH|d IH|d IH|d IH];
    intros Hd b; [contradiction|..];
    cbn [NilEmpty.string_of_uint Pos.of_uint]; digit_step;
    try exact (digits_acc_uint d _).
  destruct d; [reflexivity|..]; apply IH; discriminate.
Qed.

Lemma uint_digits (d : Decimal.uint) :
  Py.all_chars Py.is_digit (NilEmpty.string_of_uint d) = true.
Proof.
  induction d; cbn [NilEmpty.string_of_uint Py.all_chars];
    [reflexivity|..]; now rewrite IHd.
Qed.

Lemma uint_text (d : Decimal.uint) :
  d <> Decimal.Nil ->
  NilZero.string_of_uint d = NilEmpty.string_of_uint d
  /\ NilEmpty.string_of_uint d <> "".
Proof. destruct d; [contradiction|..]; intros _; split; easy. Qed.

(** Digits behind an optional minus are converted to the number they
    denote. *)
Lemma convert_digits (sign ds : string) (m : Z) :
  sign = "" \/ sign = "-" ->
  Py.all_chars Py.is_digit ds = true -> ds <> "" ->
  Py.digits_acc 0 false ds = Some m ->
  IntegerConverter.convert (sign ++ ds)
  = Ok (PInt (if String.eqb sign "" then m else (- m)%Z)).
Proof.
  intros Hsign Hds Hne Hm. unfold IntegerConverter.convert.
  assert (no_line_feed (sign ++ ds)) as Hlf.
  { unfold no_line_feed. rewrite all_chars_append.
    rewrite (digits_no_line_feed _ Hds).
    now destruct Hsign as [-> | ->]. }
  assert (Py.remove_char "," (sign ++ ds) = (sign ++ ds)%string) as Hcomma.
  { destruct Hsign as [-> | ->]; cbn [append Py.remove_char].
    - now apply remove_comma_digits.
    - change (Ascii.eqb "-" ",") with false. cbn iota.
      now rewrite remove_comma_digits. }
  rewrite (strip_number Hsign Hds Hne).
  assert (String.eqb (sign ++ ds) "" = false) as ->.
  { destruct Hsign as [-> | ->]; [|reflexivity].
    destruct ds; [contradiction|reflexivity]. }
  rewrite match_whole; [|exact Hlf| |now apply integer_lang].
  - rewrite Hcomma. unfold Py.int. rewrite (strip_number Hsign Hds Hne).
    destruct Hsign as [-> | ->]; cbn [append Py.split_sign String.eqb].
    + destruct ds as [|c ds]; [contradiction|].
      cbn [Py.all_chars] in Hds. apply andb_true_iff in Hds.
      destruct Hds as [Hc _].
      destruct (digit_is_plain c Hc) as [_ [_ [Hminus [Hplus _]]]].
      assert (Py.split_sign (String c ds) = (false, String c ds)) as ->.
      { unfold Py.split_sign.
        destruct c as [[] [] [] [] [] [] [] []]; try reflexivity;
          discriminate. }
      now rewrite Hm.
    + now rewrite Hm.
  - intros e t H. apply number_shape in H.
    now destruct H as [pre [w [_ [_ [_ Ht]]]]].
Qed.

(** An integer written by [str] is converted back to itself. *)
Theorem integer_round_trip (n : Z) :
  IntegerConverter.convert (py_str (PInt n)) = Ok (PInt n).
Proof.
  cbn [py_str]. unfold Py.str_int.
  destruct n as [|p|p]; cbn [Z.to_int NilZero.string_of_int].
  - reflexivity.
  - destruct (uint_text (DecimalPos.Unsigned.to_uint_nonnil p)) as [-> Hne].
    apply (@convert_digits "" (NilEmpty.string_of_uint (Pos.to_uint p))
             (Z.pos p)); [now left|apply uint_digits|exact Hne|].
    rewrite digits_acc_zero by apply DecimalPos.Unsigned.to_uint_nonnil.
    now rewrite DecimalPos.Unsigned.of_to.
  - destruct (uint_text (DecimalPos.Unsigned.to_uint_nonnil p)) as [-> Hne].
    apply (@convert_digits "-" (NilEmpty.string_of_uint (Pos.to_uint p))
             (Z.pos p)); [now right|apply uint_digits|exact Hne|].
    rewrite digits_acc_zero by apply DecimalPos.Unsigned.to_uint_nonnil.
    now rewrite DecimalPos.Unsigned.of_to.
Qed.

(** ** Dates written by [str] are read back *)

Lemma pad4_checked :
  forallb
    (fun q =>
       forallb
         (fun r =>
            let n := (100 * Z.of_nat q + Z.of_nat r)%Z in
            match PyDate.pad 4 n with
            | String a (String _ (String _ (String _ ""))) =>
                Py.is_digit a
                && match PyDate.digits_of (PyDate.pad 4 n) with
                   | Some v => (v =? n)%Z
                   | None => false
                   end
            | _ => false
            end)
         (seq 0 100))
    (seq 0 100) = true.
Proof. vm_compute. reflexivity. Qed.

Lemma pad2_checked :
  forallb
    (fun r =>
       let n := Z.of_nat r in
       match PyDate.pad 2 n with
       | String _ (String b "") =>
           Py.is_digit b
           && match PyDate.digits_of (PyDate.pad 2 n) with
              | Some v => (v =? n)%Z
              | None => false
              end
       | _ => false
       end)
    (seq 0 100) = true.
Proof. vm_compute. reflexivity. Qed.

Lemma pad4_spec (n : Z) :
  (0 <= n <= 9999)%Z ->
  exists a b c e,
    PyDate.pad 4 n = String a (String b (String c (String e "")))
    /\ Py.is_digit a = true
    /\ PyDate.digits_of (String a (String b (String c (String e ""))))
       = Some n.
Proof.
  intro Hn. pose proof pad4_checked as H. rewrite forallb_forall in H.
  specialize (H (Z.to_nat (n / 100))).
  rewrite forallb_forall in H.
  assert (0 <= n / 100 < 100 /\ 0 <= n mod 100 < 100)%Z as [Hq Hr].
  { split; [|apply Z.mod_pos_bound; lia].
    split; [apply Z.div_pos; lia|apply Z.div_lt_upper_bound; lia]. }
  assert (In (Z.to_nat (n / 100)) (seq 0 100)) as Hinq
    by (apply in_seq; lia).
  assert (In (Z.to_nat (n mod 100)) (seq 0 100)) as Hinr
    by (apply in_seq; lia).
  specialize (H Hinq _ Hinr).
  cbv zeta in H. rewrite !Z2Nat.id in H by lia.
  rewrite <- Z.div_mod in H by lia.
  destruct (PyDate.pad 4 n) as [|a [|b [|c [|e [|? ?]]]]]; try discriminate H.
  apply andb_true_iff in H. destruct H as [Ha H].
  destruct (PyDate.digits_of _) as [v|] eqn:Hv; [|discriminate H].
  apply Z.eqb_eq in H. subst v. now exists a, b, c, e.
Qed.

Lemma pad2_spec (n : Z) :
  (0 <= n <= 99)%Z ->
  exists a b,
    PyDate.pad 2 n = String a (String b "")
    /\ Py.is_digit b = true
    /\ PyDate.digits_of (String a (String b "")) = Some n.
Proof.
  intro Hn. pose proof pad2_checked as H. rewrite forallb_forall in H.
  assert (In (Z.to_nat n) (seq 0 100)) as Hin by (apply in_seq; lia).
  specialize (H _ Hin).
  cbv zeta in H. rewrite Z2Nat.id in H by lia.
  destruct (PyDate.pad 2 n) as [|a [|b [|? ?]]]; try discriminate H.
  apply andb_true_iff in H. destruct H as [Hb H].
  destruct (PyDate.digits_of _) as [v|] eqn:Hv; [|discriminate H].
  apply Z.eqb_eq in H. subst v. now exists a, b.
Qed.

Lemma rstrip_last (s : string) (c : ascii) :
  Py.is_space c = false ->
  Py.rstrip (s ++ String c "") = (s ++ String c "")%string.
Proof.
  intro Hc. induction s as [|a s IH]; cbn [append Py.rstrip].
  - now rewrite Hc.
  - rewrite IH. now destruct s.
Qed.

Lemma days_in_month_bound (y m : Z) : (PyDate.days_in_month y m <= 31)%Z.
Proof.
  unfold PyDate.days_in_month.
  destruct (m =? 2)%Z; [destruct (PyDate.is_leap y); lia|].
  destruct (_ || _); lia.
Qed.

(** A date of the calendar written by [str] is converted back to
    itself. *)
Theorem date_round_trip (y m d : Z) (day : PyDate.date) :
  PyDate.new y m d = Ok day ->
  DateConverter.convert (py_str (PDate day)) = Ok (PDate day).
Proof.
  intro Hnew. pose proof Hnew as Hcal. unfold PyDate.new in Hcal.
  destruct (_ && _) eqn:E in Hcal; [|discriminate Hcal].
  injection Hcal as <-.
  repeat (apply andb_true_iff in E; destruct E as [E ?]).
  repeat match goal with
         | H : (_ <=? _)%Z = true |- _ => apply Z.leb_le in H
         end.
  pose proof (days_in_month_bound y m) as Hdays.
  destruct (@pad4_spec y) as [a [b [c [e [Hy [Ha Hdy]]]]]]; [lia|].
  destruct (@pad2_spec m) as [f [g [Hm [_ Hdm]]]]; [lia|].
  destruct (@pad2_spec d) as [h [i [Hd [Hi Hdd]]]]; [lia|].
  cbn [py_str]. unfold PyDate.isoformat. cbn [PyDate.year PyDate.month
                                               PyDate.day].
  rewrite Hy, Hm, Hd. cbn [append].
  unfold DateConverter.convert.
  destruct (digit_is_plain a Ha) as [Hspa _].
  destruct (digit_is_plain i Hi) as [Hspi _].
  match goal with
  | |- context [Py.strip ?s] =>
      assert (Py.strip s = s) as ->
  end.
  { unfold Py.strip. cbn [Py.lstrip]. rewrite Hspa.
    exact (@rstrip_last
             (String a (String b (String c (String e (String "-"
                (String f (String g (String "-" (String h "")))))))))
             i Hspi). }
  cbn [String.eqb]. unfold PyDate.fromisoformat.
  cbn [String.length Nat.eqb negb substring].
  rewrite Hdy, Hdm, Hdd. now rewrite Hnew.
Qed.

Lemma date_round_trip_witness :
  PyDate.new 2024 2 29 = Ok (PyDate.mk_date 2024 2 29)
  /\ py_str (PDate (PyDate.mk_date 2024 2 29)) = "2024-02-29"
  /\ DateConverter.convert (py_str (PDate (PyDate.mk_date 2024 2 29)))
     = Ok (PDate (PyDate.mk_date 2024 2 29)).
Proof.
  split; [reflexivity|]. split; [reflexivity|].
  exact (@date_round_trip 2024 2 29 (PyDate.mk_date 2024 2 29) eq_refl).
Defined.
